(** * Game Time Tracker: the session timer and the totals ledger

    A shallow embedding of the timer page of the tracker (the variant that
    anchors a session to a stored start timestamp), with the pieces of the
    JavaScript runtime it relies on: numbers, [parseInt], [toString], the
    [Date] calendar, [JSON] and [localStorage].

    Conventions.
    - Integral JavaScript numbers are modelled by [Z], exactly: no rounding
      above 2^53 and no exponent notation in [toString].  The one other
      value the program can load, NaN, is a constructor of [num].
      Quotients (the two averages) are exact rationals.
    - Strings are byte strings; a character is an [ascii].
    - The clock is an argument: every [Date.now()] and [new Date()] of the
      source is a parameter holding milliseconds since the epoch.
    - The local time zone is a parameter, a [JsDate.TimeZone]: the offset
      of local time from UTC may change from one instant to the next.  A
      number [tza] of milliseconds stands for the zone of that fixed
      offset.
    - The component is a record of its React state, its ref and the
      storage; a handler or an effect is one function on that record, and
      a state update takes effect at once. *)

From Stdlib Require Import ZArith QArith Qround Lia String Ascii List Sorted.
From stdpp Require Import gmap strings list fin_maps.

Local Open Scope Z_scope.

(* ===================================================================== *)
(** * JavaScript numbers                                                  *)
(* ===================================================================== *)

(** An integral number or NaN. *)
Inductive num : Type :=
  | Num (z : Z)
  | NaN.

(** A quotient of two numbers: finite, or one of NaN and the infinities. *)
Inductive quotient : Type :=
  | Finite (q : Q)
  | NotFinite.

Module Js.

(** ToBoolean on a number: false exactly at 0 and NaN. *)
Definition truthyNum (n : num) : bool :=
  match n with
  | Num z => negb (z =? 0)
  | NaN => false
  end.

(** ToBoolean on a string: false exactly at the empty string. *)
Definition truthyStr (s : string) : bool :=
  match s with
  | EmptyString => false
  | String _ _ => true
  end.

(** [a + b] *)
Definition add (a b : num) : num :=
  match a, b with
  | Num x, Num y => Num (x + y)
  | _, _ => NaN
  end.

(** [a > b]; every comparison with NaN is false. *)
Definition gt (a b : num) : bool :=
  match a, b with
  | Num x, Num y => y <? x
  | _, _ => false
  end.

(** [a / b] on integral operands. *)
Definition div (a b : Z) : quotient :=
  if b =? 0 then NotFinite else Finite (inject_Z a / inject_Z b)%Q.

(** ** Digits *)

(** The character of a decimal digit: code 48 is the digit 0.  Arguments
    outside 0..9 are clamped; the callers pass remainders modulo 10. *)
Definition digitChar (d : Z) : ascii :=
  ascii_of_N (Z.to_N (48 + Z.min (Z.max 0 d) 9)).

Definition digitValue (c : ascii) : option Z :=
  let code := Z.of_N (N_of_ascii c) in
  if (48 <=? code) && (code <=? 57) then Some (code - 48) else None.

Definition isDigit (c : ascii) : bool :=
  match digitValue c with Some _ => true | None => false end.

(** The decimal digits of a non-negative integer, most significant
    first.  The fuel is the number of binary digits, which bounds the
    number of decimal ones. *)
Fixpoint digitsFuel (fuel : nat) (n : Z) (acc : string) : string :=
  match fuel with
  | O => String (digitChar (n mod 10)) acc
  | S f =>
      if n <? 10 then String (digitChar n) acc
      else digitsFuel f (n / 10) (String (digitChar (n mod 10)) acc)
  end.

Definition bits (n : Z) : nat :=
  match n with
  | Zpos p => Pos.size_nat p
  | _ => O
  end.

Definition digits (n : Z) : string := digitsFuel (bits n) n EmptyString.

(** [z.toString()] for an integer. *)
Definition intToString (z : Z) : string :=
  if z <? 0 then String "-"%char (digits (- z)) else digits z.

(** [n.toString()] *)
Definition toString (n : num) : string :=
  match n with
  | Num z => intToString z
  | NaN => "NaN"%string
  end.

(** ** parseInt(s, 10) *)

(** White space and line terminators, as far as they are single bytes. *)
Definition isWhite (c : ascii) : bool :=
  let code := N_of_ascii c in
  ((9 <=? code) && (code <=? 13) || (code =? 32))%N.

Fixpoint skipWhite (s : string) : string :=
  match s with
  | String c s' => if isWhite c then skipWhite s' else s
  | EmptyString => s
  end.

(** The value of the longest prefix of digits, if there is a digit. *)
Fixpoint digitRun (acc : option Z) (s : string) : option Z :=
  match s with
  | String c s' =>
      match digitValue c with
      | Some d =>
          digitRun (Some (match acc with Some a => a * 10 + d | None => d end)) s'
      | None => acc
      end
  | EmptyString => acc
  end.

(** The digits after the sign; NaN when there is none. *)
Definition parseDigits (sign : Z) (t : string) : num :=
  match digitRun None t with
  | Some v => Num (sign * v)
  | None => NaN
  end.

Definition parseInt (s : string) : num :=
  match skipWhite s with
  | String c t =>
      if Ascii.eqb c "-" then parseDigits (-1) t
      else if Ascii.eqb c "+" then parseDigits 1 t
      else parseDigits 1 (String c t)
  | EmptyString => NaN
  end.

End Js.

(* ===================================================================== *)
(** * The Date object                                                     *)
(* ===================================================================== *)

(** A [Date] is its time value, milliseconds since the epoch, as [Z].
    Time values produced by the clock are inside the range on which
    [toISOString] does not raise, so that method is modelled as total. *)
Module JsDate.

Definition msPerDay : Z := 86400000.
Definition msPerHour : Z := 3600000.
Definition msPerMinute : Z := 60000.
Definition msPerSecond : Z := 1000.

Definition Day (t : Z) : Z := t / msPerDay.
Definition TimeWithinDay (t : Z) : Z := t mod msPerDay.

(** Proleptic Gregorian calendar: a day number is split into the era of
    400 years it lies in (eras start on 1 March), the day of the era, the
    year of the era and the day of that year; months count from March. *)
Definition dayOfEra (day : Z) : Z := (day + 719468) mod 146097.
Definition era (day : Z) : Z := (day + 719468) / 146097.
Definition yearOfEra (doe : Z) : Z :=
  (doe - doe / 1460 + doe / 36524 - doe / 146096) / 365.
Definition dayOfYear (doe : Z) : Z :=
  let yoe := yearOfEra doe in
  doe - (365 * yoe + yoe / 4 - yoe / 100).
Definition monthFromMarch (doy : Z) : Z := (5 * doy + 2) / 153.

(** Month of the year, 1 to 12. *)
Definition monthOfDay (day : Z) : Z :=
  let mp := monthFromMarch (dayOfYear (dayOfEra day)) in
  if mp <? 10 then mp + 3 else mp - 9.

(** Day of the month, 1 to 31. *)
Definition dateOfDay (day : Z) : Z :=
  let doy := dayOfYear (dayOfEra day) in
  doy - (153 * monthFromMarch doy + 2) / 5 + 1.

Definition yearOfDay (day : Z) : Z :=
  yearOfEra (dayOfEra day) + 400 * era day
  + (if monthOfDay day <=? 2 then 1 else 0).

(** The day number of a calendar date; [d] may lie outside the month. *)
Definition dayFromCivil (y m d : Z) : Z :=
  let y' := if m <=? 2 then y - 1 else y in
  let yoe := y' mod 400 in
  let mp := if m <=? 2 then m + 9 else m - 3 in
  let doy := (153 * mp + 2) / 5 + d - 1 in
  (y' / 400) * 146097 + (yoe * 365 + yoe / 4 - yoe / 100 + doy) - 719468.

Definition YearFromTime (t : Z) : Z := yearOfDay (Day t).
Definition MonthFromTime (t : Z) : Z := monthOfDay (Day t).
Definition DateFromTime (t : Z) : Z := dateOfDay (Day t).
Definition WeekDay (t : Z) : Z := (Day t + 4) mod 7.
Definition HourFromTime (t : Z) : Z := (t / msPerHour) mod 24.
Definition MinFromTime (t : Z) : Z := (t / msPerMinute) mod 60.
Definition SecFromTime (t : Z) : Z := (t / msPerSecond) mod 60.
Definition msFromTime (t : Z) : Z := t mod msPerSecond.

(** [MakeDay(year, month, date)] for a month of the year, 1 to 12. *)
Definition MakeDay (y m dt : Z) : Z := dayFromCivil y m 1 + dt - 1.
Definition MakeDate (day time : Z) : Z := day * msPerDay + time.

(** ** Fixed-width decimal fields *)

Definition pad2 (n : Z) : string :=
  String (Js.digitChar (n / 10 mod 10))
    (String (Js.digitChar (n mod 10)) EmptyString).

Definition pad3 (n : Z) : string :=
  String (Js.digitChar (n / 100 mod 10)) (pad2 n).

Definition pad4 (n : Z) : string :=
  String (Js.digitChar (n / 1000 mod 10)) (pad3 n).

Definition pad6 (n : Z) : string :=
  String (Js.digitChar (n / 100000 mod 10))
    (String (Js.digitChar (n / 10000 mod 10)) (pad4 n)).

(** Four digits for the years 0 to 9999, otherwise a sign and six. *)
Definition isoYear (y : Z) : string :=
  if (0 <=? y) && (y <=? 9999) then pad4 y
  else if y <? 0 then String "-"%char (pad6 (- y))
  else String "+"%char (pad6 y).

(** The date part of the ISO rendering of a day number. *)
Definition isoDate (day : Z) : string :=
  isoYear (yearOfDay day) +:+ "-" +:+ pad2 (monthOfDay day)
    +:+ "-" +:+ pad2 (dateOfDay day).

Definition isoTime (t : Z) : string :=
  pad2 (HourFromTime t) +:+ ":" +:+ pad2 (MinFromTime t) +:+ ":"
    +:+ pad2 (SecFromTime t) +:+ "." +:+ pad3 (msFromTime t).

(** [date.toISOString()]: always in UTC. *)
Definition toISOString (t : Z) : string :=
  isoDate (Day t) +:+ "T" +:+ isoTime t +:+ "Z".

(** ** Local time

    The time zone of the host gives the offset of local time from UTC, in
    milliseconds: [offsetAt] at an instant (LocalTZA(t, true) of the
    language specification), and [offsetOfLocal] for a local time
    (LocalTZA(t, false)), which is what the conversion back to UTC uses.
    Where a change of the clocks skips or repeats local times, the host
    decides which offset a local time gets; no relation between the two
    functions is assumed here. *)
Record TimeZone : Type := mkTimeZone {
  offsetAt : Z -> Z;
  offsetOfLocal : Z -> Z
}.

(** The zone that is always [tza] milliseconds ahead of UTC. *)
Definition fixedOffset (tza : Z) : TimeZone :=
  mkTimeZone (fun _ => tza) (fun _ => tza).

Definition LocalTime (tz : TimeZone) (t : Z) : Z := t + offsetAt tz t.
Definition UTC (tz : TimeZone) (t : Z) : Z := t - offsetOfLocal tz t.

(** [date.getDay()]: 0 is Sunday. *)
Definition getDay (tz : TimeZone) (t : Z) : Z := WeekDay (LocalTime tz t).

(** [date.getDate()]: the day of the month. *)
Definition getDate (tz : TimeZone) (t : Z) : Z := DateFromTime (LocalTime tz t).

(** [date.setDate(dt)]: the new time value, which the method also
    returns.  The date is set in local time, and the local time that
    results is converted back.  A day outside the month rolls over into
    its neighbours. *)
Definition setDate (tz : TimeZone) (t dt : Z) : Z :=
  let lt := LocalTime tz t in
  UTC tz (MakeDate (MakeDay (YearFromTime lt) (MonthFromTime lt) dt)
                   (TimeWithinDay lt)).

End JsDate.

(** Where a time zone is expected, a number of milliseconds stands for the
    zone of that fixed offset. *)
Coercion JsDate.fixedOffset : Z >-> JsDate.TimeZone.

(** [s.split(sep)[0]]: the text before the first separator. *)
Fixpoint splitHead (sep : ascii) (s : string) : string :=
  match s with
  | EmptyString => EmptyString
  | String c s' => if Ascii.eqb c sep then EmptyString else String c (splitHead sep s')
  end.

(* ===================================================================== *)
(** * JSON                                                                *)
(* ===================================================================== *)

(** The only JSON values of the program are objects from date keys to
    integral durations, held as a finite map.  [o[k]] is lookup among the
    object's own keys (the keys the program asks for are dates, never a
    name that objects inherit).  [Object.keys] is the list of keys of the
    map; the program only sums over it, so the order in which a map lists
    its keys does not matter. *)
Abbreviation DailyTotals := (gmap string Z).

Definition Object_keys (o : DailyTotals) : list string := (map_to_list o).*1.

(** [o[k] || 0] *)
Definition orZero (v : option Z) : Z :=
  match v with
  | Some x => if x =? 0 then 0 else x
  | None => 0
  end.

Module Json.

Inductive token : Type :=
  | TLBrace | TRBrace | TColon | TComma
  | TStr (s : string)
  | TInt (z : Z).

(** The lexer reads one character at a time.  [InStr] is inside a string
    literal, [InEsc] after a backslash, [InHex n v] inside a \u escape
    with [n] digits to go, [InNeg] after a minus sign, and
    [InNum neg v lead0] inside a number whose digits so far have value
    [v]; [lead0] says that they are the single digit 0. *)
Inductive mode : Type :=
  | Top
  | InStr
  | InEsc
  | InHex (n : nat) (v : Z)
  | InNeg
  | InNum (neg : bool) (v : Z) (lead0 : bool).

Inductive action : Type :=
  | Emit (t : token)
  | Enter (m : mode)
  | Reject.

Definition isJsonWhite (c : ascii) : bool :=
  match c with
  | " " | "009" | "010" | "013" => true
  | _ => false
  end%char.

(** What a character starts when no token is open.  Values other than
    integers (fractions, exponents, literals, arrays) are outside the
    shape of a totals object and are rejected. *)
Definition atTop (c : ascii) : action :=
  match c with
  | "{" => Emit TLBrace
  | "}" => Emit TRBrace
  | ":" => Emit TColon
  | "," => Emit TComma
  | "034" => Enter InStr
  | "-" => Enter InNeg
  | _ =>
      match Js.digitValue c with
      | Some d => Enter (InNum false d (d =? 0)%Z)
      | None => if isJsonWhite c then Enter Top else Reject
      end
  end%char.

Definition signed (neg : bool) (v : Z) : Z := if neg then - v else v.

(** The character a one-letter escape stands for. *)
Definition unescape (c : ascii) : option ascii :=
  match c with
  | "034" => Some "034"
  | "\" => Some "\"
  | "/" => Some "/"
  | "b" => Some "008"
  | "f" => Some "012"
  | "n" => Some "010"
  | "r" => Some "013"
  | "t" => Some "009"
  | _ => None
  end%char.

Definition hexValue (c : ascii) : option Z :=
  match c with
  | "a" | "A" => Some 10 | "b" | "B" => Some 11 | "c" | "C" => Some 12
  | "d" | "D" => Some 13 | "e" | "E" => Some 14 | "f" | "F" => Some 15
  | _ => Js.digitValue c
  end%char.

Definition isControl (c : ascii) : bool := (N_of_ascii c <? 32)%N.

(** Put a character in front of the string literal that a token list
    starts with. *)
Definition pushChar (c : ascii) (r : option (list token)) : option (list token) :=
  match r with
  | Some (TStr s :: ts) => Some (TStr (String c s) :: ts)
  | _ => None
  end.

Definition emit (t : token) (r : option (list token)) : option (list token) :=
  match r with
  | Some ts => Some (t :: ts)
  | None => None
  end.

Fixpoint lex (m : mode) (s : string) : option (list token) :=
  match s with
  | EmptyString =>
      match m with
      | Top => Some []
      | InNum neg v _ => Some [TInt (signed neg v)]
      | _ => None
      end
  | String c s' =>
      match m with
      | Top =>
          match atTop c with
          | Emit t => emit t (lex Top s')
          | Enter m' => lex m' s'
          | Reject => None
          end
      | InStr =>
          if Ascii.eqb c "034" then emit (TStr EmptyString) (lex Top s')
          else if Ascii.eqb c "\" then lex InEsc s'
          else if isControl c then None
          else pushChar c (lex InStr s')
      | InEsc =>
          match unescape c with
          | Some e => pushChar e (lex InStr s')
          | None => if Ascii.eqb c "u" then lex (InHex 4 0) s' else None
          end
      | InHex n v =>
          match hexValue c with
          | Some h =>
              let v' := v * 16 + h in
              match n with
              | 1%nat =>
                  (* code units above a byte are outside the string model *)
                  if v' <? 256 then pushChar (ascii_of_N (Z.to_N v')) (lex InStr s')
                  else None
              | _ => lex (InHex (Nat.pred n) v') s'
              end
          | None => None
          end
      | InNeg =>
          match Js.digitValue c with
          | Some d => lex (InNum true d (d =? 0)) s'
          | None => None
          end
      | InNum neg v lead0 =>
          match Js.digitValue c with
          | Some d => if lead0 then None else lex (InNum neg (v * 10 + d) false) s'
          | None =>
              match atTop c with
              | Emit t => emit (TInt (signed neg v)) (emit t (lex Top s'))
              | Enter Top => emit (TInt (signed neg v)) (lex Top s')
              | _ => None
              end
          end
      end
  end.

(** The members of an object after its opening brace; a key that occurs
    twice keeps its last value. *)
Fixpoint members (acc : DailyTotals) (ts : list token) : option DailyTotals :=
  match ts with
  | TStr k :: TColon :: TInt v :: rest =>
      match rest with
      | [TRBrace] => Some (<[k := v]> acc)
      | TComma :: rest' => members (<[k := v]> acc) rest'
      | _ => None
      end
  | _ => None
  end.

(** The totals object that a text denotes, when it is an object whose
    values are integers in plain decimal notation. *)
Definition readTotals (text : string) : option DailyTotals :=
  match lex Top text with
  | Some [TLBrace; TRBrace] => Some ∅
  | Some (TLBrace :: ts) => members ∅ ts
  | _ => None
  end.

(** ** The JSON grammar

    Whether a text is JSON at all does not depend on what its values are:
    any value may stand at the top or inside an array or an object, a
    number may have a fraction and an exponent, and a string may hold any
    escape. *)

(** The lexical elements; a scalar is a number or one of the literals
    true, false and null. *)
Inductive lexeme : Type :=
  | LBrace | RBrace | LBracket | RBracket | Colon | Comma
  | StringLit
  | Scalar.

(** Where the scanner is: between elements, inside a string literal (after
    a backslash, inside a \u escape with [n] digits to go), at one of the
    places of a number, or inside a literal of which [rest] is to come. *)
Inductive place : Type :=
  | Between
  | InString
  | InEscape
  | InUnicode (n : nat)
  | AfterMinus
  | AfterZero
  | InInteger
  | AfterPoint
  | InFraction
  | AfterE
  | AfterExpSign
  | InExponent
  | InLiteral (rest : string).

Inductive move : Type :=
  | Give (l : lexeme)
  | Go (p : place)
  | Stop.

(** What a character starts between two elements. *)
Definition startOf (c : ascii) : move :=
  match c with
  | "{" => Give LBrace
  | "}" => Give RBrace
  | "[" => Give LBracket
  | "]" => Give RBracket
  | ":" => Give Colon
  | "," => Give Comma
  | "034" => Go InString
  | "-" => Go AfterMinus
  | "0" => Go AfterZero
  | "t" => Go (InLiteral "rue")
  | "f" => Go (InLiteral "alse")
  | "n" => Go (InLiteral "ull")
  | _ =>
      if Js.isDigit c then Go InInteger
      else if isJsonWhite c then Go Between
      else Stop
  end%char.

Definition isPoint (c : ascii) : bool := Ascii.eqb c ".".
Definition isExponentMark (c : ascii) : bool := Ascii.eqb c "e" || Ascii.eqb c "E".
Definition isSign (c : ascii) : bool := Ascii.eqb c "+" || Ascii.eqb c "-".

Definition give (l : lexeme) (r : option (list lexeme)) : option (list lexeme) :=
  match r with
  | Some ls => Some (l :: ls)
  | None => None
  end.

Fixpoint scan (p : place) (s : string) : option (list lexeme) :=
  match s with
  | EmptyString =>
      match p with
      | Between => Some []
      | AfterZero | InInteger | InFraction | InExponent => Some [Scalar]
      | _ => None
      end
  | String c s' =>
      (* the number ends before [c] *)
      let numberEnds :=
        match startOf c with
        | Give l => give Scalar (give l (scan Between s'))
        | Go p' => give Scalar (scan p' s')
        | Stop => None
        end in
      match p with
      | Between =>
          match startOf c with
          | Give l => give l (scan Between s')
          | Go p' => scan p' s'
          | Stop => None
          end
      | InString =>
          if Ascii.eqb c "034" then give StringLit (scan Between s')
          else if Ascii.eqb c "\" then scan InEscape s'
          else if isControl c then None
          else scan InString s'
      | InEscape =>
          match unescape c with
          | Some _ => scan InString s'
          | None => if Ascii.eqb c "u" then scan (InUnicode 4) s' else None
          end
      | InUnicode n =>
          match hexValue c with
          | Some _ =>
              match n with
              | 1%nat => scan InString s'
              | _ => scan (InUnicode (Nat.pred n)) s'
              end
          | None => None
          end
      | AfterMinus =>
          if Ascii.eqb c "0" then scan AfterZero s'
          else if Js.isDigit c then scan InInteger s'
          else None
      | AfterZero =>
          if isPoint c then scan AfterPoint s'
          else if isExponentMark c then scan AfterE s'
          else if Js.isDigit c then None
          else numberEnds
      | InInteger =>
          if Js.isDigit c then scan InInteger s'
          else if isPoint c then scan AfterPoint s'
          else if isExponentMark c then scan AfterE s'
          else numberEnds
      | AfterPoint => if Js.isDigit c then scan InFraction s' else None
      | InFraction =>
          if Js.isDigit c then scan InFraction s'
          else if isExponentMark c then scan AfterE s'
          else numberEnds
      | AfterE =>
          if isSign c then scan AfterExpSign s'
          else if Js.isDigit c then scan InExponent s'
          else None
      | AfterExpSign => if Js.isDigit c then scan InExponent s' else None
      | InExponent => if Js.isDigit c then scan InExponent s' else numberEnds
      | InLiteral rest =>
          match rest with
          | String c' rest' =>
              if Ascii.eqb c c' then
                match rest' with
                | EmptyString => give Scalar (scan Between s')
                | _ => scan (InLiteral rest') s'
                end
              else None
          | EmptyString => None
          end
      end
  end.

(** The arrays and objects that are open, innermost first, and what may
    come next. *)
Inductive container : Type :=
  | InObject
  | InArray.

Inductive expecting : Type :=
  | AValue
  | AValueOrEnd
  | AKeyOrEnd
  | AKey
  | AColon
  | ASeparator.

Fixpoint grammar (e : expecting) (stack : list container) (ls : list lexeme) : bool :=
  match ls with
  | [] =>
      match e, stack with
      | ASeparator, [] => true
      | _, _ => false
      end
  | l :: rest =>
      match e with
      | AValue | AValueOrEnd =>
          match l with
          | StringLit | Scalar => grammar ASeparator stack rest
          | LBrace => grammar AKeyOrEnd (InObject :: stack) rest
          | LBracket => grammar AValueOrEnd (InArray :: stack) rest
          | RBracket =>
              match e, stack with
              | AValueOrEnd, InArray :: stack' => grammar ASeparator stack' rest
              | _, _ => false
              end
          | _ => false
          end
      | AKeyOrEnd | AKey =>
          match l with
          | StringLit => grammar AColon stack rest
          | RBrace =>
              match e, stack with
              | AKeyOrEnd, InObject :: stack' => grammar ASeparator stack' rest
              | _, _ => false
              end
          | _ => false
          end
      | AColon =>
          match l with
          | Colon => grammar AValue stack rest
          | _ => false
          end
      | ASeparator =>
          match l, stack with
          | Comma, InObject :: _ => grammar AKey stack rest
          | Comma, InArray :: _ => grammar AValue stack rest
          | RBrace, InObject :: stack' => grammar ASeparator stack' rest
          | RBracket, InArray :: stack' => grammar ASeparator stack' rest
          | _, _ => false
          end
      end
  end.

(** The text is a JSON text. *)
Definition valid (text : string) : bool :=
  match scan Between text with
  | Some ls => grammar AValue [] ls
  | None => false
  end.

(** [JSON.parse(text)].  A text that is not JSON raises the SyntaxError.
    A JSON text either denotes a totals object, or some other value: a
    value that is not an object, or an object with a value that is not a
    plain integer.  [JSON.parse] returns those too, and the program takes
    them for daily totals without a check; they lie outside the type
    [DailyTotals] and are not followed further here. *)
Inductive parsed : Type :=
  | Totals (o : DailyTotals)
  | OtherValue
  | Invalid.

Definition parse (text : string) : parsed :=
  if valid text then
    match readTotals text with
    | Some o => Totals o
    | None => OtherValue
    end
  else Invalid.

Definition hexChar (d : Z) : ascii :=
  match d with
  | 10 => "a" | 11 => "b" | 12 => "c" | 13 => "d" | 14 => "e" | 15 => "f"
  | _ => Js.digitChar d
  end%char.

(** QuoteJSONString, one character. *)
Definition escapeChar (c : ascii) : string :=
  match c with
  | "034" => String "\" (String "034" EmptyString)
  | "\" => "\\"%string
  | "008" => "\b"%string
  | "012" => "\f"%string
  | "010" => "\n"%string
  | "013" => "\r"%string
  | "009" => "\t"%string
  | _ =>
      if isControl c then
        let n := Z.of_N (N_of_ascii c) in
        String "\" (String "u" (String "0" (String "0"
          (String (hexChar (n / 16)%Z)
             (String (hexChar (n mod 16)%Z) EmptyString)))))
      else String c EmptyString
  end%char.

Fixpoint escape (s : string) : string :=
  match s with
  | EmptyString => EmptyString
  | String c s' => escapeChar c +:+ escape s'
  end.

Definition quote (s : string) : string :=
  String "034" (escape s +:+ String "034" EmptyString).

Definition member (kv : string * Z) : string :=
  quote kv.1 +:+ ":" +:+ Js.intToString kv.2.

Fixpoint memberList (l : list (string * Z)) : string :=
  match l with
  | [] => EmptyString
  | [kv] => member kv
  | kv :: rest => member kv +:+ "," +:+ memberList rest
  end.

(** [JSON.stringify(totals)] *)
Definition stringify (o : DailyTotals) : string :=
  "{" +:+ memberList (map_to_list o) +:+ "}".

End Json.

(* ===================================================================== *)
(** * The tracker                                                         *)
(* ===================================================================== *)

(** A call either returns or raises; the one exception the program can
    meet is the SyntaxError of [JSON.parse].  [Unmodelled] stands for a
    call that went on with stored daily totals that are JSON but not a
    totals object: what the program does with such a value is not
    described. *)
Inductive completion (A : Type) : Type :=
  | Normal (a : A)
  | SyntaxError
  | Unmodelled.
Arguments Normal {A} a.
Arguments SyntaxError {A}.
Arguments Unmodelled {A}.

(** Storage keys *)
Definition STORAGE_KEY_DAILY : string := "game-time-daily".
Definition STORAGE_KEY_OVERALL : string := "game-time-overall".
Definition STORAGE_KEY_SESSION_START : string := "game-time-session-start".

(** Constants *)
Definition MAX_SESSION_HOURS : Z := 24.
Definition MAX_SESSION_TENTHS : Z := MAX_SESSION_HOURS * 60 * 60 * 10.

(** [localStorage]: [getItem] is lookup, [setItem] insertion, [removeItem]
    deletion.  The utilities run in the browser, where [window] exists. *)
Abbreviation Storage := (gmap string string).

Definition getDailyTotals (ls : Storage) : completion DailyTotals :=
  match ls !! STORAGE_KEY_DAILY with
  | Some stored =>
      if Js.truthyStr stored then
        match Json.parse stored with
        | Json.Totals totals => Normal totals
        | Json.OtherValue => Unmodelled
        | Json.Invalid => SyntaxError
        end
      else Normal ∅
  | None => Normal ∅
  end.

Definition saveDailyTotals (totals : DailyTotals) (ls : Storage) : Storage :=
  <[STORAGE_KEY_DAILY := Json.stringify totals]> ls.

Definition getOverallTotal (ls : Storage) : num :=
  match ls !! STORAGE_KEY_OVERALL with
  | Some stored => if Js.truthyStr stored then Js.parseInt stored else Num 0
  | None => Num 0
  end.

Definition saveOverallTotal (total : num) (ls : Storage) : Storage :=
  <[STORAGE_KEY_OVERALL := Js.toString total]> ls.

(** [None] is [null]. *)
Definition getSessionStart (ls : Storage) : option num :=
  match ls !! STORAGE_KEY_SESSION_START with
  | Some stored => if Js.truthyStr stored then Some (Js.parseInt stored) else None
  | None => None
  end.

Definition saveSessionStart (timestamp : Z) (ls : Storage) : Storage :=
  <[STORAGE_KEY_SESSION_START := Js.intToString timestamp]> ls.

Definition clearSessionStart (ls : Storage) : Storage :=
  delete STORAGE_KEY_SESSION_START ls.

(** [now] is what [Date.now()] returns inside the call. *)
Definition calculateElapsedTenths (now startTimestamp : Z) : Z :=
  let elapsedMs := now - startTimestamp in
  elapsedMs / 100.

Definition getDateString (date : Z) : string :=
  splitHead "T" (JsDate.toISOString date).

(** ** Date utilities *)

Definition getStartOfWeek (tz : JsDate.TimeZone) (date : Z) : Z :=
  let d := date in
  let day := JsDate.getDay tz d in
  let diff := JsDate.getDate tz d - day + (if day =? 0 then -6 else 1) in
  JsDate.setDate tz d diff.

Definition getDatesInWeek (tz : JsDate.TimeZone) (date : Z) : list string :=
  let start := getStartOfWeek tz date in
  map (fun i => getDateString (JsDate.setDate tz start (JsDate.getDate tz start + i)))
      [0; 1; 2; 3; 4; 5; 6].

(** ** Stats calculations; [now] is the [new Date()] of the call *)

Definition sumOver (dailyTotals : DailyTotals) (dates : list string) : Z :=
  foldl (fun sum date => sum + orZero (dailyTotals !! date)) 0 dates.

Definition calculateTodayTotal (now : Z) (dailyTotals : DailyTotals) : Z :=
  orZero (dailyTotals !! getDateString now).

Definition calculateWeekTotal (tz : JsDate.TimeZone) (now : Z)
    (dailyTotals : DailyTotals) : Z :=
  let weekDates := getDatesInWeek tz now in
  sumOver dailyTotals weekDates.

Definition calculateWeekAverage (tz : JsDate.TimeZone) (now : Z)
    (dailyTotals : DailyTotals) : quotient :=
  let weekDates := getDatesInWeek tz now in
  let weekTotal := sumOver dailyTotals weekDates in
  Js.div weekTotal 7.

Definition calculateOverallAverage (dailyTotals : DailyTotals) : quotient :=
  let datesWithData := Object_keys dailyTotals in
  if (length datesWithData =? 0)%nat then Finite 0
  else
    let total := sumOver dailyTotals datesWithData in
    Js.div total (Z.of_nat (length datesWithData)).

(** ** The component *)

(** The four pieces of React state, the ref holding the anchor, and the
    storage behind them. *)
Record State : Type := mkState {
  sessionTime : Z;
  isTracking : bool;
  dailyTotals : DailyTotals;
  overallTotal : num;
  sessionStartRef : option Z;
  localStorage : Storage
}.

(** The state of a freshly mounted component over a given storage. *)
Definition mount (ls : Storage) : State :=
  mkState 0 false ∅ (Num 0) None ls.

(** ToBoolean on the ref: [null] and 0 are false. *)
Definition refTruthy (r : option Z) : bool :=
  match r with
  | Some a => Js.truthyNum (Num a)
  | None => false
  end.

(** The mount effect: load the totals and restore a stored session. *)
Definition loadEffect (now : Z) (st : State) : completion State :=
  match getDailyTotals (localStorage st) with
  | SyntaxError => SyntaxError
  | Unmodelled => Unmodelled
  | Normal loadedDailyTotals =>
      let loadedOverallTotal := getOverallTotal (localStorage st) in
      let savedSessionStart := getSessionStart (localStorage st) in
      let st1 :=
        if (0 <? length (Object_keys loadedDailyTotals))%nat
           || Js.gt loadedOverallTotal (Num 0)
        then mkState (sessionTime st) (isTracking st) loadedDailyTotals
               loadedOverallTotal (sessionStartRef st) (localStorage st)
        else st in
      match savedSessionStart with
      | Some (Num saved) =>
          if Js.truthyNum (Num saved) then
            let elapsed := calculateElapsedTenths now saved in
            if MAX_SESSION_TENTHS <? elapsed then
              Normal (mkState (sessionTime st1) (isTracking st1) (dailyTotals st1)
                        (overallTotal st1) (sessionStartRef st1)
                        (clearSessionStart (localStorage st1)))
            else
              Normal (mkState elapsed true (dailyTotals st1) (overallTotal st1)
                        (Some saved) (localStorage st1))
          else Normal st1
      | _ => Normal st1
      end
  end.

(** The end of a session: stop, discard and auto-discard all finish with
    these four statements. *)
Definition endSession (st : State) : State :=
  mkState 0 false (dailyTotals st) (overallTotal st) None
    (clearSessionStart (localStorage st)).

(** The timer effect sets an interval up only for a tracking component
    whose ref is truthy; it is torn down when [isTracking] changes. *)
Definition intervalRunning (st : State) : bool :=
  isTracking st && refTruthy (sessionStartRef st).

(** One firing of the 100ms interval. *)
Definition tick (now : Z) (st : State) : State :=
  if intervalRunning st then
    match sessionStartRef st with
    | Some start =>
        if refTruthy (Some start) then
          let elapsed := calculateElapsedTenths now start in
          if MAX_SESSION_TENTHS <? elapsed then endSession st
          else mkState elapsed (isTracking st) (dailyTotals st) (overallTotal st)
                 (sessionStartRef st) (localStorage st)
        else st
    | None => st
    end
  else st.

(** The two state updaters of the save branch of [handleTimer]: add the
    duration to the entry of [today] and to the overall total, and store
    both. *)
Definition commit (timeToSave : Z) (today : string) (st : State) : State :=
  let prevTotals := dailyTotals st in
  let newDailyTotals :=
    <[today := orZero (prevTotals !! today) + timeToSave]> prevTotals in
  let newOverallTotal := Js.add (overallTotal st) (Num timeToSave) in
  mkState (sessionTime st) (isTracking st) newDailyTotals newOverallTotal
    (sessionStartRef st)
    (saveOverallTotal newOverallTotal
       (saveDailyTotals newDailyTotals (localStorage st))).

(** [now] is the [Date.now()] of the call (each branch reads it once) and
    [today] the [new Date()] that [getDateString] reads when saving. *)
Definition handleTimer (now today : Z) (st : State) : State :=
  if isTracking st then
    let st1 :=
      match sessionStartRef st with
      | Some start =>
          if refTruthy (Some start) then
            let timeToSave := calculateElapsedTenths now start in
            if (0 <? timeToSave) && (timeToSave <=? MAX_SESSION_TENTHS)
            then commit timeToSave (getDateString today) st
            else st
          else st
      | None => st
      end in
    endSession st1
  else
    mkState (sessionTime st) true (dailyTotals st) (overallTotal st)
      (Some now) (saveSessionStart now (localStorage st)).

Definition handleDiscardSession (st : State) : State := endSession st.

(** ** The component as a transition system *)

Inductive Event : Type :=
  | Load (now : Z)
  | Timer (now today : Z)
  | Discard
  | Tick (now : Z).

Definition step (e : Event) (st : State) : completion State :=
  match e with
  | Load now => loadEffect now st
  | Timer now today => Normal (handleTimer now today st)
  | Discard => Normal (handleDiscardSession st)
  | Tick now => Normal (tick now st)
  end.

(** States the component can be in: mounted over a storage [ls], then any
    sequence of events that return. *)
Inductive reachableFrom (ls : Storage) : State -> Prop :=
  | reach_mount : reachableFrom ls (mount ls)
  | reach_step e st st' :
      reachableFrom ls st -> step e st = Normal st' -> reachableFrom ls st'.

(* ===================================================================== *)
(** * Definitions used in the statements and proofs                       *)
(* ===================================================================== *)

(** The tokens of the members of an object, as [Json.memberList] writes
    them. *)
Fixpoint memberTokens (l : list (string * Z)) : list Json.token :=
  match l with
  | [] => []
  | [kv] => [Json.TStr kv.1; Json.TColon; Json.TInt kv.2]
  | kv :: rest =>
      Json.TStr kv.1 :: Json.TColon :: Json.TInt kv.2 :: Json.TComma
        :: memberTokens rest
  end.

(** The place of the scanner that a mode of the lexer corresponds to, and
    the lexical element that a token is. *)
Definition placeOf (m : Json.mode) : Json.place :=
  match m with
  | Json.Top => Json.Between
  | Json.InStr => Json.InString
  | Json.InEsc => Json.InEscape
  | Json.InHex n _ => Json.InUnicode n
  | Json.InNeg => Json.AfterMinus
  | Json.InNum _ _ lead0 => if lead0 then Json.AfterZero else Json.InInteger
  end.

Definition lexemeOf (t : Json.token) : Json.lexeme :=
  match t with
  | Json.TLBrace => Json.LBrace
  | Json.TRBrace => Json.RBrace
  | Json.TColon => Json.Colon
  | Json.TComma => Json.Comma
  | Json.TStr _ => Json.StringLit
  | Json.TInt _ => Json.Scalar
  end.

(** Filling an object member by member, later members overriding. *)
Definition fillObject (acc : DailyTotals) (l : list (string * Z)) : DailyTotals :=
  foldl (fun m kv => <[kv.1 := kv.2]> m) acc l.

(** ** Calendar dates *)

(** The characters an ISO date is made of. *)
Definition isDateChar (c : ascii) : bool :=
  Js.isDigit c || Ascii.eqb c "-" || Ascii.eqb c "+".

Fixpoint allChars (p : ascii -> bool) (s : string) : bool :=
  match s with
  | EmptyString => true
  | String c s' => p c && allChars p s'
  end.

(** The shape YYYY-MM-DD: ten characters, digits around two hyphens. *)
Definition isYMD (s : string) : bool :=
  match s with
  | String y1 (String y2 (String y3 (String y4 (String h1
      (String m1 (String m2 (String h2 (String d1 (String d2 EmptyString))))))))) =>
      Js.isDigit y1 && Js.isDigit y2 && Js.isDigit y3 && Js.isDigit y4
      && Ascii.eqb h1 "-" && Js.isDigit m1 && Js.isDigit m2
      && Ascii.eqb h2 "-" && Js.isDigit d1 && Js.isDigit d2
  | _ => false
  end.

(** The calendar date of an instant in UTC and in the local zone. *)
Definition utcDate (t : Z) : string := JsDate.isoDate (JsDate.Day t).
Definition localDate (tz : JsDate.TimeZone) (t : Z) : string :=
  JsDate.isoDate (JsDate.Day (JsDate.LocalTime tz t)).

(** Days since Monday of a day number; day 0 was a Thursday. *)
Definition mondayIndex (day : Z) : Z := (day + 3) mod 7.

(** The seven day numbers from [first] on, as dates. *)
Definition sevenDates (first : Z) : list string :=
  map (fun i => JsDate.isoDate (first + i)) [0; 1; 2; 3; 4; 5; 6].

(** The dates of the Monday-starting week that contains a day. *)
Definition weekOf (day : Z) : list string :=
  sevenDates (day - mondayIndex day).

(** ** The ledger *)

(** [sum(dailyTotals.values())] *)
Definition sumValues (o : DailyTotals) : Z := map_fold (fun _ v s => v + s) 0 o.

(** The overall total agrees with the daily totals, in the component ... *)
Definition memInv (st : State) : Prop :=
  overallTotal st = Num (sumValues (dailyTotals st)).

(** ... and in what a load would read from storage. *)
Definition storeInv (ls : Storage) : Prop :=
  exists totals,
    getDailyTotals ls = Normal totals
    /\ getOverallTotal ls = Num (sumValues totals).

Definition ledgerInv (st : State) : Prop :=
  memInv st /\ storeInv (localStorage st).

(** ** Sessions *)

(** A session is running, anchored at [startTimestamp]. *)
Definition Active (st : State) (startTimestamp : Z) : Prop :=
  isTracking st = true /\ sessionStartRef st = Some startTimestamp.

(** No session is running and no anchor is left, in the component or in
    storage. *)
Definition Idle (st : State) : Prop :=
  isTracking st = false /\ sessionStartRef st = None
  /\ localStorage st !! STORAGE_KEY_SESSION_START = None.

(** [st'] is [st] after [duration] was added to the entry of [date] and to
    the overall total, both written to storage. *)
Definition committed (duration : Z) (date : string) (st st' : State) : Prop :=
  dailyTotals st'
    = <[date := default 0 (dailyTotals st !! date) + duration]> (dailyTotals st)
  /\ overallTotal st' = Js.add (overallTotal st) (Num duration)
  /\ localStorage st' !! STORAGE_KEY_DAILY = Some (Json.stringify (dailyTotals st'))
  /\ localStorage st' !! STORAGE_KEY_OVERALL = Some (Js.toString (overallTotal st')).

(** The totals of [st'] are those of [st], in the component and in storage. *)
Definition nothingCommitted (st st' : State) : Prop :=
  dailyTotals st' = dailyTotals st
  /\ overallTotal st' = overallTotal st
  /\ localStorage st' !! STORAGE_KEY_DAILY = localStorage st !! STORAGE_KEY_DAILY
  /\ localStorage st' !! STORAGE_KEY_OVERALL = localStorage st !! STORAGE_KEY_OVERALL.

(** Stopping a session anchored at [start]: the elapsed tenths are the
    floor of the elapsed seconds times ten; they are committed under the
    date of the stop exactly when they lie in (0, 864000]; the anchor is
    cleared either way. *)
Definition stopSpec (st : State) (start now today : Z) : Prop :=
  let elapsed := Qfloor (inject_Z (now - start) / 1000 * 10)%Q in
  let st' := handleTimer now today st in
  elapsed = (now - start) / 100
  /\ calculateElapsedTenths now start = elapsed
  /\ (0 < elapsed <= 864000 -> committed elapsed (getDateString today) st st')
  /\ (~ 0 < elapsed <= 864000 -> nothingCommitted st st')
  /\ Idle st'.

(** The session of [st] ended without a trace in the totals. *)
Definition discarded (st st' : State) : Prop :=
  Idle st' /\ nothingCommitted st st'.

(** A running session anchored at [start] that is looked at when more
    than 864000 tenths have elapsed is dropped, by a tick as by a stop. *)
Definition oversizedSpec (st : State) (start now : Z) : Prop :=
  Active st start ->
  864000 < calculateElapsedTenths now start ->
  discarded st (tick now st)
  /\ forall today, discarded st (handleTimer now today st).

(** Stopping records the elapsed tenths in one piece under the date that
    [dateOf] gives the instant of the stop, a key of the shape YYYY-MM-DD;
    no other entry changes. *)
Definition commitDateSpec (dateOf : Z -> string) (st : State)
    (start now today : Z) : Prop :=
  let elapsed := calculateElapsedTenths now start in
  let key := dateOf today in
  let st' := handleTimer now today st in
  isYMD key = true
  /\ dailyTotals st' !! key = Some (default 0 (dailyTotals st !! key) + elapsed)
  /\ forall other, other <> key -> dailyTotals st' !! other = dailyTotals st !! other.

(** Loading over a storage whose session entry reads [saved]: a session
    older than 864000 tenths is dropped and its anchor cleared, any other
    is resumed with its elapsed time. *)
Definition restoreSpec (ls : Storage) (saved now : Z) : Prop :=
  let elapsed := calculateElapsedTenths now saved in
  exists st',
    loadEffect now (mount ls) = Normal st'
    /\ if 864000 <? elapsed then Idle st'
       else Active st' saved /\ sessionTime st' = elapsed.

(** ** Averages *)

(** The average over a week of [dates]: the sum of their entries, an absent
    one counting as 0, over 7. *)
Definition weekAverageOf (dates : list string) (o : DailyTotals) : quotient :=
  Finite (inject_Z (foldr (fun date s => default 0 (o !! date) + s) 0 dates) / 7).

(** Equality of quotients as numbers. *)
Definition quotientEq (a b : quotient) : Prop :=
  match a, b with
  | Finite x, Finite y => (x == y)%Q
  | NotFinite, NotFinite => True
  | _, _ => False
  end.

(** ** Malformed stored values *)

(** A text that is not JSON, and one that [parseInt] reads as NaN. *)
Definition corruptJson (s : string) : Prop := Json.valid s = false.
Definition nonNumeric (s : string) : Prop := Js.parseInt s = NaN.

(** Loading treats every malformed entry as absent: the load returns, and
    the entity of a malformed entry has its default. *)
Definition malformedLoadSpec (ls : Storage) (now : Z) : Prop :=
  exists st',
    loadEffect now (mount ls) = Normal st'
    /\ (forall s, ls !! STORAGE_KEY_DAILY = Some s -> corruptJson s ->
          dailyTotals st' = ∅)
    /\ (forall s, ls !! STORAGE_KEY_OVERALL = Some s -> nonNumeric s ->
          overallTotal st' = Num 0)
    /\ (forall s, ls !! STORAGE_KEY_SESSION_START = Some s -> nonNumeric s ->
          sessionStartRef st' = None /\ isTracking st' = false).

(** Two states have the same session: the time shown, whether it is
    running, and the anchor. *)
Definition sameSession (st st' : State) : Prop :=
  sessionTime st = sessionTime st' /\ isTracking st = isTracking st'
  /\ sessionStartRef st = sessionStartRef st'.

(** Two states show the same to the user: they differ at most in storage. *)
Definition sameComponent (st st' : State) : Prop :=
  sessionTime st = sessionTime st' /\ isTracking st = isTracking st'
  /\ dailyTotals st = dailyTotals st' /\ overallTotal st = overallTotal st'
  /\ sessionStartRef st = sessionStartRef st'.


(* ===================================================================== *)
(** * The rest of the page                                                *)
(* ===================================================================== *)

(** [s.padStart(targetLength, fill)] for a one-character [fill]. *)
Definition padStart (targetLength : nat) (fill : ascii) (s : string) : string :=
  Nat.iter (targetLength - String.length s) (String fill) s.

(** ** Time formatting functions

    [Math.floor(a / b)] is [a / b] on [Z]; the remainder operator [%] takes
    the sign of the dividend and is [Z.rem]. *)

(** Format for main timer: hours:minutes:seconds.tenths *)
Definition formatTime (tenths : Z) : string :=
  let totalSeconds := tenths / 10 in
  let tenthsPart := Z.rem tenths 10 in
  let hours := totalSeconds / 3600 in
  let minutes := Z.rem totalSeconds 3600 / 60 in
  let seconds := Z.rem totalSeconds 60 in
  padStart 2 "0" (Js.intToString hours) +:+ ":"
    +:+ padStart 2 "0" (Js.intToString minutes) +:+ ":"
    +:+ padStart 2 "0" (Js.intToString seconds) +:+ "."
    +:+ Js.intToString tenthsPart.

(** Format for totals: hours:minutes only *)
Definition formatTimeHoursMinutes (tenths : Z) : string :=
  let totalSeconds := tenths / 10 in
  let hours := totalSeconds / 3600 in
  let minutes := Z.rem totalSeconds 3600 / 60 in
  Js.intToString hours +:+ "h " +:+ Js.intToString minutes +:+ "m".

Definition formatTimeShort (tenths : Z) : string :=
  let totalSeconds := tenths / 10 in
  let hours := totalSeconds / 3600 in
  let minutes := Z.rem totalSeconds 3600 / 60 in
  if 0 <? hours then
    Js.intToString hours +:+ "h " +:+ Js.intToString minutes +:+ "m"
  else Js.intToString minutes +:+ "m".

(** ** Yesterday's total; [now] is the [new Date()] of the call *)

Definition calculateYesterdayTotal (tz : JsDate.TimeZone) (now : Z)
    (dailyTotals : DailyTotals) : Z :=
  let yesterday := JsDate.setDate tz now (JsDate.getDate tz now - 1) in
  orZero (dailyTotals !! getDateString yesterday).

(** ** Values the component derives while rendering *)

(** [dailyTotals[date] > 0]: false for an absent entry. *)
Definition entryPositive (dailyTotals : DailyTotals) (date : string) : bool :=
  match dailyTotals !! date with
  | Some v => 0 <? v
  | None => false
  end.

Definition weekDaysWithEntries (tz : JsDate.TimeZone) (now : Z)
    (dailyTotals : DailyTotals) : nat :=
  let weekDates := getDatesInWeek tz now in
  length (List.filter (entryPositive dailyTotals) weekDates).

Definition hasMultipleWeekEntries (tz : JsDate.TimeZone) (now : Z)
    (dailyTotals : DailyTotals) : bool :=
  (1 <? weekDaysWithEntries tz now dailyTotals)%nat.

(** tenths to minutes *)
Definition sessionMinutes (st : State) : Z := sessionTime st / 600.

Definition weeklyHours (tz : JsDate.TimeZone) (now : Z) (st : State) : Z :=
  calculateWeekTotal tz now (dailyTotals st) / 36000.

(** ** Messages and time equivalents

    The tables come from two data files that are not part of the sources;
    they are parameters.  [Math.random()] is a parameter too, a rational
    [rnd] with [0 <= rnd < 1]. *)

(** A string, [null] or [undefined]. *)
Inductive text : Type :=
  | Text (s : string)
  | Null
  | Undefined.

(** [array[Math.floor(rnd * array.length)]] *)
Definition pickRandom (rnd : Q) (array : list string) : text :=
  let randomIndex := Qfloor (rnd * inject_Z (Z.of_nat (length array)))%Q in
  if randomIndex <? 0 then Undefined
  else match array !! Z.to_nat randomIndex with
       | Some s => Text s
       | None => Undefined
       end.

Definition getRandomMessage (rnd : Q) (messages : list string) : text :=
  pickRandom rnd messages.

Record TimeEquivalent : Type := mkTimeEquivalent {
  hours : Z;
  activities : list string
}.

(** The loop of [getTimeEquivalent]: the last category of the longest
    run, from the start of the table, of categories whose threshold the
    hours reach. *)
Fixpoint selectCategory (table : list TimeEquivalent) (h : Z)
    (selectedCategory : option TimeEquivalent) : option TimeEquivalent :=
  match table with
  | [] => selectedCategory
  | category :: rest =>
      if hours category <=? h then selectCategory rest h (Some category)
      else selectedCategory
  end.

Definition getTimeEquivalent (TIME_EQUIVALENTS : list TimeEquivalent)
    (rnd : Q) (h : Z) : text :=
  if h <? 10 then Null
  else
    match selectCategory TIME_EQUIVALENTS h None with
    | None => Null
    | Some selectedCategory => pickRandom rnd (activities selectedCategory)
    end.

(** The session prompts of the messages file, by threshold. *)
Record SessionPrompts : Type := mkSessionPrompts {
  prompts30 : list string;
  prompts60 : list string;
  prompts90 : list string;
  prompts120 : list string;
  prompts180 : list string
}.

Definition getSessionPrompt (prompts : SessionPrompts) (rnd : Q)
    (minutes : Z) : text :=
  if 180 <=? minutes then getRandomMessage rnd (prompts180 prompts)
  else if 120 <=? minutes then getRandomMessage rnd (prompts120 prompts)
  else if 90 <=? minutes then getRandomMessage rnd (prompts90 prompts)
  else if 60 <=? minutes then getRandomMessage rnd (prompts60 prompts)
  else if 30 <=? minutes then getRandomMessage rnd (prompts30 prompts)
  else Null.

(** The prompt the component shows: none unless a session is running. *)
Definition sessionPrompt (prompts : SessionPrompts) (rnd : Q) (st : State) : text :=
  if isTracking st then getSessionPrompt prompts rnd (sessionMinutes st) else Null.

(* ===================================================================== *)
(** * The earlier timer, which counts ticks                               *)
(* ===================================================================== *)

Module Counter.

(** The React state, the ref mirroring the session time, and the storage. *)
Record State : Type := mkState {
  sessionTime : Z;
  isTracking : bool;
  dailyTotals : DailyTotals;
  overallTotal : num;
  sessionTimeRef : Z;
  localStorage : Storage
}.

Definition mount (ls : Storage) : State :=
  mkState 0 false ∅ (Num 0) 0 ls.

(** The mount effect. *)
Definition loadEffect (st : State) : completion State :=
  match getDailyTotals (localStorage st) with
  | SyntaxError => SyntaxError
  | Unmodelled => Unmodelled
  | Normal loadedDailyTotals =>
      let loadedOverallTotal := getOverallTotal (localStorage st) in
      if (0 <? length (Object_keys loadedDailyTotals))%nat
         || Js.gt loadedOverallTotal (Num 0)
      then Normal (mkState (sessionTime st) (isTracking st) loadedDailyTotals
                     loadedOverallTotal (sessionTimeRef st) (localStorage st))
      else Normal st
  end.

(** One firing of the interval, which exists while tracking. *)
Definition tick (st : State) : State :=
  if isTracking st then
    let newTime := sessionTime st + 1 in
    mkState newTime (isTracking st) (dailyTotals st) (overallTotal st)
      newTime (localStorage st)
  else st.

(** [today] is the [new Date()] that [getDateString] reads when saving. *)
Definition handleTimer (today : Z) (st : State) : State :=
  if isTracking st then
    let timeToSave := sessionTimeRef st in
    let st1 :=
      if 0 <? timeToSave then
        let key := getDateString today in
        let prevTotals := dailyTotals st in
        let newDailyTotals :=
          <[key := orZero (prevTotals !! key) + timeToSave]> prevTotals in
        let newOverallTotal := Js.add (overallTotal st) (Num timeToSave) in
        mkState (sessionTime st) (isTracking st) newDailyTotals newOverallTotal
          (sessionTimeRef st)
          (saveOverallTotal newOverallTotal
             (saveDailyTotals newDailyTotals (localStorage st)))
      else st in
    mkState 0 false (dailyTotals st1) (overallTotal st1) 0 (localStorage st1)
  else
    mkState (sessionTime st) true (dailyTotals st) (overallTotal st)
      (sessionTimeRef st) (localStorage st).

End Counter.

(** ** The first page: a clock with days *)

Module Clock.

Definition formatTime (tenths : Z) : string :=
  let totalSeconds := tenths / 10 in
  let tenthsPart := Z.rem tenths 10 in
  let days := totalSeconds / 86400 in
  let hours := Z.rem totalSeconds 86400 / 3600 in
  let minutes := Z.rem totalSeconds 3600 / 60 in
  let seconds := Z.rem totalSeconds 60 in
  Js.intToString days +:+ ":"
    +:+ padStart 2 "0" (Js.intToString hours) +:+ ":"
    +:+ padStart 2 "0" (Js.intToString minutes) +:+ ":"
    +:+ padStart 2 "0" (Js.intToString seconds) +:+ "."
    +:+ Js.intToString tenthsPart.

Record State : Type := mkState {
  gameTime : Z;
  shouldTrack : bool
}.

Definition handleTimer (st : State) : State :=
  mkState (gameTime st) (negb (shouldTrack st)).

(** One firing of the interval, which exists while [shouldTrack]. *)
Definition tick (st : State) : State :=
  if shouldTrack st then mkState (gameTime st + 1) (shouldTrack st) else st.

End Clock.

(* ===================================================================== *)
(** * Further definitions used in the statements and proofs               *)
(* ===================================================================== *)

(** ** Reading a formatted time back *)

(** The value of the digits a text starts with, and the text after them. *)
Fixpoint readNumber (acc : option Z) (s : string) : option (Z * string) :=
  match s with
  | String c s' =>
      match Js.digitValue c with
      | Some d => readNumber (Some (default 0 acc * 10 + d)) s'
      | None => match acc with Some v => Some (v, s) | None => None end
      end
  | EmptyString => match acc with Some v => Some (v, s) | None => None end
  end.

(** A number followed by the characters of [sep]. *)
Fixpoint skipText (sep : string) (s : string) : option string :=
  match sep with
  | EmptyString => Some s
  | String c sep' =>
      match s with
      | String c' s' => if Ascii.eqb c c' then skipText sep' s' else None
      | EmptyString => None
      end
  end.

Definition readField (sep : string) (s : string) : option (Z * string) :=
  match readNumber None s with
  | Some (v, rest) =>
      match skipText sep rest with
      | Some rest' => Some (v, rest')
      | None => None
      end
  | None => None
  end.

(** The fields of a text, each followed by its separator. *)
Fixpoint readFields (seps : list string) (s : string) : option (list Z) :=
  match seps with
  | [] => match s with EmptyString => Some [] | _ => None end
  | sep :: seps' =>
      match readField sep s with
      | Some (v, rest) =>
          match readFields seps' rest with
          | Some vs => Some (v :: vs)
          | None => None
          end
      | None => None
      end
  end.

(** ** The ledger over time *)

(** No entry of [st] is missing or smaller in [st'], nor is the overall
    total smaller. *)
Definition ledgerGrows (st st' : State) : Prop :=
  (forall date,
     (is_Some (dailyTotals st !! date) -> is_Some (dailyTotals st' !! date))
     /\ default 0 (dailyTotals st !! date) <= default 0 (dailyTotals st' !! date))
  /\ (forall total, overallTotal st = Num total ->
        exists total', overallTotal st' = Num total' /\ total <= total').

(** The component tracks exactly when it holds an anchor, and shows a
    session time of 0 when it does not track. *)
Definition machineInv (st : State) : Prop :=
  (isTracking st = true <-> is_Some (sessionStartRef st))
  /\ (isTracking st = false -> sessionTime st = 0).

(** A ledger without negative entries. *)
Definition nonNegative (o : DailyTotals) : Prop :=
  forall date v, o !! date = Some v -> 0 <= v.

(** ** The week and the changes of the clock *)

(** The local time of [now], moved back to the Monday of its week. *)
Definition localMonday (tz : JsDate.TimeZone) (now : Z) : Z :=
  let lt := JsDate.LocalTime tz now in
  lt - mondayIndex (JsDate.Day lt) * JsDate.msPerDay.

(** The local time [lt] exists in the zone: it is the local time of the
    instant it is converted to.  A local time skipped by a change of the
    clocks does not exist. *)
Definition localTimeExists (tz : JsDate.TimeZone) (lt : Z) : Prop :=
  JsDate.LocalTime tz (JsDate.UTC tz lt) = lt.

(** The instant [t] is the one its local time is converted to.  Of two
    instants with the same local time, around a change of the clocks, only
    one is. *)
Definition readBack (tz : JsDate.TimeZone) (t : Z) : Prop :=
  JsDate.UTC tz (JsDate.LocalTime tz t) = t.

(** The clocks do not change in the week of [now]: the offset at the start
    of the week, and the offset of the local time of [now] on each of the
    seven days from Monday on, is the offset at [now]. *)
Definition steadyWeek (tz : JsDate.TimeZone) (now : Z) : Prop :=
  let offset := JsDate.offsetAt tz now in
  let monday := localMonday tz now in
  JsDate.offsetAt tz (monday - offset) = offset
  /\ forall i, 0 <= i <= 6 ->
       JsDate.offsetOfLocal tz (monday + i * JsDate.msPerDay) = offset.

(** The clocks did not change since the same local time a day ago. *)
Definition steadyDay (tz : JsDate.TimeZone) (now : Z) : Prop :=
  JsDate.offsetOfLocal tz (JsDate.LocalTime tz now - JsDate.msPerDay)
  = JsDate.offsetAt tz now.

(** The zone of the examples: two hours ahead of UTC throughout. *)
Definition twoHoursEast : JsDate.TimeZone := JsDate.fixedOffset 7200000.

(** New York in 2024: five hours behind UTC, and four while daylight
    saving time applies, from 10 March 07:00 UTC to 3 November 06:00 UTC.
    The local times from 02:00 to 03:00 on 10 March do not exist and get
    the offset from before the change; those from 01:00 to 02:00 on
    3 November occur twice and are taken for the first occurrence. *)
Definition newYork2024 : JsDate.TimeZone :=
  JsDate.mkTimeZone
    (fun t =>
       if (1710054000000 <=? t) && (t <? 1730613600000)
       then -14400000 else -18000000)
    (fun lt =>
       if (1710039600000 <=? lt) && (lt <? 1730599200000)
       then -14400000 else -18000000).

(** A table of time equivalents in the order of its thresholds. *)
Definition ascending (table : list TimeEquivalent) : Prop :=
  StronglySorted (fun a b => hours a <= hours b) table.

(** [n] firings of the interval of the tick-counting timer. *)
Definition ticks (n : nat) (st : Counter.State) : Counter.State :=
  Nat.iter n Counter.tick st.
(* ===================================================================== *)
(** * Facts about numbers and their decimal text                          *)
(* ===================================================================== *)

Lemma digitChar_cases (d : Z) :
  Js.digitChar d ∈ ["0"; "1"; "2"; "3"; "4"; "5"; "6"; "7"; "8"; "9"]%char.
Proof.
  unfold Js.digitChar.
  remember (Z.min (Z.max 0 d) 9) as k eqn:Hk.
  assert (k = 0 \/ k = 1 \/ k = 2 \/ k = 3 \/ k = 4 \/ k = 5 \/ k = 6
          \/ k = 7 \/ k = 8 \/ k = 9) as Hcases by lia.
  clear Hk. repeat (destruct Hcases as [-> | Hcases]; [set_solver |]).
  subst k. set_solver.
Qed.

Lemma digitValue_digitChar (d : Z) :
  0 <= d <= 9 -> Js.digitValue (Js.digitChar d) = Some d.
Proof.
  intros H.
  assert (d = 0 \/ d = 1 \/ d = 2 \/ d = 3 \/ d = 4 \/ d = 5 \/ d = 6
          \/ d = 7 \/ d = 8 \/ d = 9) as Hd by lia.
  repeat (destruct Hd as [-> | Hd]; [reflexivity |]). by subst.
Qed.

Lemma bits_bound (n : Z) : 0 <= n -> n < 2 ^ Z.of_nat (Js.bits n).
Proof.
  destruct n as [| p | p]; [reflexivity | | lia]. intros _. simpl.
  induction p as [p IH | p IH |]; simpl Pos.size_nat.
  - rewrite Nat2Z.inj_succ, Z.pow_succ_r by lia. lia.
  - rewrite Nat2Z.inj_succ, Z.pow_succ_r by lia. lia.
  - reflexivity.
Qed.

Lemma digitsFuel_app (fuel : nat) (n : Z) (acc rest : string) :
  Js.digitsFuel fuel n acc +:+ rest = Js.digitsFuel fuel n (acc +:+ rest).
Proof.
  revert n acc. induction fuel as [| f IH]; intros n acc; simpl; [done |].
  destruct (n <? 10); [done |]. by rewrite IH.
Qed.

Lemma digitsFuel_head (fuel : nat) (n : Z) (acc : string) :
  exists d t, Js.digitsFuel fuel n acc = String (Js.digitChar d) t.
Proof.
  revert n acc. induction fuel as [| f IH]; intros n acc; simpl; [eauto |].
  destruct (n <? 10); eauto.
Qed.

(** Reading the digits of a number back, for any reader [F] that enters a
    state [G d] on a first digit and moves from [G n] to [G (10n + d)] on
    each further one. *)
Section DigitReader.
Context {A : Type} (F : string -> A) (G : Z -> string -> A).
Hypothesis first_digit : forall d rest,
  0 <= d <= 9 -> F (String (Js.digitChar d) rest) = G d rest.
Hypothesis next_digit : forall n d rest,
  1 <= n -> 0 <= d <= 9 ->
  G n (String (Js.digitChar d) rest) = G (n * 10 + d) rest.

Lemma digitsFuel_read (fuel : nat) (n : Z) (acc : string) :
  0 <= n < 2 ^ Z.of_nat fuel -> F (Js.digitsFuel fuel n acc) = G n acc.
Proof using first_digit next_digit.
  revert n acc. induction fuel as [| f IH]; intros n acc Hn.
  - simpl in *. assert (n = 0) as -> by lia. by apply first_digit.
  - simpl. destruct (Z.ltb_spec n 10) as [Hlt | Hge].
    + apply first_digit. lia.
    + rewrite Nat2Z.inj_succ, Z.pow_succ_r in Hn by lia.
      rewrite IH by (split; [apply Z.div_pos; lia |
                             apply Z.div_lt_upper_bound; lia]).
      rewrite next_digit.
      * f_equal. pose proof (Z.div_mod n 10). lia.
      * assert (10 * 1 <= n) as H10 by lia.
        apply Z.div_le_lower_bound in H10; lia.
      * pose proof (Z.mod_pos_bound n 10). lia.
Qed.

Lemma digits_read (n : Z) (rest : string) :
  0 <= n -> F (Js.digits n +:+ rest) = G n rest.
Proof using first_digit next_digit.
  intros Hn. unfold Js.digits. rewrite digitsFuel_app.
  apply digitsFuel_read. split; [done | by apply bits_bound].
Qed.
End DigitReader.

Lemma app_String (c : ascii) (s t : string) :
  String c s +:+ t = String c (s +:+ t).
Proof. reflexivity. Qed.

Lemma app_Empty (t : string) : EmptyString +:+ t = t.
Proof. reflexivity. Qed.

Lemma string_app_empty_r (s : string) : s +:+ EmptyString = s.
Proof.
  induction s as [| c s IH]; [done |]. by rewrite app_String, IH.
Qed.

Lemma string_app_assoc (a b c : string) : (a +:+ b) +:+ c = a +:+ (b +:+ c).
Proof.
  induction a as [| x a IH]; [done |]. by rewrite !app_String, IH.
Qed.

Lemma digitRun_digits (n : Z) :
  0 <= n -> Js.digitRun None (Js.digits n) = Some n.
Proof.
  intros Hn. rewrite <- (string_app_empty_r (Js.digits n)).
  rewrite (digits_read (Js.digitRun None) (fun v => Js.digitRun (Some v))); try done.
  - intros d rest Hd. simpl. by rewrite digitValue_digitChar.
  - intros v d rest _ Hd. simpl. by rewrite digitValue_digitChar.
Qed.

Lemma digits_head (n : Z) : exists d t, Js.digits n = String (Js.digitChar d) t.
Proof. apply digitsFuel_head. Qed.

(** [parseInt(String(z), 10) === z] *)
Lemma parseInt_intToString (z : Z) : Js.parseInt (Js.intToString z) = Num z.
Proof.
  unfold Js.intToString. destruct (Z.ltb_spec z 0) as [Hneg | Hpos].
  - unfold Js.parseInt, Js.parseDigits. simpl.
    rewrite digitRun_digits by lia. f_equal. lia.
  - pose proof (digitRun_digits z Hpos) as Hrun.
    destruct (digits_head z) as (d & t & Heq). rewrite Heq in *.
    assert (Js.parseInt (String (Js.digitChar d) t)
            = Js.parseDigits 1 (String (Js.digitChar d) t)) as ->.
    { pose proof (digitChar_cases d) as Hc. unfold Js.parseInt.
      repeat (apply elem_of_cons in Hc as [-> | Hc]; [reflexivity |]).
      by apply elem_of_nil in Hc. }
    unfold Js.parseDigits. rewrite Hrun. f_equal. lia.
Qed.

Lemma truthyStr_intToString (z : Z) : Js.truthyStr (Js.intToString z) = true.
Proof.
  unfold Js.intToString. destruct (z <? 0); [done |].
  by destruct (digits_head z) as (d & t & ->).
Qed.

(* ===================================================================== *)
(** * JSON: parsing what was written gives the object back               *)
(* ===================================================================== *)

(** Bring a concatenation into the form [c1 :: c2 :: ... (s +:+ rest)]. *)
Ltac norm_app :=
  repeat (rewrite string_app_assoc || rewrite app_String || rewrite app_Empty).

Lemma lex_escapeChar (c : ascii) (s : string) :
  Json.lex Json.InStr (Json.escapeChar c +:+ s)
  = Json.pushChar c (Json.lex Json.InStr s).
Proof.
  destruct c as [[] [] [] [] [] [] [] []]; reflexivity.
Qed.

Lemma pushChar_emit (c : ascii) (k : string) (r : option (list Json.token)) :
  Json.pushChar c (Json.emit (Json.TStr k) r) = Json.emit (Json.TStr (String c k)) r.
Proof. by destruct r. Qed.

Lemma lex_escape (k rest : string) :
  Json.lex Json.InStr (Json.escape k +:+ String "034" rest)
  = Json.emit (Json.TStr k) (Json.lex Json.Top rest).
Proof.
  induction k as [| c k IH]; [reflexivity |].
  cbn [Json.escape]. rewrite string_app_assoc, lex_escapeChar, IH.
  apply pushChar_emit.
Qed.

Lemma lex_quote (k rest : string) :
  Json.lex Json.Top (Json.quote k +:+ rest)
  = Json.emit (Json.TStr k) (Json.lex Json.Top rest).
Proof.
  unfold Json.quote. norm_app.
  change (Json.lex Json.Top (String "034" ?s)) with (Json.lex Json.InStr s).
  apply lex_escape.
Qed.

Lemma atTop_digitChar (d : Z) :
  0 <= d <= 9 ->
  Json.atTop (Js.digitChar d) = Json.Enter (Json.InNum false d (d =? 0)).
Proof.
  intros H.
  assert (d = 0 \/ d = 1 \/ d = 2 \/ d = 3 \/ d = 4 \/ d = 5 \/ d = 6
          \/ d = 7 \/ d = 8 \/ d = 9) as Hd by lia.
  repeat (destruct Hd as [-> | Hd]; [reflexivity |]). by subst.
Qed.

(** A number is read back when a comma or a closing brace follows it. *)
Lemma lex_int (pre : Json.mode) (neg : bool) (n : Z) (c : ascii) (t : Json.token)
    (rest : string) :
  0 <= n ->
  (forall d s, 0 <= d <= 9 ->
     Json.lex pre (String (Js.digitChar d) s)
     = Json.lex (Json.InNum neg d (d =? 0)) s) ->
  Js.digitValue c = None -> Json.atTop c = Json.Emit t ->
  Json.lex pre (Js.digits n +:+ String c rest)
  = Json.emit (Json.TInt (Json.signed neg n))
      (Json.emit t (Json.lex Json.Top rest)).
Proof.
  intros Hn Hpre Hc Ht.
  rewrite (digits_read (Json.lex pre)
             (fun v => Json.lex (Json.InNum neg v (v =? 0)))); try done.
  - cbn [Json.lex]. by rewrite Hc, Ht.
  - intros v d s Hv Hd. cbn [Json.lex]. rewrite digitValue_digitChar by done.
    destruct (Z.eqb_spec v 0); [lia |].
    destruct (Z.eqb_spec (v * 10 + d) 0); [lia | done].
Qed.

Lemma lex_intToString (v : Z) (c : ascii) (t : Json.token) (rest : string) :
  Js.digitValue c = None -> Json.atTop c = Json.Emit t ->
  Json.lex Json.Top (Js.intToString v +:+ String c rest)
  = Json.emit (Json.TInt v) (Json.emit t (Json.lex Json.Top rest)).
Proof.
  intros Hc Ht. unfold Js.intToString.
  destruct (Z.ltb_spec v 0) as [Hneg | Hpos].
  - norm_app.
    change (Json.lex Json.Top (String "-" ?s)) with (Json.lex Json.InNeg s).
    rewrite (lex_int Json.InNeg true (- v) c t) by (try done; try lia;
      intros d s Hd; cbn [Json.lex]; by rewrite digitValue_digitChar).
    cbn [Json.signed]. by rewrite Z.opp_involutive.
  - rewrite (lex_int Json.Top false v c t); try done.
    intros d s Hd. cbn [Json.lex]. by rewrite atTop_digitChar.
Qed.

Lemma lex_member (kv : string * Z) (c : ascii) (t : Json.token) (rest : string) :
  Js.digitValue c = None -> Json.atTop c = Json.Emit t ->
  Json.lex Json.Top (Json.member kv +:+ String c rest)
  = Json.emit (Json.TStr kv.1) (Json.emit Json.TColon
      (Json.emit (Json.TInt kv.2) (Json.emit t (Json.lex Json.Top rest)))).
Proof.
  intros Hc Ht. unfold Json.member.
  rewrite string_app_assoc, lex_quote. norm_app.
  change (Json.lex Json.Top (String ":" ?s))
    with (Json.emit Json.TColon (Json.lex Json.Top s)).
  by rewrite (lex_intToString _ c t).
Qed.

Lemma lex_memberList (l : list (string * Z)) :
  l <> [] ->
  Json.lex Json.Top (Json.memberList l +:+ "}")
  = Some (memberTokens l ++ [Json.TRBrace]).
Proof.
  induction l as [| kv [| kv' l] IH]; intros Hne; [done | |].
  - cbn [Json.memberList memberTokens].
    by rewrite (lex_member kv "}" Json.TRBrace EmptyString).
  - change (Json.memberList (kv :: kv' :: l))
      with (Json.member kv +:+ "," +:+ Json.memberList (kv' :: l)).
    rewrite !string_app_assoc, !app_String, !app_Empty.
    rewrite (lex_member kv "," Json.TComma) by done.
    rewrite IH by done. reflexivity.
Qed.

Lemma members_memberTokens (l : list (string * Z)) (acc : DailyTotals) :
  l <> [] ->
  Json.members acc (memberTokens l ++ [Json.TRBrace]) = Some (fillObject acc l).
Proof.
  revert acc. induction l as [| kv [| kv' l] IH]; intros acc Hne; [done | done |].
  change (memberTokens (kv :: kv' :: l))
    with (Json.TStr kv.1 :: Json.TColon :: Json.TInt kv.2 :: Json.TComma
            :: memberTokens (kv' :: l)).
  cbn [app Json.members]. by rewrite IH.
Qed.

Lemma fillObject_union (l : list (string * Z)) (acc : DailyTotals) :
  NoDup l.*1 -> fillObject acc l = list_to_map l ∪ acc.
Proof.
  revert acc. induction l as [| [k v] l IH]; intros acc Hnd.
  - cbn. by rewrite (left_id_L ∅ (∪)).
  - apply NoDup_cons in Hnd as [Hk Hnd].
    change (fillObject acc ((k, v) :: l)) with (fillObject (<[k := v]> acc) l).
    rewrite IH by done. cbn [list_to_map foldr fst snd].
    rewrite <- insert_union_l.
    by rewrite insert_union_r by by apply not_elem_of_list_to_map_1.
Qed.

Lemma fillObject_map_to_list (o : DailyTotals) :
  fillObject ∅ (map_to_list o) = o.
Proof.
  rewrite fillObject_union by apply NoDup_fst_map_to_list.
  by rewrite (right_id_L ∅ (∪)), list_to_map_to_list.
Qed.

Lemma readTotals_stringify (o : DailyTotals) :
  Json.readTotals (Json.stringify o) = Some o.
Proof.
  unfold Json.readTotals, Json.stringify.
  norm_app.
  change (Json.lex Json.Top (String "{" ?s))
    with (Json.emit Json.TLBrace (Json.lex Json.Top s)).
  destruct (map_to_list o) as [| kv l] eqn:Hl.
  - apply map_to_list_empty_iff in Hl as ->. reflexivity.
  - rewrite lex_memberList by done. cbn [Json.emit].
    rewrite <- (fillObject_map_to_list o), Hl.
    rewrite <- (members_memberTokens (kv :: l) ∅) by done.
    destruct l; reflexivity.
Qed.

(** ** What reads as a totals object is JSON *)

Lemma startOf_atTop (c : ascii) :
  match Json.atTop c with
  | Json.Emit t => Json.startOf c = Json.Give (lexemeOf t)
  | Json.Enter m => Json.startOf c = Json.Go (placeOf m)
  | Json.Reject => True
  end.
Proof.
  destruct c as [[] [] [] [] [] [] [] []]; exact I || reflexivity.
Qed.

Lemma atTop_ends_number (c : ascii) :
  Js.digitValue c = None ->
  Json.atTop c <> Json.Reject ->
  Json.isPoint c = false /\ Json.isExponentMark c = false /\ Js.isDigit c = false.
Proof.
  destruct c as [[] [] [] [] [] [] [] []]; intros Hd Ha;
    try discriminate Hd; try (by destruct Ha); by repeat split.
Qed.

Lemma digitValue_zero (c : ascii) (d : Z) :
  Js.digitValue c = Some d -> Ascii.eqb c "0" = (d =? 0) /\ Js.isDigit c = true.
Proof.
  destruct c as [[] [] [] [] [] [] [] []]; intros Hd;
    try discriminate Hd; injection Hd as <-; by split.
Qed.

Lemma pushChar_lexemes (c : ascii) (r : option (list Json.token))
    (ts : list Json.token) :
  Json.pushChar c r = Some ts ->
  exists ts', r = Some ts' /\ map lexemeOf ts = map lexemeOf ts'.
Proof.
  destruct r as [[| [] ts'] |]; try done. intros [= <-]. by eexists.
Qed.

Lemma emit_lexemes (t : Json.token) (r : option (list Json.token))
    (ts : list Json.token) :
  Json.emit t r = Some ts -> exists ts', r = Some ts' /\ ts = t :: ts'.
Proof. destruct r; [| done]. intros [= <-]. by eexists. Qed.

Lemma scan_lex (s : string) (m : Json.mode) (ts : list Json.token) :
  Json.lex m s = Some ts -> Json.scan (placeOf m) s = Some (map lexemeOf ts).
Proof.
  revert m ts. induction s as [| c s IH]; intros m ts Hlex.
  all: try assert (forall ts', Json.lex Json.Top s = Some ts' ->
                     Json.scan Json.Between s = Some (map lexemeOf ts')) as IHtop
         by (intros ts'; apply (IH Json.Top)).
  - destruct m; try done; cbn in Hlex; injection Hlex as <-; [done |].
    cbn. by destruct lead0.
  - destruct m as [| | | n v | | neg v lead0]; cbn [Json.lex] in Hlex.
    + cbn [placeOf Json.scan]. pose proof (startOf_atTop c) as Hc.
      destruct (Json.atTop c) as [t | m' |]; [| | done]; rewrite Hc.
      * apply emit_lexemes in Hlex as (ts' & Hlex & ->).
        by rewrite (IHtop ts' Hlex).
      * by apply IH.
    + cbn [placeOf Json.scan].
      destruct (Ascii.eqb c "034").
      * apply emit_lexemes in Hlex as (ts' & Hlex & ->).
        by rewrite (IHtop ts' Hlex).
      * destruct (Ascii.eqb c "\"); [by apply (IH Json.InEsc) |].
        destruct (Json.isControl c); [done |].
        apply pushChar_lexemes in Hlex as (ts' & Hlex & ->).
        by apply (IH Json.InStr).
    + cbn [placeOf Json.scan].
      destruct (Json.unescape c).
      * apply pushChar_lexemes in Hlex as (ts' & Hlex & ->).
        by apply (IH Json.InStr).
      * destruct (Ascii.eqb c "u"); [by apply (IH (Json.InHex 4 0)) | done].
    + cbn [placeOf Json.scan].
      destruct (Json.hexValue c) as [h |]; [| done].
      destruct n as [| [| n]].
      * by apply IH in Hlex.
      * destruct (v * 16 + h <? 256); [| done].
        apply pushChar_lexemes in Hlex as (ts' & Hlex & ->).
        by apply (IH Json.InStr).
      * by apply IH in Hlex.
    + cbn [placeOf Json.scan].
      destruct (Js.digitValue c) as [d |] eqn:Hd; [| done].
      destruct (digitValue_zero c d Hd) as [-> ->].
      apply (IH (Json.InNum true d (d =? 0))) in Hlex. cbn [placeOf] in Hlex.
      by destruct (d =? 0).
    + destruct (Js.digitValue c) as [d |] eqn:Hd.
      * destruct lead0; [done |]. cbn [placeOf Json.scan].
        destruct (digitValue_zero c d Hd) as [_ ->].
        by apply IH in Hlex.
      * pose proof (startOf_atTop c) as Hc.
        assert (Json.atTop c <> Json.Reject) as Hrej
          by (intros Hr; by rewrite Hr in Hlex).
        destruct (atTop_ends_number c Hd Hrej) as (Hp & He & Hdig).
        assert (Json.scan (placeOf (Json.InNum neg v lead0)) (String c s)
                = match Json.startOf c with
                  | Json.Give l =>
                      Json.give Json.Scalar (Json.give l (Json.scan Json.Between s))
                  | Json.Go p' => Json.give Json.Scalar (Json.scan p' s)
                  | Json.Stop => None
                  end) as ->
          by (destruct lead0; cbn [placeOf Json.scan]; by rewrite Hp, He, Hdig).
        destruct (Json.atTop c) as [t | m' |]; [| | done]; rewrite Hc.
        -- apply emit_lexemes in Hlex as (ts1 & Hlex & ->).
           apply emit_lexemes in Hlex as (ts2 & Hlex & ->).
           by rewrite (IHtop ts2 Hlex).
        -- destruct m'; try done. cbn [placeOf].
           apply emit_lexemes in Hlex as (ts1 & Hlex & ->).
           by rewrite (IHtop ts1 Hlex).
Qed.

Lemma grammar_members (n : nat) (ts : list Json.token) (acc o : DailyTotals)
    (e : Json.expecting) :
  (length ts <= n)%nat ->
  e = Json.AKey \/ e = Json.AKeyOrEnd ->
  Json.members acc ts = Some o ->
  Json.grammar e [Json.InObject] (map lexemeOf ts) = true.
Proof.
  revert ts acc e. induction n as [| n IH]; intros ts acc e Hlen He Hm.
  - destruct ts; [cbn in Hm; done | cbn in Hlen; lia].
  - destruct ts as [| [| | | | k |] [| [] [| [| | | | | v] rest]]]; try done.
    cbn [Json.members] in Hm.
    assert (Json.grammar Json.ASeparator [Json.InObject] (map lexemeOf rest) = true)
      as Hrest.
    { destruct rest as [| [] rest']; try done.
      - by destruct rest'.
      - cbn [map lexemeOf Json.grammar].
        apply (IH rest' (<[k := v]> acc)); [cbn in Hlen; lia | by left | done]. }
    by destruct He as [-> | ->].
Qed.

Lemma readTotals_valid (text : string) (o : DailyTotals) :
  Json.readTotals text = Some o -> Json.valid text = true.
Proof.
  unfold Json.readTotals, Json.valid. intros Hread.
  destruct (Json.lex Json.Top text) as [ts |] eqn:Hlex; [| done].
  pose proof (scan_lex text Json.Top ts Hlex) as Hscan. cbn [placeOf] in Hscan.
  rewrite Hscan.
  destruct ts as [| [] ts]; try done.
  change (Json.grammar Json.AValue [] (map lexemeOf (Json.TLBrace :: ts)))
    with (Json.grammar Json.AKeyOrEnd [Json.InObject] (map lexemeOf ts)).
  destruct ts as [| t ts]; [done |].
  assert (t :: ts = [Json.TRBrace] \/ Json.members ∅ (t :: ts) = Some o)
    as [[= -> ->] | Hm] by (destruct t; auto; destruct ts; auto).
  - reflexivity.
  - by apply (grammar_members (length (t :: ts)) (t :: ts) ∅ o); [| right |].
Qed.

(** [JSON.parse] gives a totals object exactly for the texts that read as
    one. *)
Lemma parse_Totals (text : string) (o : DailyTotals) :
  Json.parse text = Json.Totals o <-> Json.readTotals text = Some o.
Proof.
  unfold Json.parse. split.
  - destruct (Json.valid text); [| done].
    by destruct (Json.readTotals text) as [o' |]; [intros [= ->] |].
  - intros Hread. by rewrite (readTotals_valid text o Hread), Hread.
Qed.

(** [JSON.parse(JSON.stringify(o))] is [o] again. *)
Lemma parse_stringify (o : DailyTotals) :
  Json.parse (Json.stringify o) = Json.Totals o.
Proof. apply parse_Totals, readTotals_stringify. Qed.

Lemma truthyStr_stringify (o : DailyTotals) :
  Js.truthyStr (Json.stringify o) = true.
Proof. reflexivity. Qed.

(* ===================================================================== *)
(** * Facts about the calendar                                            *)
(* ===================================================================== *)

Lemma dayOfEra_range (day : Z) : 0 <= JsDate.dayOfEra day <= 146096.
Proof. unfold JsDate.dayOfEra. pose proof (Z.mod_pos_bound (day + 719468) 146097). lia. Qed.

Lemma yearOfEra_range (doe : Z) :
  0 <= doe <= 146096 -> 0 <= JsDate.yearOfEra doe <= 399.
Proof. unfold JsDate.yearOfEra. intros H. Z.div_mod_to_equations; lia. Qed.

Lemma dayOfYear_range (doe : Z) :
  0 <= doe <= 146096 -> 0 <= JsDate.dayOfYear doe <= 365.
Proof.
  unfold JsDate.dayOfYear, JsDate.yearOfEra. intros H.
  Z.div_mod_to_equations; lia.
Qed.

Lemma monthFromMarch_range (doy : Z) :
  0 <= doy <= 365 -> 0 <= JsDate.monthFromMarch doy <= 11.
Proof. unfold JsDate.monthFromMarch. intros H. Z.div_mod_to_equations; lia. Qed.

Lemma monthOfDay_range (day : Z) : 1 <= JsDate.monthOfDay day <= 12.
Proof.
  unfold JsDate.monthOfDay.
  pose proof (monthFromMarch_range _ (dayOfYear_range _ (dayOfEra_range day))).
  destruct (Z.ltb_spec (JsDate.monthFromMarch (JsDate.dayOfYear (JsDate.dayOfEra day))) 10); lia.
Qed.

Lemma dateOfDay_range (day : Z) : 1 <= JsDate.dateOfDay day <= 31.
Proof.
  unfold JsDate.dateOfDay.
  pose proof (dayOfYear_range _ (dayOfEra_range day)) as H.
  revert H. generalize (JsDate.dayOfYear (JsDate.dayOfEra day)). intros doy H.
  unfold JsDate.monthFromMarch. Z.div_mod_to_equations; lia.
Qed.

(** The first of the month of a day, plus its day of the month, is the day. *)
Lemma dayFromCivil_of_day (day : Z) :
  JsDate.dayFromCivil (JsDate.yearOfDay day) (JsDate.monthOfDay day) 1
    + JsDate.dateOfDay day - 1 = day.
Proof.
  unfold JsDate.dayFromCivil, JsDate.yearOfDay, JsDate.dateOfDay, JsDate.monthOfDay.
  pose proof (dayOfEra_range day) as Hdoe.
  pose proof (yearOfEra_range _ Hdoe) as Hyoe.
  pose proof (monthFromMarch_range _ (dayOfYear_range _ Hdoe)) as Hmp.
  assert (day = JsDate.era day * 146097 + JsDate.dayOfEra day - 719468) as Hday.
  { unfold JsDate.era, JsDate.dayOfEra.
    pose proof (Z.div_mod (day + 719468) 146097). lia. }
  unfold JsDate.dayOfYear in *.
  set (doe := JsDate.dayOfEra day) in *. set (e := JsDate.era day) in *.
  set (yoe := JsDate.yearOfEra doe) in *.
  set (mp := JsDate.monthFromMarch (doe - (365 * yoe + yoe / 4 - yoe / 100))) in *.
  assert ((yoe + 400 * e) / 400 = e /\ (yoe + 400 * e) mod 400 = yoe) as [Hq Hr]
    by (Z.div_mod_to_equations; lia).
  destruct (Z.ltb_spec mp 10).
  - destruct (Z.leb_spec (mp + 3) 2); [lia |].
    replace (yoe + 400 * e + 0) with (yoe + 400 * e) by lia.
    rewrite Hq, Hr. replace (mp + 3 - 3) with mp by lia. lia.
  - destruct (Z.leb_spec (mp - 9) 2); [| lia].
    replace (yoe + 400 * e + 1 - 1) with (yoe + 400 * e) by lia.
    rewrite Hq, Hr. replace (mp - 9 + 9) with mp by lia. lia.
Qed.

Lemma Day_add_days (t k : Z) :
  JsDate.Day (t + k * JsDate.msPerDay) = JsDate.Day t + k.
Proof. unfold JsDate.Day. by rewrite Z.div_add. Qed.

(** [setDate] moves the local time by whole days and converts the local
    time that results back. *)
Lemma setDate_local (tz : JsDate.TimeZone) (t dt : Z) :
  JsDate.setDate tz t dt
  = JsDate.UTC tz (JsDate.LocalTime tz t
                   + (dt - JsDate.getDate tz t) * JsDate.msPerDay).
Proof.
  unfold JsDate.setDate, JsDate.getDate. cbv zeta. f_equal.
  generalize (JsDate.LocalTime tz t). intros lt.
  unfold JsDate.MakeDate, JsDate.MakeDay,
    JsDate.YearFromTime, JsDate.MonthFromTime, JsDate.DateFromTime,
    JsDate.TimeWithinDay.
  pose proof (dayFromCivil_of_day (JsDate.Day lt)) as Hd.
  revert Hd.
  generalize (JsDate.dayFromCivil (JsDate.yearOfDay (JsDate.Day lt))
                (JsDate.monthOfDay (JsDate.Day lt)) 1).
  generalize (JsDate.dateOfDay (JsDate.Day lt)).
  unfold JsDate.Day, JsDate.msPerDay. intros date first Hd.
  Z.div_mod_to_equations; lia.
Qed.

(** In a zone of fixed offset [setDate] moves the instant by whole days. *)
Lemma setDate_shift (tza t dt : Z) :
  JsDate.setDate tza t dt = t + (dt - JsDate.getDate tza t) * JsDate.msPerDay.
Proof.
  rewrite setDate_local. unfold JsDate.UTC, JsDate.LocalTime. cbn. lia.
Qed.

(** The start of the week is what the local time of the Monday is
    converted to. *)
Lemma getStartOfWeek_local (tz : JsDate.TimeZone) (t : Z) :
  getStartOfWeek tz t = JsDate.UTC tz (localMonday tz t).
Proof.
  unfold getStartOfWeek, localMonday. cbv zeta. rewrite setDate_local. f_equal.
  unfold JsDate.getDay, JsDate.WeekDay, mondayIndex.
  set (n := JsDate.Day (JsDate.LocalTime tz t)).
  destruct (Z.eqb_spec ((n + 4) mod 7) 0) as [H0 | H0];
    assert ((n + 3) mod 7 = (if decide ((n + 4) mod 7 = 0) then 6 else (n + 4) mod 7 - 1))
      as -> by (case_decide; Z.div_mod_to_equations; lia);
    case_decide; try done; lia.
Qed.

(** In a zone of fixed offset the start of the week is the instant moved
    back to Monday, by the local day of the week. *)
Lemma getStartOfWeek_shift (tza t : Z) :
  getStartOfWeek tza t
  = t - mondayIndex (JsDate.Day (JsDate.LocalTime tza t)) * JsDate.msPerDay.
Proof.
  rewrite getStartOfWeek_local. unfold localMonday, JsDate.UTC, JsDate.LocalTime.
  cbn. lia.
Qed.

(** ** The text of a date *)

Lemma isDigit_digitChar (d : Z) : Js.isDigit (Js.digitChar d) = true.
Proof.
  pose proof (digitChar_cases d) as Hc.
  repeat (apply elem_of_cons in Hc as [-> | Hc]; [reflexivity |]).
  by apply elem_of_nil in Hc.
Qed.

Lemma isDateChar_digitChar (d : Z) : isDateChar (Js.digitChar d) = true.
Proof. unfold isDateChar. by rewrite isDigit_digitChar. Qed.

Lemma allChars_isoDate (day : Z) : allChars isDateChar (JsDate.isoDate day) = true.
Proof.
  unfold JsDate.isoDate, JsDate.isoYear, JsDate.pad6, JsDate.pad4, JsDate.pad3,
    JsDate.pad2.
  repeat case_match; norm_app; cbn [allChars];
    rewrite ?isDateChar_digitChar; reflexivity.
Qed.

Lemma splitHead_app (sep : ascii) (s rest : string) :
  allChars (fun c => negb (Ascii.eqb c sep)) s = true ->
  splitHead sep (s +:+ String sep rest) = s.
Proof.
  induction s as [| c s IH]; intros H.
  - rewrite app_Empty. cbn. by rewrite Ascii.eqb_refl.
  - cbn [allChars] in H. apply andb_prop in H as [Hc Hs].
    rewrite app_String. cbn [splitHead].
    destruct (Ascii.eqb c sep); [done |]. by rewrite IH.
Qed.

Lemma allChars_impl (p q : ascii -> bool) (s : string) :
  (forall c, p c = true -> q c = true) ->
  allChars p s = true -> allChars q s = true.
Proof.
  intros Hpq. induction s as [| c s IH]; [done |]. cbn [allChars].
  intros [Hc Hs]%andb_prop. by rewrite (Hpq c Hc), IH.
Qed.

(** [getDateString] is the UTC calendar date of the instant. *)
Lemma getDateString_utcDate (t : Z) : getDateString t = utcDate t.
Proof.
  unfold getDateString, utcDate, JsDate.toISOString. norm_app.
  apply splitHead_app, (allChars_impl isDateChar); [| apply allChars_isoDate].
  intros c. unfold isDateChar, Js.isDigit.
  destruct c as [[] [] [] [] [] [] [] []]; done.
Qed.

(** From 1 March 0000 to 29 February 9600 the year has four digits. *)
Lemma yearOfDay_four_digits (day : Z) :
  -719468 <= day < 2786860 -> 0 <= JsDate.yearOfDay day <= 9999.
Proof.
  intros H. unfold JsDate.yearOfDay.
  pose proof (yearOfEra_range _ (dayOfEra_range day)).
  assert (0 <= JsDate.era day <= 23).
  { unfold JsDate.era. Z.div_mod_to_equations; lia. }
  destruct (JsDate.monthOfDay day <=? 2); lia.
Qed.

Lemma isYMD_isoDate (day : Z) :
  0 <= JsDate.yearOfDay day <= 9999 -> isYMD (JsDate.isoDate day) = true.
Proof.
  intros H. unfold JsDate.isoDate, JsDate.isoYear.
  destruct (Z.leb_spec 0 (JsDate.yearOfDay day)); [| lia].
  destruct (Z.leb_spec (JsDate.yearOfDay day) 9999); [| lia].
  cbn [andb]. unfold JsDate.pad4, JsDate.pad3, JsDate.pad2. norm_app.
  cbn [isYMD]. rewrite !isDigit_digitChar. reflexivity.
Qed.

(** The key of an instant between 1 March 0000 and 29 February 9600 has
    the shape YYYY-MM-DD. *)
Lemma getDateString_isYMD (t : Z) :
  -719468 * JsDate.msPerDay <= t < 2786860 * JsDate.msPerDay ->
  isYMD (getDateString t) = true.
Proof.
  intros Ht. rewrite getDateString_utcDate. apply isYMD_isoDate.
  apply yearOfDay_four_digits. unfold JsDate.Day, JsDate.msPerDay in *.
  Z.div_mod_to_equations; lia.
Qed.

(** The three fields of a date are a month, a day of that month, and the
    year, and together they denote the day they were computed from. *)
Lemma isoDate_denotes_day (day : Z) :
  1 <= JsDate.monthOfDay day <= 12
  /\ 1 <= JsDate.dateOfDay day <= 31
  /\ JsDate.dayFromCivil (JsDate.yearOfDay day) (JsDate.monthOfDay day)
       (JsDate.dateOfDay day) = day.
Proof.
  split; [apply monthOfDay_range |]. split; [apply dateOfDay_range |].
  rewrite <- (dayFromCivil_of_day day) at 4.
  unfold JsDate.dayFromCivil. lia.
Qed.

(** The dates of the week are the UTC dates of the instants that the
    local time of the start, moved on by zero to six days, is converted
    to. *)
Lemma getDatesInWeek_local (tz : JsDate.TimeZone) (t : Z) :
  getDatesInWeek tz t
  = map (fun i => utcDate (JsDate.UTC tz
                    (JsDate.LocalTime tz (getStartOfWeek tz t) + i * JsDate.msPerDay)))
      [0; 1; 2; 3; 4; 5; 6].
Proof.
  unfold getDatesInWeek. cbv zeta. apply map_ext. intros i.
  rewrite getDateString_utcDate, setDate_local. do 2 f_equal. lia.
Qed.

(** While the clocks do not change, they are seven consecutive dates. *)
Lemma getDatesInWeek_steady (tz : JsDate.TimeZone) (t : Z) :
  steadyWeek tz t ->
  getDatesInWeek tz t
  = sevenDates (JsDate.Day t - mondayIndex (JsDate.Day (JsDate.LocalTime tz t))).
Proof.
  unfold steadyWeek. cbv zeta. intros [Hstart Hdays].
  rewrite getDatesInWeek_local, getStartOfWeek_local. unfold sevenDates.
  pose proof (Hdays 0 ltac:(lia)) as H0. rewrite Z.mul_0_l, Z.add_0_r in H0.
  assert (JsDate.LocalTime tz (JsDate.UTC tz (localMonday tz t)) = localMonday tz t)
    as ->.
  { unfold JsDate.UTC. rewrite H0. unfold JsDate.LocalTime at 1.
    rewrite Hstart. lia. }
  assert (forall i, 0 <= i <= 6 ->
            utcDate (JsDate.UTC tz (localMonday tz t + i * JsDate.msPerDay))
            = JsDate.isoDate
                (JsDate.Day t - mondayIndex (JsDate.Day (JsDate.LocalTime tz t)) + i))
    as Hi.
  { intros i Hrange. unfold utcDate, JsDate.UTC. f_equal.
    rewrite (Hdays i Hrange). unfold localMonday. cbv zeta.
    set (m := mondayIndex _). unfold JsDate.LocalTime.
    match goal with
    | |- JsDate.Day ?x = _ =>
        replace x with (t + (i - m) * JsDate.msPerDay) by lia
    end.
    rewrite Day_add_days. lia. }
  cbn [map]. by rewrite !Hi by lia.
Qed.

Lemma steadyWeek_fixedOffset (tza t : Z) : steadyWeek tza t.
Proof. by split. Qed.

Lemma getDatesInWeek_sevenDates (tza t : Z) :
  getDatesInWeek tza t
  = sevenDates (JsDate.Day t - mondayIndex (JsDate.Day (JsDate.LocalTime tza t))).
Proof. apply getDatesInWeek_steady, steadyWeek_fixedOffset. Qed.

(* ===================================================================== *)
(** * Facts about the ledger                                              *)
(* ===================================================================== *)

Lemma orZero_default (v : option Z) : orZero v = default 0 v.
Proof. destruct v as [x |]; [| done]. cbn. by destruct (Z.eqb_spec x 0). Qed.

Lemma sumValues_insert_fresh (o : DailyTotals) (k : string) (v : Z) :
  o !! k = None -> sumValues (<[k := v]> o) = v + sumValues o.
Proof. intros H. unfold sumValues. rewrite map_fold_insert_L; [done | | done]. intros; lia. Qed.

Lemma sumValues_insert (o : DailyTotals) (k : string) (v : Z) :
  sumValues (<[k := v]> o) = sumValues o - default 0 (o !! k) + v.
Proof.
  destruct (o !! k) as [x |] eqn:Hk; cbn [default]; unfold id.
  - assert (sumValues o = x + sumValues (delete k o)) as ->.
    { rewrite <- (insert_delete_id o k x Hk) at 1.
      apply sumValues_insert_fresh, lookup_delete_eq. }
    rewrite <- insert_delete_eq.
    rewrite sumValues_insert_fresh by apply lookup_delete_eq. lia.
  - rewrite sumValues_insert_fresh by done. lia.
Qed.

Lemma sumOver_pairs (o : DailyTotals) (l : list (string * Z)) (a : Z) :
  (forall k v, (k, v) ∈ l -> o !! k = Some v) ->
  foldl (fun sum date => sum + orZero (o !! date)) a l.*1
  = a + foldr (fun kv s => kv.2 + s) 0 l.
Proof.
  revert a. induction l as [| [k v] l IH]; intros a Hl; cbn; [lia |].
  rewrite IH by (intros; apply Hl; by right).
  rewrite (Hl k v) by left. rewrite orZero_default. cbn. lia.
Qed.

(** Summing the entries of all keys gives the sum of the values. *)
Lemma sumOver_keys (o : DailyTotals) : sumOver o (Object_keys o) = sumValues o.
Proof.
  unfold sumOver, Object_keys, sumValues.
  rewrite sumOver_pairs by (intros k v; apply elem_of_map_to_list).
  rewrite map_fold_foldr, Z.add_0_l.
  apply foldr_ext; [| done..]. by intros [k v] s.
Qed.

Lemma length_Object_keys (o : DailyTotals) : length (Object_keys o) = size o.
Proof. unfold Object_keys. by rewrite length_fmap, length_map_to_list. Qed.

(** ** Storage *)

Lemma getDailyTotals_saved (totals : DailyTotals) (ls : Storage) :
  getDailyTotals (saveDailyTotals totals ls) = Normal totals.
Proof.
  unfold getDailyTotals, saveDailyTotals. rewrite lookup_insert_eq.
  by rewrite truthyStr_stringify, parse_stringify.
Qed.

Lemma truthyStr_toString (n : num) : Js.truthyStr (Js.toString n) = true.
Proof. destruct n; [apply truthyStr_intToString | done]. Qed.

Lemma getOverallTotal_saved (z : Z) (ls : Storage) :
  getOverallTotal (saveOverallTotal (Num z) ls) = Num z.
Proof.
  unfold getOverallTotal, saveOverallTotal. rewrite lookup_insert_eq.
  rewrite truthyStr_toString. apply parseInt_intToString.
Qed.

Lemma getOverallTotal_saved_num (total : num) (ls : Storage) :
  getOverallTotal (saveOverallTotal total ls) = total.
Proof.
  destruct total as [z |]; [apply getOverallTotal_saved |].
  unfold getOverallTotal, saveOverallTotal. by rewrite lookup_insert_eq.
Qed.

(** The session entry does not touch what the totals read. *)
Lemma storeInv_session (ls : Storage) (o : option string) :
  storeInv ls ->
  storeInv (match o with
            | Some s => <[STORAGE_KEY_SESSION_START := s]> ls
            | None => delete STORAGE_KEY_SESSION_START ls
            end).
Proof.
  intros (totals & Hd & Ho). exists totals.
  unfold getDailyTotals, getOverallTotal in *.
  destruct o; by rewrite ?lookup_insert_ne, ?lookup_delete_ne.
Qed.

Lemma storeInv_commit (o : DailyTotals) (ls : Storage) :
  storeInv (saveOverallTotal (Num (sumValues o)) (saveDailyTotals o ls)).
Proof.
  exists o. split; [| apply getOverallTotal_saved].
  unfold getDailyTotals, saveOverallTotal.
  rewrite lookup_insert_ne by done. apply getDailyTotals_saved.
Qed.

Lemma ledgerInv_endSession (st : State) : ledgerInv st -> ledgerInv (endSession st).
Proof.
  intros [Hm Hs]. split; [done |]. apply (storeInv_session _ None Hs).
Qed.

Lemma ledgerInv_commit (t : Z) (today : string) (st : State) :
  memInv st -> ledgerInv (commit t today st).
Proof.
  unfold memInv. intros Hm.
  assert (Js.add (overallTotal st) (Num t)
          = Num (sumValues (<[today := orZero (dailyTotals st !! today) + t]>
                              (dailyTotals st)))) as Hsum.
  { rewrite Hm, sumValues_insert, orZero_default. cbn. f_equal. lia. }
  split; unfold commit; cbn; rewrite Hsum; [done | apply storeInv_commit].
Qed.

(** ** Stopping *)

Lemma Qfloor_tenths (ms : Z) : Qfloor (inject_Z ms / 1000 * 10)%Q = ms / 100.
Proof.
  cbn. rewrite Z.mul_1_r.
  change (Z.pos (1 * 1000 * 1)) with (100 * 10). by rewrite Z.div_mul_cancel_r.
Qed.

Lemma refTruthy_Some (a : Z) : a <> 0 -> refTruthy (Some a) = true.
Proof. intros H. cbn. by destruct (Z.eqb_spec a 0). Qed.

(** What [handleTimer] does to a running session with a truthy anchor. *)
Lemma handleTimer_stop (st : State) (start now today : Z) :
  Active st start -> start <> 0 ->
  handleTimer now today st
  = endSession
      (let t := calculateElapsedTenths now start in
       if (0 <? t) && (t <=? MAX_SESSION_TENTHS)
       then commit t (getDateString today) st else st).
Proof.
  intros [Ht Hr] Hs. unfold handleTimer.
  rewrite Ht, Hr. by rewrite refTruthy_Some.
Qed.

Lemma handleTimer_stop_commit (st : State) (start now today : Z) :
  Active st start -> start <> 0 ->
  0 < calculateElapsedTenths now start <= 864000 ->
  handleTimer now today st
  = endSession (commit (calculateElapsedTenths now start) (getDateString today) st).
Proof.
  intros Hact Hstart Hrange. rewrite (handleTimer_stop st start now today Hact Hstart).
  cbv zeta. change MAX_SESSION_TENTHS with 864000.
  destruct (Z.ltb_spec 0 (calculateElapsedTenths now start)); [| lia].
  by destruct (Z.leb_spec (calculateElapsedTenths now start) 864000); [| lia].
Qed.

Lemma Idle_endSession (st : State) : Idle (endSession st).
Proof. repeat split. cbn. apply lookup_delete_eq. Qed.

Lemma committed_commit (t : Z) (date : string) (st : State) :
  committed t date st (endSession (commit t date st)).
Proof.
  unfold committed, commit, endSession, clearSessionStart, saveOverallTotal,
    saveDailyTotals. cbn. rewrite orZero_default.
  repeat split.
  - rewrite lookup_delete_ne, lookup_insert_ne, lookup_insert_eq; done.
  - rewrite lookup_delete_ne, lookup_insert_eq; done.
Qed.

Lemma nothingCommitted_endSession (st : State) : nothingCommitted st (endSession st).
Proof.
  unfold nothingCommitted, endSession, clearSessionStart. cbn.
  by rewrite !lookup_delete_ne.
Qed.

(* ===================================================================== *)
(** * The model on concrete inputs                                        *)
(* ===================================================================== *)

Example toString_examples :
  Js.intToString 1717367400000 = "1717367400000"
  /\ Js.intToString (-42) = "-42" /\ Js.intToString 0 = "0"
  /\ Js.toString NaN = "NaN".
Proof. repeat split. Qed.

Example parseInt_examples :
  Js.parseInt "1717367400000" = Num 1717367400000
  /\ Js.parseInt "  -12px" = Num (-12) /\ Js.parseInt "007" = Num 7
  /\ Js.parseInt "abc" = NaN /\ Js.parseInt "+" = NaN
  /\ Js.parseInt EmptyString = NaN.
Proof. repeat split. Qed.

Example toISOString_examples :
  JsDate.toISOString 0 = "1970-01-01T00:00:00.000Z"
  /\ JsDate.toISOString (-1) = "1969-12-31T23:59:59.999Z"
  /\ JsDate.toISOString 951782400000 = "2000-02-29T00:00:00.000Z"
  /\ JsDate.toISOString 1717367400000 = "2024-06-02T22:30:00.000Z"
  /\ JsDate.toISOString 253402300800000 = "+010000-01-01T00:00:00.000Z".
Proof. repeat split. Qed.

(** 2 June 2024, 22:30 UTC, seen two hours east: Monday the 3rd. *)
Example local_date_examples :
  JsDate.getDay 7200000 1717367400000 = 1
  /\ JsDate.getDate 7200000 1717367400000 = 3
  /\ JsDate.getDay 0 1717367400000 = 0
  /\ JsDate.getDate 0 1717367400000 = 2
  /\ JsDate.toISOString (JsDate.setDate 7200000 1717367400000 0)
     = "2024-05-30T22:30:00.000Z"
  /\ JsDate.toISOString (JsDate.setDate 7200000 1717367400000 35)
     = "2024-07-04T22:30:00.000Z".
Proof. repeat split. Qed.

Example stringify_example :
  Json.stringify {[ "2024-06-01" := 36000; "2024-06-02" := 7000 ]}
  = "{" +:+ Json.quote "2024-06-01" +:+ ":36000,"
        +:+ Json.quote "2024-06-02" +:+ ":7000}"
  /\ Json.quote "2024-06-02"
     = String "034" ("2024-06-02" +:+ String "034" EmptyString).
Proof. split; reflexivity. Qed.

Example parse_examples :
  Json.parse "{}" = Json.Totals ∅
  /\ Json.parse (" { " +:+ Json.quote "a" +:+ " : 12 , " +:+ Json.quote "b"
                 +:+ ":-3 } ")
     = Json.Totals {[ "a" := 12; "b" := -3 ]}
  /\ Json.parse ("{" +:+ Json.quote "a" +:+ ":1," +:+ Json.quote "a" +:+ ":2}")
     = Json.Totals {[ "a" := 2 ]}
  /\ Json.parse "{" = Json.Invalid
  /\ Json.parse "not json" = Json.Invalid
  /\ Json.parse ("{" +:+ Json.quote "a" +:+ ":1,}") = Json.Invalid
  /\ Json.parse ("{" +:+ Json.quote "a" +:+ ":01}") = Json.Invalid
  /\ Json.parse ("{" +:+ Json.quote "a" +:+ ":1e3}") = Json.OtherValue
  /\ Json.parse ("{" +:+ Json.quote "a" +:+ ":1.5}") = Json.OtherValue
  /\ Json.parse ("{" +:+ Json.quote "a" +:+ ":null}") = Json.OtherValue
  /\ Json.parse "[1,2]" = Json.OtherValue
  /\ Json.parse "null" = Json.OtherValue.
Proof. repeat split. Qed.

(** A session of 12,345 ms commits 123 tenths to the date of the stop. *)
Example session_of_12345_ms :
  let t0 := 1717363800000 in
  let st := handleTimer (t0 + 12345) (t0 + 12345) (handleTimer t0 t0 (mount ∅)) in
  dailyTotals st = {[ "2024-06-02" := 123 ]}
  /\ overallTotal st = Num 123
  /\ getDailyTotals (localStorage st) = Normal {[ "2024-06-02" := 123 ]}
  /\ getOverallTotal (localStorage st) = Num 123
  /\ getSessionStart (localStorage st) = None
  /\ isTracking st = false.
Proof. repeat split. Qed.

(** Stopping in the millisecond of the start commits nothing. *)
Example session_of_no_time :
  let t0 := 1717363800000 in
  let st := handleTimer t0 t0 (handleTimer t0 t0 (mount ∅)) in
  dailyTotals st = ∅ /\ overallTotal st = Num 0
  /\ localStorage st = ∅ /\ isTracking st = false.
Proof. repeat split. Qed.

(** A session left running for more than 24 hours: the next tick drops it. *)
Example session_left_running :
  let t0 := 1717363800000 in
  let st := tick (t0 + 86400100) (handleTimer t0 t0 (mount ∅)) in
  dailyTotals st = ∅ /\ overallTotal st = Num 0
  /\ localStorage st = ∅ /\ isTracking st = false /\ sessionStartRef st = None.
Proof. repeat split. Qed.

(** A tick inside the 24 hours only refreshes the display. *)
Example session_ticking :
  let t0 := 1717363800000 in
  let st := tick (t0 + 5000) (handleTimer t0 t0 (mount ∅)) in
  sessionTime st = 50 /\ isTracking st = true /\ sessionStartRef st = Some t0.
Proof. repeat split. Qed.

(** Where the clocks change, a day of the local calendar is not 24 hours.
    In New York, on the evening of 10 March 2024 (23:30 UTC), the day the
    clocks went forward, yesterday's key is that of today, not the one of
    24 hours earlier, and the week lists 10 March twice and 4 March not at
    all; at noon on 3 November, the day they went back, the start of the
    week is noon on Monday 28 October, six days and one hour earlier. *)
Example clock_change_examples :
  calculateYesterdayTotal newYork2024 1710113400000 {[ "2024-03-10" := 600 ]} = 600
  /\ getDateString 1710113400000 = "2024-03-10"
  /\ getDateString (1710113400000 - 86400000) = "2024-03-09"
  /\ getDatesInWeek newYork2024 1710113400000
     = ["2024-03-05"; "2024-03-06"; "2024-03-07"; "2024-03-08"; "2024-03-09";
        "2024-03-10"; "2024-03-10"]
  /\ JsDate.toISOString 1730653200000 = "2024-11-03T17:00:00.000Z"
  /\ JsDate.toISOString (getStartOfWeek newYork2024 1730653200000)
     = "2024-10-28T16:00:00.000Z"
  /\ getStartOfWeek newYork2024 1730653200000
     = 1730653200000 - 6 * JsDate.msPerDay - JsDate.msPerHour
  /\ JsDate.getDay newYork2024 (getStartOfWeek newYork2024 1730653200000) = 1
  /\ ~ steadyDay newYork2024 1710113400000
  /\ ~ steadyWeek newYork2024 1710113400000.
Proof.
  do 8 (split; [vm_compute; reflexivity |]). split.
  - unfold steadyDay. intros H. vm_compute in H. discriminate H.
  - unfold steadyWeek. intros [H _]. vm_compute in H. discriminate H.
Qed.

(** For a running session the interval exists unless the anchor is 0. *)
Lemma intervalRunning_Active (st : State) (start : Z) :
  Active st start -> intervalRunning st = negb (start =? 0).
Proof. intros [Ht Hr]. unfold intervalRunning. by rewrite Ht, Hr. Qed.

(* ===================================================================== *)
(** * Stopping a session                                                  *)
(* ===================================================================== *)

(** Comparisons between closed integer expressions. *)
Ltac by_computation := vm_compute; repeat split; congruence.

(** C1, as amended.  For a running session whose anchor is not 0, stopping
    computes the elapsed tenths as the floor of the elapsed milliseconds
    over 100 (the floor of seconds times ten), commits them to the entry of
    the current date and to the overall total exactly when they lie in
    (0, 864000], and clears the anchor, in the ref and in storage, whether
    or not it committed. *)
Theorem stop_commits_in_range (st : State) (start now today : Z) :
  Active st start -> start <> 0 -> stopSpec st start now today.
Proof.
  intros Hact Hstart. unfold stopSpec. rewrite Qfloor_tenths.
  rewrite (handleTimer_stop st start now today Hact Hstart).
  unfold calculateElapsedTenths. set (t := (now - start) / 100).
  change MAX_SESSION_TENTHS with 864000.
  split; [done |]. split; [done |].
  destruct (Z.ltb_spec 0 t), (Z.leb_spec t 864000); cbn [andb];
    (split; [intros ? | split; [intros ? | apply Idle_endSession]]);
    try lia; try apply committed_commit; try apply nothingCommitted_endSession.
Qed.

Lemma stop_commits_in_range_witness :
  let st := handleTimer 1717363800000 1717363800000 (mount ∅) in
  Active st 1717363800000 /\ 1717363800000 <> 0
  /\ stopSpec st 1717363800000 1717367400000 1717367400000.
Proof.
  split; [split; reflexivity |]. split; [lia |].
  apply stop_commits_in_range; [split; reflexivity | lia].
Defined.

(** C1 as stated fails for a session anchored at time 0: the session is
    running and 123 tenths have elapsed, but the falsy anchor makes the
    stop skip the commit. *)
Lemma stop_at_epoch_anchor_counterexample :
  let st := handleTimer 0 0 (mount ∅) in
  Active st 0 /\ ~ stopSpec st 0 12345 12345.
Proof.
  split; [split; reflexivity |].
  intros (_ & _ & Hcommit & _).
  destruct Hcommit as [Hdaily _]; [by_computation |].
  apply (f_equal (fun m => m !! getDateString 12345)) in Hdaily.
  rewrite lookup_insert_eq in Hdaily. discriminate Hdaily.
Qed.

(** C2, as amended.  When the elapsed time of a running session exceeds
    864000 tenths, a stop makes the machine Idle with the anchor cleared
    and leaves the totals, in the component and in storage, what they
    were; so does a tick, provided the anchor is not 0.  For a session
    anchored at time 0 no interval is set up, and a tick leaves the
    component as it is, the session still running. *)
Theorem oversized_session_discarded (st : State) (start now : Z) :
  Active st start ->
  864000 < calculateElapsedTenths now start ->
  (start <> 0 -> discarded st (tick now st))
  /\ (start = 0 -> tick now st = st /\ Active (tick now st) start)
  /\ (forall today, discarded st (handleTimer now today st)).
Proof.
  intros [Htrack Href] Hlong.
  assert (discarded st (endSession st)) as Hend
    by (split; [apply Idle_endSession | apply nothingCommitted_endSession]).
  split; [| split].
  - intros Hstart. unfold tick, intervalRunning. rewrite Htrack, Href.
    rewrite refTruthy_Some by done. cbn [andb].
    change MAX_SESSION_TENTHS with 864000.
    by destruct (Z.ltb_spec 864000 (calculateElapsedTenths now start)); [| lia].
  - intros ->.
    assert (tick now st = st) as ->
      by (unfold tick, intervalRunning; by rewrite Htrack, Href).
    by repeat split.
  - intros today. unfold handleTimer. rewrite Htrack, Href.
    change MAX_SESSION_TENTHS with 864000.
    destruct (refTruthy (Some start)); [| done].
    destruct (Z.leb_spec (calculateElapsedTenths now start) 864000); [lia |].
    by rewrite andb_false_r.
Qed.

Lemma oversized_session_discarded_witness :
  let st := handleTimer 1717363800000 1717363800000 (mount ∅) in
  let now := 1717363800000 + 86400100 in
  Active st 1717363800000
  /\ 864000 < calculateElapsedTenths now 1717363800000
  /\ 1717363800000 <> 0
  /\ discarded st (tick now st)
  /\ discarded st (handleTimer now now st).
Proof.
  pose proof (oversized_session_discarded
                (handleTimer 1717363800000 1717363800000 (mount ∅))
                1717363800000 (1717363800000 + 86400100)) as H.
  destruct H as (Htick & _ & Hstop); [split; reflexivity | reflexivity |].
  split; [split; reflexivity |]. split; [reflexivity |]. split; [lia |].
  split; [apply Htick; lia | apply Hstop].
Defined.

(** C2 as stated fails for a session anchored at time 0, a state the
    component reaches by a start at that time: 900000 tenths later the
    session is still running after a tick. *)
Lemma tick_at_epoch_anchor_counterexample :
  let st := handleTimer 0 0 (mount ∅) in
  reachableFrom ∅ st
  /\ Active st 0
  /\ 864000 < calculateElapsedTenths 90000000 0
  /\ isTracking (tick 90000000 st) = true
  /\ ~ oversizedSpec st 0 90000000.
Proof.
  split; [by apply (reach_step ∅ (Timer 0 0) (mount ∅)); [apply reach_mount |] |].
  split; [split; reflexivity |]. split; [reflexivity |]. split; [reflexivity |].
  intros Hspec.
  destruct Hspec as [[[Hidle _] _] _]; [split; reflexivity | reflexivity |].
  discriminate Hidle.
Qed.

(* ===================================================================== *)
(** * The ledger invariant                                                *)
(* ===================================================================== *)

Lemma ledgerInv_load (now : Z) (st : State) :
  ledgerInv st -> exists st', loadEffect now st = Normal st' /\ ledgerInv st'.
Proof.
  intros [Hm Hs]. pose proof Hs as (totals & Hd & Ho).
  unfold loadEffect. rewrite Hd, Ho.
  match goal with
  | |- context [if ?c then ?a else st] => set (st1 := if c then a else st)
  end.
  assert (ledgerInv st1 /\ localStorage st1 = localStorage st) as [[Hm1 Hs1] Hls].
  { unfold st1. case_match; [| done]. by repeat split. }
  assert (exists st', Normal st1 = Normal st' /\ ledgerInv st') as Hst1
    by (exists st1; by repeat split).
  destruct (getSessionStart (localStorage st)) as [[saved |] |]; [| done..].
  destruct (Js.truthyNum (Num saved)); [| done].
  destruct (MAX_SESSION_TENTHS <? calculateElapsedTenths now saved).
  - eexists. split; [done |]. split; [done |]. apply (storeInv_session _ None Hs1).
  - eexists. split; [done |]. by split.
Qed.

Lemma ledgerInv_handleTimer (now today : Z) (st : State) :
  ledgerInv st -> ledgerInv (handleTimer now today st).
Proof.
  intros [Hm Hs]. unfold handleTimer. destruct (isTracking st).
  - apply ledgerInv_endSession.
    destruct (sessionStartRef st) as [start |]; [| done].
    destruct (refTruthy (Some start)); [| done].
    destruct (_ && _); [by apply ledgerInv_commit | done].
  - split; [done |]. apply (storeInv_session _ (Some _) Hs).
Qed.

Lemma ledgerInv_tick (now : Z) (st : State) : ledgerInv st -> ledgerInv (tick now st).
Proof.
  intros Hinv. unfold tick. destruct (intervalRunning st); [| done].
  destruct (sessionStartRef st) as [start |]; [| done].
  destruct (refTruthy (Some start)); [| done].
  destruct (_ <? _); [by apply ledgerInv_endSession | done].
Qed.

Lemma ledgerInv_step (e : Event) (st : State) :
  ledgerInv st -> exists st', step e st = Normal st' /\ ledgerInv st'.
Proof.
  intros Hinv. destruct e as [now | now today | | now]; cbn [step].
  - by apply ledgerInv_load.
  - eexists. split; [done |]. by apply ledgerInv_handleTimer.
  - eexists. split; [done |]. by apply ledgerInv_endSession.
  - eexists. split; [done |]. by apply ledgerInv_tick.
Qed.

(** The invariant holds in every state reached from a consistent storage. *)
Lemma reachable_ledgerInv (ls : Storage) (st : State) :
  storeInv ls -> reachableFrom ls st -> ledgerInv st.
Proof.
  intros Hls. induction 1 as [| e st st' _ IH Hstep].
  - split; [reflexivity | done].
  - destruct (ledgerInv_step e st IH) as (st2 & Hst2 & Hinv). congruence.
Qed.

(** C3.  From a state in which the overall total is the sum of the daily
    totals (in the component, and in what storage holds), every operation
    -- load, start, stop, discard, tick -- returns normally in a state
    where that is so again; and a commit adds one and the same duration to
    the sum of the daily totals and to the overall total. *)
Theorem ledger_invariant_preserved (e : Event) (st : State) :
  ledgerInv st ->
  (exists st', step e st = Normal st' /\ ledgerInv st')
  /\ (forall t date,
        sumValues (dailyTotals (commit t date st)) = sumValues (dailyTotals st) + t
        /\ overallTotal (commit t date st) = Num (sumValues (dailyTotals st) + t)).
Proof.
  intros Hinv. split; [by apply ledgerInv_step |].
  intros t date. destruct Hinv as [Hm _]. unfold memInv in Hm.
  unfold commit. cbn. rewrite Hm, sumValues_insert, orZero_default. cbn.
  split; [lia | done].
Qed.

Lemma ledger_invariant_preserved_witness :
  let st := mount ∅ in
  ledgerInv st
  /\ (exists st', step (Timer 1717363800000 1717363800000) st = Normal st'
                  /\ ledgerInv st').
Proof.
  assert (ledgerInv (mount ∅)) as Hinv.
  { split; [reflexivity |]. exists ∅. split; reflexivity. }
  split; [exact Hinv |].
  exact (proj1 (ledger_invariant_preserved
                  (Timer 1717363800000 1717363800000) (mount ∅) Hinv)).
Defined.


(* ===================================================================== *)
(** * The date of a commit                                                *)
(* ===================================================================== *)

(** C4, as amended.  A committed duration is recorded under the UTC
    calendar date of the instant of the stop, a key of the shape
    YYYY-MM-DD while the year has four digits; the whole duration goes to
    that one entry and every other entry, the one of the date the session
    started on included, stays as it was. *)
Theorem commit_keyed_by_utc_date (st : State) (start now today : Z) :
  Active st start -> start <> 0 ->
  0 < calculateElapsedTenths now start <= 864000 ->
  0 <= JsDate.YearFromTime today <= 9999 ->
  commitDateSpec utcDate st start now today.
Proof.
  intros Hact Hstart Hrange Hyear. unfold commitDateSpec.
  rewrite (handleTimer_stop_commit st start now today Hact Hstart Hrange).
  rewrite getDateString_utcDate.
  split; [by apply isYMD_isoDate |].
  unfold commit. cbn. rewrite orZero_default. split.
  - apply lookup_insert_eq.
  - intros other Hother. by apply lookup_insert_ne.
Qed.

(** A session from 23:30 to 00:30 UTC: all of it goes to the second day. *)
Lemma commit_keyed_by_utc_date_witness :
  let st := handleTimer 1717371000000 1717371000000 (mount ∅) in
  Active st 1717371000000 /\ 1717371000000 <> 0
  /\ 0 < calculateElapsedTenths 1717374600000 1717371000000 <= 864000
  /\ 0 <= JsDate.YearFromTime 1717374600000 <= 9999
  /\ utcDate 1717371000000 = "2024-06-02"
  /\ utcDate 1717374600000 = "2024-06-03"
  /\ commitDateSpec utcDate st 1717371000000 1717374600000 1717374600000.
Proof.
  split; [split; reflexivity |]. split; [lia |].
  split; [by_computation |]. split; [by_computation |].
  split; [reflexivity |]. split; [reflexivity |].
  apply commit_keyed_by_utc_date;
    [split; reflexivity | lia | by_computation | by_computation].
Defined.

(** C4 as stated fails two hours east of Greenwich: a session stopped at
    00:30 local time on 3 June, 22:30 UTC on 2 June, is not recorded under
    the local date. *)
Lemma commit_local_date_counterexample :
  let tza := 7200000 in
  let start := 1717363800000 in
  let today := 1717367400000 in
  let st := handleTimer start start (mount ∅) in
  Active st start /\ start <> 0
  /\ 0 < calculateElapsedTenths today start <= 864000
  /\ 0 <= JsDate.YearFromTime today <= 9999
  /\ localDate tza today = "2024-06-03"
  /\ getDateString today = "2024-06-02"
  /\ ~ commitDateSpec (localDate tza) st start today today.
Proof.
  split; [split; reflexivity |]. split; [lia |].
  split; [by_computation |]. split; [by_computation |].
  split; [reflexivity |]. split; [reflexivity |].
  intros (_ & Hkey & _). vm_compute in Hkey. discriminate Hkey.
Qed.

(* ===================================================================== *)
(** * Restoring a session on load                                         *)
(* ===================================================================== *)

Lemma getDailyTotals_mount_load (ls : Storage) (totals : DailyTotals) (now : Z) :
  getDailyTotals ls = Normal totals ->
  exists st1,
    dailyTotals st1 = (if (0 <? length (Object_keys totals))%nat
                          || Js.gt (getOverallTotal ls) (Num 0)
                       then totals else ∅)
    /\ overallTotal st1 = (if (0 <? length (Object_keys totals))%nat
                              || Js.gt (getOverallTotal ls) (Num 0)
                           then getOverallTotal ls else Num 0)
    /\ sessionTime st1 = 0 /\ isTracking st1 = false
    /\ sessionStartRef st1 = None /\ localStorage st1 = ls
    /\ loadEffect now (mount ls)
       = match getSessionStart ls with
         | Some (Num saved) =>
             if Js.truthyNum (Num saved) then
               let elapsed := calculateElapsedTenths now saved in
               if MAX_SESSION_TENTHS <? elapsed then
                 Normal (mkState 0 false (dailyTotals st1) (overallTotal st1) None
                           (clearSessionStart ls))
               else
                 Normal (mkState elapsed true (dailyTotals st1) (overallTotal st1)
                           (Some saved) ls)
             else Normal st1
         | _ => Normal st1
         end.
Proof.
  intros Hd. unfold loadEffect. cbn [localStorage mount]. rewrite Hd.
  match goal with
  | |- context [if ?c then ?a else mount ls] =>
      exists (if c then a else mount ls); destruct c
  end; by repeat split.
Qed.

(** C5, as amended.  When the stored session start reads as a number
    other than 0, loading recomputes the elapsed time from it: if that
    exceeds 864000 tenths the anchor is cleared and the machine stays Idle,
    otherwise the machine is Active with the anchor and the recovered
    elapsed time; an anchor 5000 ms old resumes at 50 tenths. *)
Theorem load_restores_session (ls : Storage) (totals : DailyTotals) (saved now : Z) :
  getDailyTotals ls = Normal totals ->
  getSessionStart ls = Some (Num saved) ->
  saved <> 0 ->
  restoreSpec ls saved now
  /\ (saved = now - 5000 ->
      exists st', loadEffect now (mount ls) = Normal st'
                  /\ Active st' saved /\ sessionTime st' = 50).
Proof.
  intros Hd Hsaved Hnz.
  destruct (getDailyTotals_mount_load ls totals now Hd)
    as (st1 & _ & _ & _ & _ & _ & _ & Hload).
  rewrite Hsaved in Hload. cbn [Js.truthyNum] in Hload.
  destruct (Z.eqb_spec saved 0); [done |]. cbn [negb] in Hload.
  change MAX_SESSION_TENTHS with 864000 in Hload. cbv zeta in Hload.
  split.
  - unfold restoreSpec.
    destruct (864000 <? calculateElapsedTenths now saved);
      eexists; (split; [exact Hload |]).
    + repeat split. cbn. apply lookup_delete_eq.
    + by repeat split.
  - intros ->.
    assert (calculateElapsedTenths now (now - 5000) = 50) as Hfifty.
    { unfold calculateElapsedTenths. by replace (now - (now - 5000)) with 5000 by lia. }
    rewrite Hfifty in Hload. cbn in Hload.
    eexists. split; [exact Hload |]. by repeat split.
Qed.

Lemma load_restores_session_witness :
  let ls : Storage := {[ STORAGE_KEY_SESSION_START := "1717367395000" ]} in
  getDailyTotals ls = Normal ∅
  /\ getSessionStart ls = Some (Num 1717367395000)
  /\ 1717367395000 <> 0
  /\ restoreSpec ls 1717367395000 1717367400000.
Proof.
  split; [reflexivity |]. split; [reflexivity |]. split; [lia |].
  refine (proj1 (load_restores_session _ ∅ 1717367395000 1717367400000 _ _ _));
    [reflexivity | reflexivity | lia].
Defined.

(** C5 as stated fails for a stored session start of "0": it is older
    than 24 hours, yet its entry stays in storage. *)
Lemma load_zero_anchor_counterexample :
  let ls : Storage := {[ STORAGE_KEY_SESSION_START := "0" ]} in
  getDailyTotals ls = Normal ∅
  /\ getSessionStart ls = Some (Num 0)
  /\ ~ restoreSpec ls 0 1717367400000.
Proof.
  split; [reflexivity |]. split; [reflexivity |].
  intros (st' & Hload & Hspec). vm_compute in Hload.
  injection Hload as <-. destruct Hspec as (_ & _ & Hstored).
  vm_compute in Hstored. discriminate Hstored.
Qed.

(* ===================================================================== *)
(** * Commits add up                                                      *)
(* ===================================================================== *)

(** C6.  Committing [a] and then [b] under one date, from any ledger,
    leaves the entry of that date at its previous value plus [a + b]
    (an absent entry counting as 0) and the overall total larger by
    [a + b]; no other entry changes; and the daily totals and the overall
    total that are stored are those of the component. *)
Theorem commit_twice_adds (st : State) (a b : Z) (date : string) :
  0 <= a -> 0 <= b ->
  let st2 := commit b date (commit a date st) in
  dailyTotals st2 !! date = Some (default 0 (dailyTotals st !! date) + (a + b))
  /\ (forall o, overallTotal st = Num o -> overallTotal st2 = Num (o + (a + b)))
  /\ (forall other, other <> date -> dailyTotals st2 !! other = dailyTotals st !! other)
  /\ getDailyTotals (localStorage st2) = Normal (dailyTotals st2)
  /\ getOverallTotal (localStorage st2) = overallTotal st2
  /\ (forall o, overallTotal st = Num o ->
       localStorage st2 !! STORAGE_KEY_OVERALL = Some (Js.intToString (o + (a + b)))).
Proof.
  intros _ _. cbv zeta.
  assert (forall t s, getDailyTotals (localStorage (commit t date s))
                      = Normal (dailyTotals (commit t date s))) as Hdaily.
  { intros t s. unfold commit. cbn [localStorage dailyTotals].
    unfold getDailyTotals, saveOverallTotal.
    rewrite lookup_insert_ne by done. apply getDailyTotals_saved. }
  assert (forall t s, getOverallTotal (localStorage (commit t date s))
                      = overallTotal (commit t date s)) as Hoverall.
  { intros t s. unfold commit. cbn [localStorage overallTotal].
    apply getOverallTotal_saved_num. }
  split; [| split; [| split; [| split; [apply Hdaily | split; [apply Hoverall |]]]]].
  - unfold commit. cbn. rewrite !orZero_default, !lookup_insert_eq.
    f_equal. cbn [default]. unfold id. lia.
  - intros o Ho. unfold commit. cbn. rewrite Ho. cbn. f_equal. lia.
  - intros other Hother. unfold commit. cbn. by rewrite !lookup_insert_ne.
  - intros o Ho. unfold commit. cbn [localStorage overallTotal].
    unfold saveOverallTotal at 1. rewrite lookup_insert_eq, Ho. cbn.
    do 2 f_equal. lia.
Qed.

Lemma commit_twice_adds_witness :
  let st := mount ∅ in
  let st2 := commit 5 "2024-06-02" (commit 7 "2024-06-02" st) in
  0 <= 7 /\ 0 <= 5
  /\ dailyTotals st2 !! "2024-06-02" = Some (0 + (7 + 5))
  /\ overallTotal st2 = Num (0 + (7 + 5))
  /\ getDailyTotals (localStorage st2) = Normal {[ "2024-06-02" := 12 ]}
  /\ localStorage st2 !! STORAGE_KEY_OVERALL = Some "12".
Proof.
  split; [lia |]. split; [lia |].
  pose proof (commit_twice_adds (mount ∅) 7 5 "2024-06-02"
                ltac:(lia) ltac:(lia)) as (Hd & Ho & _ & Hsd & _ & Hso).
  split; [exact Hd |]. split; [exact (Ho 0 eq_refl) |].
  split; [exact Hsd | exact (Hso 0 eq_refl)].
Defined.

(** The same through the timer: two sessions stopped on one date. *)
Lemma two_sessions_same_date (st : State) (s1 n1 t1 s2 n2 t2 : Z) :
  isTracking st = false ->
  s1 <> 0 -> s2 <> 0 ->
  0 < calculateElapsedTenths n1 s1 <= 864000 ->
  0 < calculateElapsedTenths n2 s2 <= 864000 ->
  getDateString t1 = getDateString t2 ->
  let a := calculateElapsedTenths n1 s1 in
  let b := calculateElapsedTenths n2 s2 in
  let st' := handleTimer n2 t2 (handleTimer s2 s2
               (handleTimer n1 t1 (handleTimer s1 s1 st))) in
  dailyTotals st' !! getDateString t1
    = Some (default 0 (dailyTotals st !! getDateString t1) + (a + b))
  /\ overallTotal st' = Js.add (overallTotal st) (Num (a + b)).
Proof.
  intros Hidle H1 H2 Ha Hb Hdate. cbv zeta.
  set (stA := handleTimer s1 s1 st).
  assert (Active stA s1) as HA by (unfold stA, handleTimer; by rewrite Hidle).
  rewrite (handleTimer_stop_commit stA s1 n1 t1 HA H1 Ha).
  set (stB := endSession _).
  set (stC := handleTimer s2 s2 stB).
  assert (Active stC s2) as HC by done.
  rewrite (handleTimer_stop_commit stC s2 n2 t2 HC H2 Hb).
  rewrite <- Hdate.
  unfold stC, stB, stA, handleTimer, commit, endSession. rewrite Hidle. cbn.
  rewrite !orZero_default, !lookup_insert_eq. cbn [default]. unfold id. split.
  - f_equal. lia.
  - destruct (overallTotal st); cbn; [f_equal; lia | done].
Qed.

(* ===================================================================== *)
(** * The averages                                                        *)
(* ===================================================================== *)

Lemma sumOver_foldr (o : DailyTotals) (dates : list string) (a : Z) :
  foldl (fun sum date => sum + orZero (o !! date)) a dates
  = a + foldr (fun date s => default 0 (o !! date) + s) 0 dates.
Proof.
  revert a. induction dates as [| d dates IH]; intros a; cbn; [lia |].
  rewrite IH, orZero_default. lia.
Qed.

(** In a zone of fixed offset the week average is the sum over seven
    consecutive dates, absent ones counting as 0, over 7; the first of the
    seven is the UTC day of the instant moved back by the local day of the
    week. *)
Lemma calculateWeekAverage_sevenDates (tza now : Z) (o : DailyTotals) :
  calculateWeekAverage tza now o
  = weekAverageOf
      (sevenDates (JsDate.Day now - mondayIndex (JsDate.Day (JsDate.LocalTime tza now))))
      o.
Proof.
  unfold calculateWeekAverage, weekAverageOf, sumOver.
  by rewrite getDatesInWeek_sevenDates, sumOver_foldr, Z.add_0_l.
Qed.

(** In such a zone, while the local and the UTC calendar show the same
    day, the seven dates are the Monday-starting week of that day. *)
Lemma calculateWeekAverage_same_day (tza now : Z) (o : DailyTotals) :
  JsDate.Day (JsDate.LocalTime tza now) = JsDate.Day now ->
  calculateWeekAverage tza now o = weekAverageOf (weekOf (JsDate.Day now)) o.
Proof.
  intros Hsame. rewrite calculateWeekAverage_sevenDates, Hsame. reflexivity.
Qed.

(** C7, at a failing input.  Two hours east of Greenwich, at 00:30 local
    time on Monday 3 June 2024 (22:30 UTC on Sunday 2 June), the week
    average is taken over Sunday 2 June to Saturday 8 June: neither the
    Monday-starting week of the local date nor that of the UTC date.  With
    an hour recorded on 1 June and 700 seconds on 2 June it is 1000, where
    the local week gives 0 and the UTC week 43000/7. *)
Theorem week_average_window_shifted :
  let tza := 7200000 in
  let now := 1717367400000 in
  let totals : DailyTotals := {[ "2024-06-01" := 36000; "2024-06-02" := 7000 ]} in
  getDatesInWeek tza now
    = ["2024-06-02"; "2024-06-03"; "2024-06-04"; "2024-06-05"; "2024-06-06";
       "2024-06-07"; "2024-06-08"]
  /\ weekOf (JsDate.Day (JsDate.LocalTime tza now))
    = ["2024-06-03"; "2024-06-04"; "2024-06-05"; "2024-06-06"; "2024-06-07";
       "2024-06-08"; "2024-06-09"]
  /\ weekOf (JsDate.Day now)
    = ["2024-05-27"; "2024-05-28"; "2024-05-29"; "2024-05-30"; "2024-05-31";
       "2024-06-01"; "2024-06-02"]
  /\ quotientEq (calculateWeekAverage tza now totals) (Finite 1000)
  /\ quotientEq (weekAverageOf (weekOf (JsDate.Day (JsDate.LocalTime tza now))) totals)
       (Finite 0)
  /\ quotientEq (weekAverageOf (weekOf (JsDate.Day now)) totals) (Finite (43000 # 7))
  /\ ~ quotientEq (calculateWeekAverage tza now totals)
         (weekAverageOf (weekOf (JsDate.Day (JsDate.LocalTime tza now))) totals)
  /\ ~ quotientEq (calculateWeekAverage tza now totals)
         (weekAverageOf (weekOf (JsDate.Day now)) totals).
Proof.
  cbv zeta. repeat split; try (vm_compute; congruence).
Qed.

(** C8.  The overall average is the sum of the daily totals -- the overall
    total, under the ledger invariant -- over the number of dates with an
    entry; for the empty mapping it is 0, returned before any division,
    where dividing 0 by 0 would not have given a finite number. *)
Theorem overall_average_spec (o : DailyTotals) :
  calculateOverallAverage o
  = (if decide (size o = 0%nat) then Finite 0
     else Finite (inject_Z (sumValues o) / inject_Z (Z.of_nat (size o))))
  /\ calculateOverallAverage ∅ = Finite 0
  /\ Js.div (sumValues ∅) (Z.of_nat (size (∅ : DailyTotals))) = NotFinite
  /\ (forall st total,
        memInv st -> overallTotal st = Num total -> dailyTotals st <> ∅ ->
        calculateOverallAverage (dailyTotals st)
        = Finite (inject_Z total / inject_Z (Z.of_nat (size (dailyTotals st))))).
Proof.
  assert (forall m : DailyTotals,
            calculateOverallAverage m
            = (if decide (size m = 0%nat) then Finite 0
               else Finite (inject_Z (sumValues m) / inject_Z (Z.of_nat (size m)))))
    as Hgen.
  { intros m. unfold calculateOverallAverage.
    rewrite length_Object_keys, sumOver_keys.
    destruct (Nat.eqb_spec (size m) 0) as [H0 | Hpos]; case_decide; try done.
    unfold Js.div. by destruct (Z.eqb_spec (Z.of_nat (size m)) 0); [lia |]. }
  split; [apply Hgen |]. split; [reflexivity |]. split; [reflexivity |].
  intros st total Hinv Htotal Hne. rewrite Hgen.
  unfold memInv in Hinv. rewrite Htotal in Hinv. injection Hinv as ->.
  case_decide as Hsize; [| done]. by apply map_size_empty_iff in Hsize.
Qed.

Lemma overall_average_spec_witness :
  let st := commit 5 "2024-06-03" (commit 7 "2024-06-02" (mount ∅)) in
  memInv st /\ overallTotal st = Num 12 /\ dailyTotals st <> ∅
  /\ calculateOverallAverage (dailyTotals st)
     = Finite (inject_Z 12 / inject_Z (Z.of_nat (size (dailyTotals st)))).
Proof.
  set (st := commit 5 "2024-06-03" (commit 7 "2024-06-02" (mount ∅))).
  assert (memInv st) as Hinv by (vm_compute; reflexivity).
  assert (dailyTotals st <> ∅) as Hne.
  { intros H. apply (f_equal (fun m => m !! "2024-06-03")) in H.
    vm_compute in H. discriminate H. }
  split; [exact Hinv |]. split; [reflexivity |]. split; [exact Hne |].
  exact (proj2 (proj2 (proj2 (overall_average_spec ∅))) st 12 Hinv eq_refl Hne).
Defined.

(* ===================================================================== *)
(** * Loading malformed values                                            *)
(* ===================================================================== *)

Lemma getSessionStart_nonNumeric (ls : Storage) (s : string) :
  ls !! STORAGE_KEY_SESSION_START = Some s -> nonNumeric s ->
  getSessionStart ls = None \/ getSessionStart ls = Some NaN.
Proof.
  intros Hs Hnan. unfold getSessionStart. rewrite Hs.
  destruct (Js.truthyStr s); [right; by rewrite Hnan | by left].
Qed.

Lemma getOverallTotal_nonNumeric (ls : Storage) (s : string) :
  ls !! STORAGE_KEY_OVERALL = Some s -> nonNumeric s ->
  getOverallTotal ls = if decide (s = EmptyString) then Num 0 else NaN.
Proof.
  intros Hs Hnan. unfold getOverallTotal. rewrite Hs.
  destruct s; [done |]. cbn [Js.truthyStr]. by rewrite Hnan.
Qed.

Lemma Object_keys_empty (o : DailyTotals) :
  (0 <? length (Object_keys o))%nat = negb (bool_decide (o = ∅)).
Proof.
  rewrite length_Object_keys.
  destruct (Nat.ltb_spec 0 (size o)) as [Hpos | H0]; case_bool_decide as He;
    try done.
  - rewrite He, map_size_empty in Hpos. lia.
  - destruct He. apply map_size_empty_iff. lia.
Qed.

(** C9, as amended.  Corrupt JSON in the daily-totals entry is not caught:
    unless the entry is the empty string, which reads as the empty mapping,
    the load raises a SyntaxError and nothing is loaded.  When the daily
    totals are read, as some mapping, the load returns and the daily totals
    of the component are that mapping.  A non-numeric session start is
    then treated as absent: no session is restored, storage is left as it
    is, and the component is what a load without the entry gives.  A
    non-numeric overall total does not fail the load but reads as NaN: the
    overall total is 0 only if the entry is the empty string or the daily
    totals read are empty, and NaN otherwise, while the daily totals and
    the session are what a load without the entry gives. *)
Theorem load_malformed_values (ls : Storage) (now : Z) :
  (forall s, ls !! STORAGE_KEY_DAILY = Some s -> s <> EmptyString -> corruptJson s ->
     loadEffect now (mount ls) = SyntaxError)
  /\ (ls !! STORAGE_KEY_DAILY = Some EmptyString -> getDailyTotals ls = Normal ∅)
  /\ (forall totals, getDailyTotals ls = Normal totals ->
      exists st',
        loadEffect now (mount ls) = Normal st'
        /\ dailyTotals st' = totals
        /\ (forall s, ls !! STORAGE_KEY_SESSION_START = Some s -> nonNumeric s ->
              sessionStartRef st' = None /\ isTracking st' = false
              /\ sessionTime st' = 0 /\ localStorage st' = ls
              /\ exists st'',
                   loadEffect now (mount (delete STORAGE_KEY_SESSION_START ls))
                   = Normal st''
                   /\ sameComponent st' st'')
        /\ (forall s, ls !! STORAGE_KEY_OVERALL = Some s -> nonNumeric s ->
              overallTotal st'
              = (if decide (s = EmptyString \/ totals = ∅) then Num 0 else NaN)
              /\ exists st'',
                   loadEffect now (mount (delete STORAGE_KEY_OVERALL ls))
                   = Normal st''
                   /\ dailyTotals st' = dailyTotals st''
                   /\ sameSession st' st'')).
Proof.
  split; [| split].
  - intros s Hs Hne Hbad. unfold loadEffect, getDailyTotals. cbn [localStorage mount].
    rewrite Hs. destruct s; [done |]. cbn [Js.truthyStr].
    unfold Json.parse. by rewrite Hbad.
  - intros Hs. unfold getDailyTotals. by rewrite Hs.
  - intros totals Hd.
    set (lsS := delete STORAGE_KEY_SESSION_START ls).
    set (lsO := delete STORAGE_KEY_OVERALL ls).
    assert (getDailyTotals lsS = Normal totals) as HdS
      by (unfold getDailyTotals, lsS in *; by rewrite lookup_delete_ne).
    assert (getDailyTotals lsO = Normal totals) as HdO
      by (unfold getDailyTotals, lsO in *; by rewrite lookup_delete_ne).
    assert (getOverallTotal lsS = getOverallTotal ls) as HoS
      by (unfold getOverallTotal, lsS; by rewrite lookup_delete_ne).
    assert (getSessionStart lsS = None) as HsS
      by (unfold getSessionStart, lsS; by rewrite lookup_delete_eq).
    assert (getSessionStart lsO = getSessionStart ls) as HsO
      by (unfold getSessionStart, lsO; by rewrite lookup_delete_ne).
    destruct (getDailyTotals_mount_load ls totals now Hd)
      as (st1 & Hdaily & Hoverall & Htime & Htrack & Href & Hls & Hload).
    destruct (getDailyTotals_mount_load lsS totals now HdS)
      as (stS & HdailyS & HoverallS & HtimeS & HtrackS & HrefS & HlsS & HloadS).
    destruct (getDailyTotals_mount_load lsO totals now HdO)
      as (stO & HdailyO & _ & HtimeO & HtrackO & HrefO & HlsO & HloadO).
    rewrite HsS in HloadS. rewrite HsO in HloadO. rewrite HoS in HdailyS, HoverallS.
    assert (forall c : bool,
              (if (0 <? length (Object_keys totals))%nat || c then totals else ∅)
              = totals) as Hkeep.
    { intros c. rewrite Object_keys_empty.
      case_bool_decide as He; [subst totals; by destruct c | done]. }
    rewrite Hkeep in Hdaily, HdailyS, HdailyO.
    assert (forall s, ls !! STORAGE_KEY_OVERALL = Some s -> nonNumeric s ->
              overallTotal st1
              = if decide (s = EmptyString \/ totals = ∅) then Num 0 else NaN) as Hov.
    { intros s Hs Hnan. rewrite Hoverall, Object_keys_empty.
      rewrite (getOverallTotal_nonNumeric ls s Hs Hnan).
      destruct (decide (s = EmptyString)) as [-> | Hs'];
        destruct (decide (totals = ∅)) as [-> | Ht];
        rewrite ?bool_decide_eq_true_2, ?bool_decide_eq_false_2 by done;
        case_decide; cbn; try done; tauto. }
    assert (sameComponent st1 stS) as HsameS.
    { unfold sameComponent.
      by rewrite Htime, HtimeS, Htrack, HtrackS, Href, HrefS, Hdaily, HdailyS,
        Hoverall, HoverallS. }
    destruct (getSessionStart ls) as [[saved |] |] eqn:Hsess.
    + (* the session entry is a number: it is not malformed *)
      assert (forall s, ls !! STORAGE_KEY_SESSION_START = Some s -> ~ nonNumeric s)
        as Hnum.
      { intros s Hs Hnan.
        destruct (getSessionStart_nonNumeric ls s Hs Hnan); congruence. }
      destruct (Js.truthyNum (Num saved)); cbv zeta in Hload, HloadO.
      * destruct (MAX_SESSION_TENTHS <? calculateElapsedTenths now saved);
          eexists; (split; [exact Hload |]); cbn [dailyTotals overallTotal];
          (split; [done |]);
          (split; [intros s Hs Hnan; by destruct (Hnum s Hs) |]);
          intros s Hs Hnan; (split; [by apply Hov |]);
          eexists; (split; [exact HloadO |]); cbn; by rewrite Hdaily, HdailyO.
      * exists st1. split; [done |]. split; [done |].
        split; [intros s Hs Hnan; by destruct (Hnum s Hs) |].
        intros s Hs Hnan. split; [by apply Hov |].
        exists stO. split; [done |]. unfold sameSession.
        by rewrite Hdaily, HdailyO, Htime, HtimeO, Htrack, HtrackO, Href, HrefO.
    + exists st1. split; [done |]. split; [done |]. split.
      * intros s Hs Hnan. do 4 (split; [done |]). by exists stS.
      * intros s Hs Hnan. split; [by apply Hov |].
        exists stO. split; [done |]. unfold sameSession.
        by rewrite Hdaily, HdailyO, Htime, HtimeO, Htrack, HtrackO, Href, HrefO.
    + exists st1. split; [done |]. split; [done |]. split.
      * intros s Hs Hnan. do 4 (split; [done |]). by exists stS.
      * intros s Hs Hnan. split; [by apply Hov |].
        exists stO. split; [done |]. unfold sameSession.
        by rewrite Hdaily, HdailyO, Htime, HtimeO, Htrack, HtrackO, Href, HrefO.
Qed.

Lemma load_malformed_values_witness :
  let ls : Storage :=
    {[ STORAGE_KEY_DAILY := Json.stringify {[ "2024-06-02" := 7000 ]};
       STORAGE_KEY_OVERALL := "abc";
       STORAGE_KEY_SESSION_START := "yesterday" ]} in
  let totals : DailyTotals := {[ "2024-06-02" := 7000 ]} in
  getDailyTotals ls = Normal totals
  /\ nonNumeric "abc" /\ nonNumeric "yesterday"
  /\ exists st',
       loadEffect 1717367400000 (mount ls) = Normal st'
       /\ sessionStartRef st' = None /\ isTracking st' = false
       /\ dailyTotals st' = totals /\ overallTotal st' = NaN.
Proof.
  cbv zeta.
  set (ls := ({[ STORAGE_KEY_DAILY := Json.stringify {[ "2024-06-02" := 7000 ]};
                 STORAGE_KEY_OVERALL := "abc";
                 STORAGE_KEY_SESSION_START := "yesterday" ]} : Storage)).
  assert (getDailyTotals ls = Normal {[ "2024-06-02" := 7000 ]}) as Hd
    by (vm_compute; reflexivity).
  split; [exact Hd |]. split; [reflexivity |]. split; [reflexivity |].
  destruct (proj2 (proj2 (load_malformed_values ls 1717367400000)) _ Hd)
    as (st' & Hload & Hdaily & Hsess & Hov).
  exists st'. split; [exact Hload |].
  destruct (Hsess "yesterday" eq_refl eq_refl) as (Href & Htrack & _).
  split; [exact Href |]. split; [exact Htrack |].
  split; [exact Hdaily | exact (proj1 (Hov "abc" eq_refl eq_refl))].
Defined.

(** C9 as stated fails twice: corrupt JSON in the daily totals makes the
    whole load raise, and a non-numeric overall total next to recorded
    daily totals is loaded as NaN, not as 0. *)
Lemma load_malformed_counterexample :
  let corrupt : Storage := {[ STORAGE_KEY_DAILY := "{" ]} in
  let garbled : Storage :=
    {[ STORAGE_KEY_DAILY := Json.stringify {[ "2024-06-02" := 7000 ]};
       STORAGE_KEY_OVERALL := "abc" ]} in
  corruptJson "{" /\ nonNumeric "abc"
  /\ loadEffect 1717367400000 (mount corrupt) = SyntaxError
  /\ ~ malformedLoadSpec corrupt 1717367400000
  /\ ~ malformedLoadSpec garbled 1717367400000.
Proof.
  split; [reflexivity |]. split; [reflexivity |]. split; [reflexivity |]. split.
  - intros (st' & Hload & _). vm_compute in Hload. discriminate Hload.
  - intros (st' & Hload & _ & Hov & _). vm_compute in Hload.
    injection Hload as <-. specialize (Hov "abc" eq_refl eq_refl).
    discriminate Hov.
Qed.

(** C10.  A stored session start that reads as 0 is passed over by the
    load: the machine stays Idle in the component, no elapsed time is
    recovered, the component is what it would be had the entry not been
    there -- and the entry stays in storage. *)
Theorem load_ignores_zero_anchor (ls : Storage) (totals : DailyTotals) (now : Z) :
  getDailyTotals ls = Normal totals ->
  getSessionStart ls = Some (Num 0) ->
  exists st' st'',
    loadEffect now (mount ls) = Normal st'
    /\ loadEffect now (mount (delete STORAGE_KEY_SESSION_START ls)) = Normal st''
    /\ sameComponent st' st''
    /\ isTracking st' = false /\ sessionStartRef st' = None /\ sessionTime st' = 0
    /\ localStorage st' = ls
    /\ is_Some (ls !! STORAGE_KEY_SESSION_START).
Proof.
  intros Hd Hsess.
  set (ls' := delete STORAGE_KEY_SESSION_START ls).
  assert (getDailyTotals ls' = Normal totals) as Hd'
    by (unfold getDailyTotals, ls' in *; by rewrite lookup_delete_ne).
  assert (getOverallTotal ls' = getOverallTotal ls) as Ho'
    by (unfold getOverallTotal, ls'; by rewrite lookup_delete_ne).
  assert (getSessionStart ls' = None) as Hsess'
    by (unfold getSessionStart, ls'; by rewrite lookup_delete_eq).
  destruct (getDailyTotals_mount_load ls totals now Hd)
    as (st1 & Hdaily & Hoverall & Htime & Htrack & Href & Hls & Hload).
  destruct (getDailyTotals_mount_load ls' totals now Hd')
    as (st2 & Hdaily2 & Hoverall2 & Htime2 & Htrack2 & Href2 & Hls2 & Hload2).
  rewrite Hsess in Hload. rewrite Hsess' in Hload2. cbn in Hload.
  exists st1, st2. split; [done |]. split; [done |]. split.
  - unfold sameComponent. rewrite Htime, Htime2, Htrack, Htrack2, Href, Href2,
      Hdaily, Hdaily2, Hoverall, Hoverall2, Ho'. done.
  - repeat split; try done.
    unfold getSessionStart in Hsess.
    by destruct (ls !! STORAGE_KEY_SESSION_START).
Qed.

Lemma load_ignores_zero_anchor_witness :
  let ls : Storage := {[ STORAGE_KEY_SESSION_START := "0" ]} in
  getDailyTotals ls = Normal ∅
  /\ getSessionStart ls = Some (Num 0)
  /\ exists st',
       loadEffect 5000 (mount ls) = Normal st'
       /\ isTracking st' = false /\ sessionStartRef st' = None
       /\ sessionTime st' = 0 /\ localStorage st' = ls.
Proof.
  cbv zeta. set (ls := ({[ STORAGE_KEY_SESSION_START := "0" ]} : Storage)).
  assert (getDailyTotals ls = Normal ∅) as Hd by reflexivity.
  assert (getSessionStart ls = Some (Num 0)) as Hsess by reflexivity.
  split; [exact Hd |]. split; [exact Hsess |].
  destruct (load_ignores_zero_anchor ls ∅ 5000 Hd Hsess)
    as (st' & _ & Hload & _ & _ & Htrack & Href & Htime & Hls & _).
  by exists st'.
Defined.

(* ===================================================================== *)
(** * Formatted times                                                     *)
(* ===================================================================== *)

Lemma digits_small (n : Z) :
  0 <= n < 10 -> Js.digits n = String (Js.digitChar n) EmptyString.
Proof.
  intros Hn. unfold Js.digits. destruct (Js.bits n) as [| f] eqn:Hb; cbn.
  - destruct n as [| p | p]; [done | destruct p; done | lia].
  - by destruct (Z.ltb_spec n 10); [| lia].
Qed.

Lemma length_digitsFuel (fuel : nat) (n : Z) (acc : string) :
  (String.length acc < String.length (Js.digitsFuel fuel n acc))%nat.
Proof.
  revert n acc. induction fuel as [| f IH]; intros n acc; cbn; [lia |].
  destruct (n <? 10); cbn; [lia |].
  specialize (IH (n / 10) (String (Js.digitChar (n mod 10)) acc)). cbn in IH. lia.
Qed.

Lemma length_digits_large (n : Z) :
  10 <= n -> (2 <= String.length (Js.digits n))%nat.
Proof.
  intros Hn. unfold Js.digits. destruct n as [| p | p]; try lia.
  cbn [Js.bits]. destruct (Pos.size_nat p) as [| f] eqn:Hf; [by destruct p |].
  cbn. destruct (Z.ltb_spec (Z.pos p) 10); [lia |].
  pose proof (length_digitsFuel f (Z.pos p / 10)
                (String (Js.digitChar (Z.pos p mod 10)) EmptyString)) as H'.
  cbn in H'. lia.
Qed.

Lemma intToString_nonneg (n : Z) : 0 <= n -> Js.intToString n = Js.digits n.
Proof. intros Hn. unfold Js.intToString. by destruct (Z.ltb_spec n 0); [lia |]. Qed.

(** Two digits at least: a single digit gets a zero in front. *)
Lemma padStart_two (n : Z) :
  0 <= n ->
  padStart 2 "0" (Js.intToString n)
  = if n <? 10 then String "0" (String (Js.digitChar n) EmptyString)
    else Js.digits n.
Proof.
  intros Hn. rewrite intToString_nonneg by done. unfold padStart.
  destruct (Z.ltb_spec n 10).
  - by rewrite digits_small by lia.
  - pose proof (length_digits_large n ltac:(lia)) as Hlen.
    by replace (2 - String.length (Js.digits n))%nat with 0%nat by lia.
Qed.

Lemma readNumber_digits (n : Z) (rest : string) :
  0 <= n ->
  readNumber None (Js.digits n +:+ rest) = readNumber (Some n) rest.
Proof.
  intros Hn.
  apply (digits_read (readNumber None) (fun v => readNumber (Some v))); [| | done].
  - intros d s Hd. cbn. by rewrite digitValue_digitChar.
  - intros v d s _ Hd. cbn. by rewrite digitValue_digitChar.
Qed.

Lemma readNumber_padded (n : Z) (rest : string) :
  0 <= n ->
  readNumber None (padStart 2 "0" (Js.intToString n) +:+ rest)
  = readNumber (Some n) rest.
Proof.
  intros Hn. rewrite padStart_two by done. destruct (Z.ltb_spec n 10).
  - norm_app. cbn. rewrite digitValue_digitChar by lia. done.
  - by apply readNumber_digits.
Qed.

Lemma skipText_app (sep rest : string) : skipText sep (sep +:+ rest) = Some rest.
Proof.
  induction sep as [| c sep IH]; [done |].
  rewrite app_String. cbn [skipText]. by rewrite Ascii.eqb_refl.
Qed.

(** A field is read back when the separator after it starts with a
    character that is not a digit, or when the text ends after it. *)
Lemma readField_text (text : string) (n : Z) (c : ascii) (sep rest : string) :
  (forall s, readNumber None (text +:+ s) = readNumber (Some n) s) ->
  Js.digitValue c = None ->
  readField (String c sep) (text +:+ String c sep +:+ rest) = Some (n, rest).
Proof.
  intros Htext Hc. unfold readField. rewrite Htext.
  rewrite app_String. cbn [readNumber]. rewrite Hc.
  rewrite <- app_String. by rewrite skipText_app.
Qed.

Lemma readField_last (text : string) (n : Z) :
  (forall s, readNumber None (text +:+ s) = readNumber (Some n) s) ->
  readField EmptyString text = Some (n, EmptyString).
Proof.
  intros Htext. unfold readField.
  rewrite <- (string_app_empty_r text), Htext. done.
Qed.

(** The fields of a time: tenths of the second, seconds of the minute,
    minutes of the hour, hours. *)
Lemma time_fields (tenths : Z) :
  0 <= tenths ->
  let totalSeconds := tenths / 10 in
  0 <= totalSeconds / 3600
  /\ 0 <= Z.rem totalSeconds 3600 / 60 < 60
  /\ 0 <= Z.rem totalSeconds 60 < 60
  /\ 0 <= Z.rem tenths 10 < 10
  /\ tenths = ((totalSeconds / 3600 * 60 + Z.rem totalSeconds 3600 / 60) * 60
               + Z.rem totalSeconds 60) * 10 + Z.rem tenths 10.
Proof.
  intros Ht. cbv zeta.
  assert (0 <= tenths / 10) as Hs by (apply Z.div_pos; lia).
  rewrite !Z.rem_mod_nonneg by lia.
  Z.div_mod_to_equations; lia.
Qed.

Lemma readFields_formatTime (tenths : Z) :
  0 <= tenths ->
  readFields [":"; ":"; "."; EmptyString] (formatTime tenths)
  = Some [tenths / 10 / 3600; Z.rem (tenths / 10) 3600 / 60;
          Z.rem (tenths / 10) 60; Z.rem tenths 10].
Proof.
  intros Ht. destruct (time_fields tenths Ht) as (Hh & Hm & Hs & Hd & _).
  unfold formatTime. cbn [readFields].
  rewrite (readField_text _ (tenths / 10 / 3600) ":" EmptyString);
    [| intros; by apply readNumber_padded | done].
  rewrite (readField_text _ (Z.rem (tenths / 10) 3600 / 60) ":" EmptyString);
    [| intros; apply readNumber_padded; lia | done].
  rewrite (readField_text _ (Z.rem (tenths / 10) 60) "." EmptyString);
    [| intros; apply readNumber_padded; lia | done].
  rewrite (readField_last _ (Z.rem tenths 10));
    [done | intros; rewrite intToString_nonneg by lia; apply readNumber_digits; lia].
Qed.


(** X1.  The main clock tells session times apart: two different
    non-negative times never have the same text, so the display determines
    the time to the tenth. *)
Theorem formatTime_distinguishes (a b : Z) :
  0 <= a -> 0 <= b -> a <> b -> formatTime a <> formatTime b.
Proof.
  intros Ha Hb Hne Heq.
  pose proof (readFields_formatTime a Ha) as Hra.
  rewrite Heq, (readFields_formatTime b Hb) in Hra.
  injection Hra as H1 H2 H3 H4.
  destruct (time_fields a Ha) as (_ & _ & _ & _ & Hsum).
  destruct (time_fields b Hb) as (_ & _ & _ & _ & Hsum').
  cbv zeta in Hsum, Hsum'. rewrite <- H1, <- H2, <- H3, <- H4 in Hsum. lia.
Qed.

Lemma formatTime_distinguishes_witness :
  0 <= 35999 /\ 0 <= 36000 /\ 35999 <> 36000
  /\ formatTime 35999 = "00:59:59.9" /\ formatTime 36000 = "01:00:00.0"
  /\ formatTime 35999 <> formatTime 36000.
Proof.
  split; [lia |]. split; [lia |]. split; [lia |].
  split; [reflexivity |]. split; [reflexivity |].
  apply formatTime_distinguishes; lia.
Defined.

Lemma readFields_formatTimeHoursMinutes (tenths : Z) :
  0 <= tenths ->
  readFields ["h "; "m"] (formatTimeHoursMinutes tenths)
  = Some [tenths / 10 / 3600; Z.rem (tenths / 10) 3600 / 60].
Proof.
  intros Ht. destruct (time_fields tenths Ht) as (Hh & Hm & _).
  unfold formatTimeHoursMinutes. cbn [readFields].
  rewrite (readField_text _ (tenths / 10 / 3600) "h" " ");
    [| intros; rewrite intToString_nonneg by done; by apply readNumber_digits | done].
  rewrite <- (string_app_empty_r "m").
  rewrite (readField_text _ (Z.rem (tenths / 10) 3600 / 60) "m" EmptyString);
    [done | intros; rewrite intToString_nonneg by lia; apply readNumber_digits; lia | done].
Qed.

Lemma whole_minutes (tenths : Z) :
  0 <= tenths ->
  tenths / 600 = tenths / 10 / 3600 * 60 + Z.rem (tenths / 10) 3600 / 60.
Proof.
  intros Ht. assert (0 <= tenths / 10) by (apply Z.div_pos; lia).
  rewrite Z.rem_mod_nonneg by lia. Z.div_mod_to_equations; lia.
Qed.

(** X2.  The hours-and-minutes format shows the whole minutes and nothing
    else: two non-negative times have the same text exactly when they have
    the same number of whole minutes. *)
Theorem formatTimeHoursMinutes_whole_minutes (a b : Z) :
  0 <= a -> 0 <= b ->
  formatTimeHoursMinutes a = formatTimeHoursMinutes b <-> a / 600 = b / 600.
Proof.
  intros Ha Hb. split.
  - intros Heq. pose proof (readFields_formatTimeHoursMinutes a Ha) as Hra.
    rewrite Heq, (readFields_formatTimeHoursMinutes b Hb) in Hra.
    injection Hra as H1 H2. rewrite (whole_minutes a), (whole_minutes b) by done. lia.
  - intros Heq. unfold formatTimeHoursMinutes.
    assert (a / 10 / 3600 = b / 10 / 3600
            /\ Z.rem (a / 10) 3600 / 60 = Z.rem (b / 10) 3600 / 60) as [-> ->]; [| done].
    assert (0 <= a / 10 /\ 0 <= b / 10) as [? ?] by (split; apply Z.div_pos; lia).
    rewrite !Z.rem_mod_nonneg by lia. Z.div_mod_to_equations; lia.
Qed.

Lemma formatTimeHoursMinutes_whole_minutes_witness :
  0 <= 36000 /\ 0 <= 36599
  /\ formatTimeHoursMinutes 36000 = "1h 0m"
  /\ (formatTimeHoursMinutes 36000 = formatTimeHoursMinutes 36599
      <-> 36000 / 600 = 36599 / 600).
Proof.
  split; [lia |]. split; [lia |]. split; [reflexivity |].
  apply formatTimeHoursMinutes_whole_minutes; lia.
Defined.

(** X3.  The short format is the hours-and-minutes format without a
    zero hours part: below one hour it shows the minutes alone, from one
    hour on the two agree. *)
Theorem formatTimeShort_drops_zero_hours (tenths : Z) :
  0 <= tenths ->
  formatTimeHoursMinutes tenths
  = if tenths <? 36000 then "0h " +:+ formatTimeShort tenths
    else formatTimeShort tenths.
Proof.
  intros Ht. unfold formatTimeHoursMinutes, formatTimeShort.
  destruct (Z.ltb_spec tenths 36000).
  - assert (tenths / 10 / 3600 = 0) as -> by (Z.div_mod_to_equations; lia). done.
  - assert (0 < tenths / 10 / 3600) as Hpos by (Z.div_mod_to_equations; lia).
    by destruct (Z.ltb_spec 0 (tenths / 10 / 3600)); [| lia].
Qed.

Lemma formatTimeShort_drops_zero_hours_witness :
  0 <= 35999 /\ formatTimeShort 35999 = "59m"
  /\ formatTimeHoursMinutes 35999 = "0h " +:+ formatTimeShort 35999.
Proof.
  split; [lia |]. split; [reflexivity |].
  exact (formatTimeShort_drops_zero_hours 35999 ltac:(lia)).
Defined.

Lemma clock_fields (tenths : Z) :
  0 <= tenths ->
  let totalSeconds := tenths / 10 in
  0 <= totalSeconds / 86400
  /\ 0 <= Z.rem totalSeconds 86400 / 3600 < 24
  /\ 0 <= Z.rem totalSeconds 3600 / 60 < 60
  /\ 0 <= Z.rem totalSeconds 60 < 60
  /\ 0 <= Z.rem tenths 10 < 10
  /\ tenths = (((totalSeconds / 86400 * 24 + Z.rem totalSeconds 86400 / 3600) * 60
                + Z.rem totalSeconds 3600 / 60) * 60
               + Z.rem totalSeconds 60) * 10 + Z.rem tenths 10.
Proof.
  intros Ht. cbv zeta.
  assert (0 <= tenths / 10) as Hs by (apply Z.div_pos; lia).
  rewrite !Z.rem_mod_nonneg by lia.
  Z.div_mod_to_equations; lia.
Qed.

Lemma readFields_clock (tenths : Z) :
  0 <= tenths ->
  readFields [":"; ":"; ":"; "."; EmptyString] (Clock.formatTime tenths)
  = Some [tenths / 10 / 86400; Z.rem (tenths / 10) 86400 / 3600;
          Z.rem (tenths / 10) 3600 / 60; Z.rem (tenths / 10) 60; Z.rem tenths 10].
Proof.
  intros Ht. destruct (clock_fields tenths Ht) as (Hd & Hh & Hm & Hs & Hp & _).
  unfold Clock.formatTime. cbn [readFields].
  rewrite (readField_text _ (tenths / 10 / 86400) ":" EmptyString);
    [| intros; rewrite intToString_nonneg by done; by apply readNumber_digits | done].
  rewrite (readField_text _ (Z.rem (tenths / 10) 86400 / 3600) ":" EmptyString);
    [| intros; apply readNumber_padded; lia | done].
  rewrite (readField_text _ (Z.rem (tenths / 10) 3600 / 60) ":" EmptyString);
    [| intros; apply readNumber_padded; lia | done].
  rewrite (readField_text _ (Z.rem (tenths / 10) 60) "." EmptyString);
    [| intros; apply readNumber_padded; lia | done].
  rewrite (readField_last _ (Z.rem tenths 10));
    [done | intros; rewrite intToString_nonneg by lia; apply readNumber_digits; lia].
Qed.

(** X4.  The clock of the first page, which counts days, tells times
    apart as well. *)
Theorem clock_formatTime_distinguishes (a b : Z) :
  0 <= a -> 0 <= b -> a <> b -> Clock.formatTime a <> Clock.formatTime b.
Proof.
  intros Ha Hb Hne Heq.
  pose proof (readFields_clock a Ha) as Hra.
  rewrite Heq, (readFields_clock b Hb) in Hra.
  injection Hra as H1 H2 H3 H4 H5.
  destruct (clock_fields a Ha) as (_ & _ & _ & _ & _ & Hsum).
  destruct (clock_fields b Hb) as (_ & _ & _ & _ & _ & Hsum').
  cbv zeta in Hsum, Hsum'. rewrite <- H1, <- H2, <- H3, <- H4, <- H5 in Hsum. lia.
Qed.

Lemma clock_formatTime_distinguishes_witness :
  0 <= 863999 /\ 0 <= 864000 /\ 863999 <> 864000
  /\ Clock.formatTime 863999 = "0:23:59:59.9"
  /\ Clock.formatTime 864000 = "1:00:00:00.0"
  /\ Clock.formatTime 863999 <> Clock.formatTime 864000.
Proof.
  split; [lia |]. split; [lia |]. split; [lia |].
  split; [reflexivity |]. split; [reflexivity |].
  apply clock_formatTime_distinguishes; lia.
Defined.


(* ===================================================================== *)
(** * Storage                                                             *)
(* ===================================================================== *)

Lemma getSessionStart_saved (t : Z) (ls : Storage) :
  getSessionStart (saveSessionStart t ls) = Some (Num t).
Proof.
  unfold getSessionStart, saveSessionStart. rewrite lookup_insert_eq.
  by rewrite truthyStr_intToString, parseInt_intToString.
Qed.

(** X5.  What the two save functions write, the two get functions read
    back: the daily totals as they were, the overall total as it was (NaN
    included), and the stored session start is not touched. *)
Theorem saved_totals_read_back (totals : DailyTotals) (total : num) (ls : Storage) :
  let ls' := saveOverallTotal total (saveDailyTotals totals ls) in
  getDailyTotals ls' = Normal totals
  /\ getOverallTotal ls' = total
  /\ getSessionStart ls' = getSessionStart ls.
Proof.
  cbv zeta. split; [| split].
  - unfold getDailyTotals, saveOverallTotal. rewrite lookup_insert_ne by done.
    apply getDailyTotals_saved.
  - apply getOverallTotal_saved_num.
  - unfold getSessionStart, saveOverallTotal, saveDailyTotals.
    by rewrite !lookup_insert_ne.
Qed.

(** X6.  A saved session start reads back as that timestamp, a cleared
    one as null, and neither saving nor clearing it changes what the totals
    read. *)
Theorem saved_anchor_reads_back (timestamp : Z) (ls : Storage) :
  getSessionStart (saveSessionStart timestamp ls) = Some (Num timestamp)
  /\ getSessionStart (clearSessionStart (saveSessionStart timestamp ls)) = None
  /\ getDailyTotals (saveSessionStart timestamp ls) = getDailyTotals ls
  /\ getOverallTotal (saveSessionStart timestamp ls) = getOverallTotal ls
  /\ getDailyTotals (clearSessionStart ls) = getDailyTotals ls
  /\ getOverallTotal (clearSessionStart ls) = getOverallTotal ls.
Proof.
  split; [apply getSessionStart_saved |].
  unfold getSessionStart, getDailyTotals, getOverallTotal, clearSessionStart,
    saveSessionStart.
  rewrite lookup_delete_eq, !lookup_insert_ne, !lookup_delete_ne by done. done.
Qed.

(* ===================================================================== *)
(** * The session machine                                                 *)
(* ===================================================================== *)

Lemma machineInv_endSession (st : State) : machineInv (endSession st).
Proof. split; [split; [done | intros []; done] | done]. Qed.

Lemma machineInv_step (e : Event) (st st' : State) :
  machineInv st -> step e st = Normal st' -> machineInv st'.
Proof.
  intros Hinv Hstep. pose proof Hinv as [Hiff Hzero].
  destruct e as [now | now today | | now]; cbn in Hstep.
  - unfold loadEffect in Hstep.
    destruct (getDailyTotals (localStorage st)) as [totals | |]; [| done..].
    match type of Hstep with
    | context [if ?c then ?a else st] =>
        set (st1 := if c then a else st) in *;
        assert (machineInv st1) as [Hiff1 Hzero1]
          by (unfold st1; destruct c; (split; [exact Hiff | exact Hzero]))
    end.
    destruct (getSessionStart (localStorage st)) as [[saved |] |];
      try (injection Hstep as <-; by split).
    destruct (Js.truthyNum (Num saved)); [| injection Hstep as <-; by split].
    destruct (MAX_SESSION_TENTHS <? calculateElapsedTenths now saved);
      injection Hstep as <-; [by split |].
    split; [split; [by eexists | done] | done].
  - injection Hstep as <-. unfold handleTimer. destruct (isTracking st) eqn:Ht.
    + apply machineInv_endSession.
    + split; [split; [by eexists | done] | done].
  - injection Hstep as <-. apply machineInv_endSession.
  - injection Hstep as <-. unfold tick, intervalRunning.
    destruct (isTracking st) eqn:Ht; [| done]. cbn [andb].
    destruct (refTruthy (sessionStartRef st)) eqn:Hr; [| done].
    destruct (sessionStartRef st) as [start |] eqn:Href; [| done].
    rewrite Hr.
    destruct (MAX_SESSION_TENTHS <? calculateElapsedTenths now start);
      [apply machineInv_endSession |].
    split; cbn; [split; [by eexists | done] | done].
Qed.

(** X7.  In every state the component can reach it tracks exactly when
    its ref holds an anchor, and while it does not track the session time
    shown is 0. *)
Theorem reachable_machineInv (ls : Storage) (st : State) :
  reachableFrom ls st -> machineInv st.
Proof.
  induction 1 as [| e st st' _ IH Hstep].
  - split; [split; [done | intros []; done] | done].
  - by apply (machineInv_step e st).
Qed.

Lemma reachable_machineInv_witness :
  let st := tick 1717363805000 (handleTimer 1717363800000 1717363800000 (mount ∅)) in
  reachableFrom ∅ st /\ machineInv st /\ isTracking st = true /\ sessionTime st = 50.
Proof.
  assert (reachableFrom ∅
            (tick 1717363805000 (handleTimer 1717363800000 1717363800000 (mount ∅))))
    as Hreach.
  { apply (reach_step ∅ (Tick 1717363805000)
             (handleTimer 1717363800000 1717363800000 (mount ∅))); [| reflexivity].
    apply (reach_step ∅ (Timer 1717363800000 1717363800000) (mount ∅));
      [apply reach_mount | reflexivity]. }
  split; [exact Hreach |]. split; [| split; reflexivity].
  exact (reachable_machineInv ∅ _ Hreach).
Defined.

Lemma ledgerGrows_refl (st st' : State) :
  dailyTotals st' = dailyTotals st -> overallTotal st' = overallTotal st ->
  ledgerGrows st st'.
Proof.
  intros Hd Ho. split.
  - intros date. rewrite Hd. split; [done | lia].
  - intros total Ht. exists total. rewrite Ho. split; [done | lia].
Qed.

Lemma ledgerGrows_commit (t : Z) (today : string) (st : State) :
  0 < t -> ledgerGrows st (endSession (commit t today st)).
Proof.
  intros Ht. split.
  - intros date. cbn. rewrite orZero_default.
    destruct (decide (today = date)) as [-> | Hne].
    + rewrite lookup_insert_eq. split; [by eexists |]. cbn. lia.
    + rewrite lookup_insert_ne by done. split; [done | lia].
  - intros total Htotal. cbn. rewrite Htotal. cbn. eexists. split; [done | lia].
Qed.

(** X8.  Starting, stopping, discarding and ticking never remove a daily
    entry and never make one smaller, nor the overall total: only a load
    can replace the ledger. *)
Theorem ledger_only_grows (e : Event) (st st' : State) :
  (forall now, e <> Load now) -> step e st = Normal st' -> ledgerGrows st st'.
Proof.
  intros Hload Hstep. destruct e as [now | now today | | now]; cbn in Hstep.
  - by destruct (Hload now).
  - injection Hstep as <-. unfold handleTimer.
    destruct (isTracking st); [| by apply ledgerGrows_refl].
    destruct (sessionStartRef st) as [start |]; [| by apply ledgerGrows_refl].
    destruct (refTruthy (Some start)); [| by apply ledgerGrows_refl].
    cbv zeta.
    destruct (Z.ltb_spec 0 (calculateElapsedTenths now start));
      [| by apply ledgerGrows_refl].
    destruct (_ <=? _); cbn [andb];
      [by apply ledgerGrows_commit | by apply ledgerGrows_refl].
  - injection Hstep as <-. by apply ledgerGrows_refl.
  - injection Hstep as <-. unfold tick.
    destruct (intervalRunning st); [| by apply ledgerGrows_refl].
    destruct (sessionStartRef st) as [start |]; [| by apply ledgerGrows_refl].
    destruct (refTruthy (Some start)); [| by apply ledgerGrows_refl].
    cbv zeta. destruct (_ <? _); by apply ledgerGrows_refl.
Qed.

Lemma ledger_only_grows_witness :
  let st := handleTimer 1717363800000 1717363800000 (mount ∅) in
  let st' := handleTimer 1717367400000 1717367400000 st in
  (forall now, Timer 1717367400000 1717367400000 <> Load now)
  /\ step (Timer 1717367400000 1717367400000) st = Normal st'
  /\ dailyTotals st' !! "2024-06-02" = Some 36000
  /\ ledgerGrows st st'.
Proof.
  split; [done |]. split; [reflexivity |]. split; [reflexivity |].
  apply (ledger_only_grows (Timer 1717367400000 1717367400000)); [done | reflexivity].
Defined.

(* ===================================================================== *)
(** * Ticks                                                               *)
(* ===================================================================== *)

Lemma tick_running (now : Z) (st : State) (start : Z) :
  isTracking st = true -> sessionStartRef st = Some start -> start <> 0 ->
  tick now st
  = if MAX_SESSION_TENTHS <? calculateElapsedTenths now start then endSession st
    else mkState (calculateElapsedTenths now start) true (dailyTotals st)
           (overallTotal st) (Some start) (localStorage st).
Proof.
  intros Ht Hr Hs. unfold tick, intervalRunning. rewrite Ht, Hr.
  by rewrite refTruthy_Some.
Qed.

Lemma tick_not_running (now : Z) (st : State) :
  intervalRunning st = false -> tick now st = st.
Proof. intros H. unfold tick. by rewrite H. Qed.

Lemma calculateElapsedTenths_mono (n1 n2 start : Z) :
  n1 <= n2 -> calculateElapsedTenths n1 start <= calculateElapsedTenths n2 start.
Proof. intros H. unfold calculateElapsedTenths. apply Z.div_le_mono; lia. Qed.

(** X9.  Ticks do not accumulate: after an earlier tick, a tick leaves
    the component exactly as it would have without the earlier one.  The
    time shown depends on the anchor and the clock, not on how many ticks
    fired. *)
Theorem ticks_do_not_accumulate (n1 n2 : Z) (st : State) :
  n1 <= n2 -> tick n2 (tick n1 st) = tick n2 st.
Proof.
  intros Hle. destruct (intervalRunning st) eqn:Hrun.
  - unfold intervalRunning in Hrun. apply andb_prop in Hrun as [Ht Hr].
    destruct (sessionStartRef st) as [start |] eqn:Href; [| done].
    assert (start <> 0) as Hs by (cbn in Hr; by destruct (Z.eqb_spec start 0)).
    rewrite (tick_running n1 st start), (tick_running n2 st start) by done.
    pose proof (calculateElapsedTenths_mono n1 n2 start Hle) as Hmono.
    destruct (Z.ltb_spec MAX_SESSION_TENTHS (calculateElapsedTenths n1 start)).
    + destruct (Z.ltb_spec MAX_SESSION_TENTHS (calculateElapsedTenths n2 start));
        [| lia].
      by apply tick_not_running.
    + rewrite (tick_running n2 _ start) by done. cbn.
      by destruct (_ <? _).
  - by rewrite (tick_not_running n1 st Hrun).
Qed.

Lemma ticks_do_not_accumulate_witness :
  let st := handleTimer 1717363800000 1717363800000 (mount ∅) in
  1717363805000 <= 1717363812345
  /\ sessionTime (tick 1717363812345 st) = 123
  /\ tick 1717363812345 (tick 1717363805000 st) = tick 1717363812345 st.
Proof.
  split; [lia |]. split; [reflexivity |].
  apply ticks_do_not_accumulate. lia.
Defined.

(** X10.  A tick that leaves the session running does not change what a
    later stop does: the stop commits the same and ends in the same
    state. *)
Theorem stop_ignores_ticks (n1 now today : Z) (st : State) :
  isTracking (tick n1 st) = true ->
  handleTimer now today (tick n1 st) = handleTimer now today st.
Proof.
  intros Hstill. destruct (intervalRunning st) eqn:Hrun.
  - unfold intervalRunning in Hrun. apply andb_prop in Hrun as [Ht Hr].
    destruct (sessionStartRef st) as [start |] eqn:Href; [| done].
    assert (start <> 0) as Hs by (cbn in Hr; by destruct (Z.eqb_spec start 0)).
    rewrite (tick_running n1 st start) in * by done.
    destruct (MAX_SESSION_TENTHS <? calculateElapsedTenths n1 start); [done |].
    unfold handleTimer. cbn [isTracking sessionStartRef]. rewrite Ht, Href.
    destruct (refTruthy (Some start)); [| done].
    cbv zeta. by destruct (_ && _).
  - by rewrite (tick_not_running n1 st Hrun).
Qed.

Lemma stop_ignores_ticks_witness :
  let st := handleTimer 1717363800000 1717363800000 (mount ∅) in
  isTracking (tick 1717363805000 st) = true
  /\ handleTimer 1717363812345 1717363812345 (tick 1717363805000 st)
     = handleTimer 1717363812345 1717363812345 st
  /\ dailyTotals (handleTimer 1717363812345 1717363812345 st)
     = {[ "2024-06-02" := 123 ]}.
Proof.
  split; [reflexivity |]. split; [| reflexivity].
  apply stop_ignores_ticks. reflexivity.
Defined.

(** X11.  A tick never commits: the totals in the component and in
    storage are what they were, also when it drops a session; and without a
    session a tick does nothing at all. *)
Theorem tick_never_commits (now : Z) (st : State) :
  nothingCommitted st (tick now st)
  /\ (isTracking st = false -> tick now st = st).
Proof.
  split.
  - unfold tick. destruct (intervalRunning st); [| done].
    destruct (sessionStartRef st) as [start |]; [| done].
    destruct (refTruthy (Some start)); [| done].
    cbv zeta. destruct (_ <? _); [apply nothingCommitted_endSession | done].
  - intros Ht. apply tick_not_running. unfold intervalRunning. by rewrite Ht.
Qed.


(* ===================================================================== *)
(** * Reloading the page                                                  *)
(* ===================================================================== *)

(** X12.  A session survives a reload: after a start at a non-zero time,
    a page mounted over the storage left behind is, once loaded within 24
    hours, tracking with the same anchor and shows the elapsed time a tick
    of the old page would show. *)
Theorem session_survives_reload (st : State) (totals : DailyTotals)
    (start now : Z) :
  isTracking st = false ->
  getDailyTotals (localStorage st) = Normal totals ->
  start <> 0 ->
  calculateElapsedTenths now start <= 864000 ->
  let running := handleTimer start start st in
  exists st',
    loadEffect now (mount (localStorage running)) = Normal st'
    /\ Active st' start
    /\ sessionTime st' = calculateElapsedTenths now start
    /\ sessionTime st' = sessionTime (tick now running).
Proof.
  intros Hidle Hd Hstart Hle. cbv zeta.
  assert (handleTimer start start st
          = mkState (sessionTime st) true (dailyTotals st) (overallTotal st)
              (Some start) (saveSessionStart start (localStorage st))) as Hrun
    by (unfold handleTimer; by rewrite Hidle).
  rewrite Hrun. cbn [localStorage].
  assert (getDailyTotals (saveSessionStart start (localStorage st)) = Normal totals)
    as Hd' by (unfold getDailyTotals, saveSessionStart in *;
               by rewrite lookup_insert_ne).
  destruct (getDailyTotals_mount_load _ totals now Hd')
    as (st1 & _ & _ & _ & _ & _ & _ & Hload).
  rewrite getSessionStart_saved in Hload. cbn [Js.truthyNum] in Hload.
  destruct (Z.eqb_spec start 0); [done |]. cbn [negb] in Hload. cbv zeta in Hload.
  change MAX_SESSION_TENTHS with 864000 in Hload.
  destruct (Z.ltb_spec 864000 (calculateElapsedTenths now start)); [lia |].
  eexists. split; [exact Hload |]. split; [done |]. split; [done |].
  rewrite (tick_running now _ start) by done.
  change MAX_SESSION_TENTHS with 864000.
  by destruct (Z.ltb_spec 864000 (calculateElapsedTenths now start)); [lia |].
Qed.

Lemma session_survives_reload_witness :
  let start := 1717363800000 in
  let now := 1717363805000 in
  isTracking (mount ∅) = false
  /\ getDailyTotals (localStorage (mount ∅)) = Normal ∅
  /\ start <> 0
  /\ calculateElapsedTenths now start <= 864000
  /\ exists st',
       loadEffect now (mount (localStorage (handleTimer start start (mount ∅))))
       = Normal st'
       /\ Active st' start /\ sessionTime st' = 50.
Proof.
  cbv zeta.
  split; [reflexivity |]. split; [reflexivity |]. split; [lia |].
  split; [by_computation |].
  destruct (session_survives_reload (mount ∅) ∅ 1717363800000 1717363805000)
    as (st' & Hload & Hact & Htime & _);
    [reflexivity | reflexivity | lia | by_computation |].
  exists st'. split; [exact Hload |]. split; [exact Hact |].
  rewrite Htime. reflexivity.
Defined.

Lemma load_after_commit (t : Z) (date : string) (st : State) (now : Z) :
  loadEffect now (mount (localStorage (endSession (commit t date st))))
  = Normal (mkState 0 false (dailyTotals (commit t date st))
              (overallTotal (commit t date st)) None
              (localStorage (endSession (commit t date st)))).
Proof.
  set (ls := localStorage (endSession (commit t date st))).
  set (totals := dailyTotals (commit t date st)).
  assert (getDailyTotals ls = Normal totals) as Hd.
  { unfold ls, totals, endSession, commit, clearSessionStart. cbn.
    unfold getDailyTotals. rewrite lookup_delete_ne by done.
    rewrite lookup_insert_ne by done. apply getDailyTotals_saved. }
  assert (getOverallTotal ls = overallTotal (commit t date st)) as Ho.
  { unfold ls, endSession, commit, clearSessionStart. cbn.
    unfold getOverallTotal. rewrite lookup_delete_ne by done.
    apply getOverallTotal_saved_num. }
  assert (getSessionStart ls = None) as Hs.
  { unfold ls, endSession, clearSessionStart, getSessionStart. cbn.
    by rewrite lookup_delete_eq. }
  destruct (getDailyTotals_mount_load ls totals now Hd)
    as (st1 & Hdaily & Hoverall & Htime & Htrack & Href & Hls & Hload).
  rewrite Hs in Hload. rewrite Hload. f_equal.
  assert ((0 <? length (Object_keys totals))%nat = true) as Hkeys.
  { rewrite Object_keys_empty. apply negb_true_iff, bool_decide_eq_false.
    intros He. apply (f_equal (fun m => m !! date)) in He.
    unfold totals, commit in He. cbn in He.
    by rewrite lookup_insert_eq, lookup_empty in He. }
  rewrite Hkeys in Hdaily, Hoverall. cbn [orb] in Hdaily, Hoverall.
  rewrite Ho in Hoverall. destruct st1 as [a b c d e f].
  cbn [sessionTime isTracking dailyTotals overallTotal sessionStartRef localStorage]
    in Hdaily, Hoverall, Htime, Htrack, Href, Hls.
  by subst a b c d e f.
Qed.

(** X13.  Committed totals survive a reload: after a stop that commits,
    a page mounted over the storage left behind loads the same daily totals
    and the same overall total, and is not tracking. *)
Theorem totals_survive_reload (st : State) (start now today later : Z) :
  Active st start -> start <> 0 ->
  0 < calculateElapsedTenths now start <= 864000 ->
  let stopped := handleTimer now today st in
  exists st',
    loadEffect later (mount (localStorage stopped)) = Normal st'
    /\ sameComponent st' stopped.
Proof.
  intros Hact Hstart Hrange. cbv zeta.
  rewrite (handleTimer_stop_commit st start now today Hact Hstart Hrange).
  rewrite load_after_commit. eexists. split; [done |]. by repeat split.
Qed.

Lemma totals_survive_reload_witness :
  let st := handleTimer 1717363800000 1717363800000 (mount ∅) in
  let stopped := handleTimer 1717367400000 1717367400000 st in
  Active st 1717363800000 /\ 1717363800000 <> 0
  /\ 0 < calculateElapsedTenths 1717367400000 1717363800000 <= 864000
  /\ dailyTotals stopped = {[ "2024-06-02" := 36000 ]}
  /\ exists st',
       loadEffect 1717453800000 (mount (localStorage stopped)) = Normal st'
       /\ sameComponent st' stopped.
Proof.
  cbv zeta. split; [split; reflexivity |]. split; [lia |].
  split; [by_computation |]. split; [reflexivity |].
  apply (totals_survive_reload _ 1717363800000);
    [split; reflexivity | lia | by_computation].
Defined.

Lemma load_after_endSession (st : State) (totals : DailyTotals) (now : Z) :
  getDailyTotals (localStorage st) = Normal totals ->
  exists st',
    loadEffect now (mount (localStorage (endSession st))) = Normal st'
    /\ isTracking st' = false /\ sessionStartRef st' = None /\ sessionTime st' = 0.
Proof.
  intros Hd.
  assert (getDailyTotals (localStorage (endSession st)) = Normal totals) as Hd'.
  { cbn. unfold clearSessionStart, getDailyTotals in *. by rewrite lookup_delete_ne. }
  destruct (getDailyTotals_mount_load _ totals now Hd')
    as (st1 & _ & _ & Htime & Htrack & Href & _ & Hload).
  assert (getSessionStart (localStorage (endSession st)) = None) as Hs.
  { cbn. unfold clearSessionStart, getSessionStart. by rewrite lookup_delete_eq. }
  rewrite Hs in Hload. by exists st1.
Qed.

(** X14.  An ended session does not come back: after a discard, a stop
    or a tick that drops the session, a page mounted over the storage left
    behind loads without a session. *)
Theorem ended_session_stays_ended (st : State) (totals : DailyTotals)
    (now today later : Z) :
  getDailyTotals (localStorage st) = Normal totals ->
  (exists st',
     loadEffect later (mount (localStorage (handleDiscardSession st))) = Normal st'
     /\ isTracking st' = false /\ sessionStartRef st' = None /\ sessionTime st' = 0)
  /\ (isTracking st = true ->
      exists st',
        loadEffect later (mount (localStorage (handleTimer now today st))) = Normal st'
        /\ isTracking st' = false /\ sessionStartRef st' = None
        /\ sessionTime st' = 0)
  /\ (intervalRunning st = true -> isTracking (tick now st) = false ->
      exists st',
        loadEffect later (mount (localStorage (tick now st))) = Normal st'
        /\ isTracking st' = false /\ sessionStartRef st' = None
        /\ sessionTime st' = 0).
Proof.
  intros Hd. split; [by apply (load_after_endSession st totals) |]. split.
  - intros Ht. unfold handleTimer. rewrite Ht.
    destruct (sessionStartRef st) as [start |];
      [| by apply (load_after_endSession st totals)].
    destruct (refTruthy (Some start));
      [| by apply (load_after_endSession st totals)].
    cbv zeta. destruct (_ && _); [| by apply (load_after_endSession st totals)].
    rewrite load_after_commit. eexists. by repeat split.
  - intros Hrun. unfold tick. rewrite Hrun.
    unfold intervalRunning in Hrun. apply andb_prop in Hrun as [Ht Hr].
    destruct (sessionStartRef st) as [start |]; [| done]. rewrite Hr. cbv zeta.
    destruct (_ <? _); [intros _; by apply (load_after_endSession st totals) |].
    cbn. by rewrite Ht.
Qed.

Lemma ended_session_stays_ended_witness :
  let st := handleTimer 1717363800000 1717363800000 (mount ∅) in
  getDailyTotals (localStorage st) = Normal ∅
  /\ getSessionStart (localStorage st) = Some (Num 1717363800000)
  /\ exists st',
       loadEffect 1717363860000 (mount (localStorage (handleDiscardSession st)))
       = Normal st'
       /\ isTracking st' = false /\ sessionStartRef st' = None.
Proof.
  cbv zeta. split; [reflexivity |]. split; [reflexivity |].
  destruct (ended_session_stays_ended
              (handleTimer 1717363800000 1717363800000 (mount ∅)) ∅
              1717363860000 1717363860000 1717363860000)
    as ((st' & Hload & Htrack & Href & _) & _); [reflexivity |].
  by exists st'.
Defined.

(** X15.  A NaN overall total does not recover: starting, stopping,
    discarding and ticking leave it NaN, and a stop that commits writes NaN
    to storage, from where the next load reads it again. *)
Theorem NaN_total_is_kept (e : Event) (st st' : State) :
  overallTotal st = NaN ->
  (forall now, e <> Load now) ->
  step e st = Normal st' ->
  overallTotal st' = NaN
  /\ (dailyTotals st' <> dailyTotals st ->
      getOverallTotal (localStorage st') = NaN).
Proof.
  intros Hnan Hload Hstep.
  assert (forall t date,
            overallTotal (endSession (commit t date st)) = NaN
            /\ getOverallTotal (localStorage (endSession (commit t date st))) = NaN)
    as Hcommit.
  { intros t date. cbn. rewrite Hnan. split; [done |].
    unfold getOverallTotal, clearSessionStart, saveOverallTotal.
    by rewrite lookup_delete_ne, lookup_insert_eq. }
  destruct e as [now | now today | | now]; cbn in Hstep.
  - by destruct (Hload now).
  - injection Hstep as <-. unfold handleTimer.
    destruct (isTracking st); [| by split].
    destruct (sessionStartRef st) as [start |]; [| by split].
    destruct (refTruthy (Some start)); [| by split].
    cbv zeta. destruct (_ && _); [| by split].
    split; [apply Hcommit | intros _; apply Hcommit].
  - injection Hstep as <-. by split.
  - injection Hstep as <-. unfold tick.
    destruct (intervalRunning st); [| by split].
    destruct (sessionStartRef st) as [start |]; [| by split].
    destruct (refTruthy (Some start)); [| by split].
    cbv zeta. destruct (_ <? _); by split.
Qed.

Lemma NaN_total_is_kept_witness :
  let garbled : Storage :=
    {[ STORAGE_KEY_DAILY := Json.stringify {[ "2024-06-01" := 36000 ]};
       STORAGE_KEY_OVERALL := "abc" ]} in
  let st := mkState 0 false {[ "2024-06-01" := 36000 ]} NaN None garbled in
  let st' := handleTimer 1717363800000 1717363800000 st in
  loadEffect 1717363800000 (mount garbled) = Normal st
  /\ overallTotal st = NaN
  /\ step (Timer 1717363800000 1717363800000) st = Normal st'
  /\ overallTotal st' = NaN.
Proof.
  cbv zeta.
  set (st := mkState 0 false {[ "2024-06-01" := 36000 ]} NaN None
               {[ STORAGE_KEY_DAILY := Json.stringify {[ "2024-06-01" := 36000 ]};
                  STORAGE_KEY_OVERALL := "abc" ]}).
  split; [vm_compute; reflexivity |].
  split; [reflexivity |]. split; [reflexivity |].
  exact (proj1 (NaN_total_is_kept (Timer 1717363800000 1717363800000) st
                  (handleTimer 1717363800000 1717363800000 st) eq_refl
                  ltac:(done) eq_refl)).
Defined.


(* ===================================================================== *)
(** * Today, yesterday and the week                                       *)
(* ===================================================================== *)

Lemma mondayIndex_range (day : Z) : 0 <= mondayIndex day <= 6.
Proof. unfold mondayIndex. pose proof (Z.mod_pos_bound (day + 3) 7). lia. Qed.

Lemma sevenDates_elem (first i : Z) :
  0 <= i <= 6 -> JsDate.isoDate (first + i) ∈ sevenDates first.
Proof.
  intros Hi. unfold sevenDates. apply list_elem_of_fmap. exists i.
  split; [done |].
  assert (i = 0 \/ i = 1 \/ i = 2 \/ i = 3 \/ i = 4 \/ i = 5 \/ i = 6) as Hc by lia.
  clear Hi. repeat (destruct Hc as [-> | Hc]; [set_solver |]). subst. set_solver.
Qed.

(** Today's date is the one the week lists for the day of the week of
    today, when the local time of the Monday exists and that of today is
    converted back to today. *)
Lemma today_in_week (tz : JsDate.TimeZone) (now : Z) :
  localTimeExists tz (localMonday tz now) -> readBack tz now ->
  getDateString now ∈ getDatesInWeek tz now.
Proof.
  unfold localTimeExists, readBack. intros Hmonday Hnow.
  rewrite getDatesInWeek_local, getStartOfWeek_local, Hmonday.
  set (m := mondayIndex (JsDate.Day (JsDate.LocalTime tz now))).
  apply list_elem_of_fmap. exists m. split.
  - rewrite getDateString_utcDate. do 2 f_equal. rewrite <- Hnow at 1. f_equal.
    unfold localMonday. cbv zeta. fold m. lia.
  - pose proof (mondayIndex_range (JsDate.Day (JsDate.LocalTime tz now))) as Hm.
    fold m in Hm.
    assert (m = 0 \/ m = 1 \/ m = 2 \/ m = 3 \/ m = 4 \/ m = 5 \/ m = 6) as Hc by lia.
    clear Hm. repeat (destruct Hc as [-> | Hc]; [set_solver |]).
    rewrite Hc. set_solver.
Qed.

Lemma fixedOffset_exists (tza lt : Z) : localTimeExists tza lt.
Proof. unfold localTimeExists, JsDate.LocalTime, JsDate.UTC. cbn. lia. Qed.

Lemma fixedOffset_readBack (tza t : Z) : readBack tza t.
Proof. unfold readBack, JsDate.LocalTime, JsDate.UTC. cbn. lia. Qed.

Lemma orZero_nonneg (o : DailyTotals) (date : string) :
  nonNegative o -> 0 <= orZero (o !! date).
Proof.
  intros Hnn. rewrite orZero_default.
  destruct (o !! date) as [v |] eqn:Hv; cbn; [by apply (Hnn date) | lia].
Qed.

Lemma sumOver_acc (o : DailyTotals) (dates : list string) (a : Z) :
  foldl (fun sum date => sum + orZero (o !! date)) a dates = a + sumOver o dates.
Proof.
  unfold sumOver. rewrite !sumOver_foldr. lia.
Qed.

Lemma sumOver_cons (o : DailyTotals) (date : string) (dates : list string) :
  sumOver o (date :: dates) = orZero (o !! date) + sumOver o dates.
Proof. unfold sumOver at 1. cbn. by rewrite sumOver_acc. Qed.

Lemma sumOver_nonneg (o : DailyTotals) (dates : list string) :
  nonNegative o -> 0 <= sumOver o dates.
Proof.
  intros Hnn. induction dates as [| d dates IH]; [done |].
  rewrite sumOver_cons. pose proof (orZero_nonneg o d Hnn). lia.
Qed.

Lemma sumOver_elem (o : DailyTotals) (date : string) (dates : list string) :
  nonNegative o -> date ∈ dates -> orZero (o !! date) <= sumOver o dates.
Proof.
  intros Hnn. induction dates as [| d dates IH]; intros Hin.
  - by apply elem_of_nil in Hin.
  - rewrite sumOver_cons. apply elem_of_cons in Hin as [-> | Hin].
    + pose proof (sumOver_nonneg o dates Hnn). lia.
    + pose proof (orZero_nonneg o d Hnn). specialize (IH Hin). lia.
Qed.

(** X16.  Today is part of this week: when the local time of this week's
    Monday exists in the zone, and the local time of now is converted back
    to now, today's key is one of the seven week dates, so that for a
    ledger without negative entries today's total is between 0 and the
    week's total.  Both conditions hold in every zone of fixed offset. *)
Theorem today_within_week (tz : JsDate.TimeZone) (now : Z) (o : DailyTotals) :
  (localTimeExists tz (localMonday tz now) -> readBack tz now ->
   getDateString now ∈ getDatesInWeek tz now
   /\ (nonNegative o ->
       0 <= calculateTodayTotal now o <= calculateWeekTotal tz now o))
  /\ (forall tza : Z,
        localTimeExists (JsDate.fixedOffset tza)
          (localMonday (JsDate.fixedOffset tza) now)
        /\ readBack (JsDate.fixedOffset tza) now).
Proof.
  split.
  - intros Hmonday Hnow. split; [by apply today_in_week |].
    intros Hnn. unfold calculateTodayTotal, calculateWeekTotal. split.
    + by apply orZero_nonneg.
    + apply sumOver_elem; [done | by apply today_in_week].
  - intros tza. split; [apply fixedOffset_exists | apply fixedOffset_readBack].
Qed.

Lemma today_within_week_witness :
  let o : DailyTotals := {[ "2024-06-01" := 36000; "2024-06-02" := 7000 ]} in
  localTimeExists twoHoursEast (localMonday twoHoursEast 1717367400000)
  /\ readBack twoHoursEast 1717367400000
  /\ nonNegative o
  /\ calculateTodayTotal 1717367400000 o = 7000
  /\ calculateTodayTotal 1717367400000 o
     <= calculateWeekTotal twoHoursEast 1717367400000 o.
Proof.
  cbv zeta.
  assert (nonNegative ({[ "2024-06-01" := 36000; "2024-06-02" := 7000 ]} : DailyTotals))
    as Hnn.
  { intros date v Hv. apply lookup_insert_Some in Hv as [[_ <-] | [_ Hv]]; [lia |].
    apply lookup_singleton_Some in Hv as [_ <-]. lia. }
  assert (localTimeExists twoHoursEast (localMonday twoHoursEast 1717367400000))
    as Hmonday by reflexivity.
  assert (readBack twoHoursEast 1717367400000) as Hnow by reflexivity.
  split; [exact Hmonday |]. split; [exact Hnow |].
  split; [exact Hnn |]. split; [reflexivity |].
  exact (proj2 (proj2 (proj1 (today_within_week twoHoursEast 1717367400000 _)
                         Hmonday Hnow) Hnn)).
Defined.

(** X17.  Yesterday's total is today's total as it was 24 hours earlier,
    moved by the change of the zone's offset between yesterday's local
    time and now; where the clocks did not change in between, as in every
    zone of fixed offset, it is today's total of exactly 24 hours
    earlier. *)
Theorem yesterday_is_today_a_day_ago (tz : JsDate.TimeZone) (now : Z)
    (o : DailyTotals) :
  calculateYesterdayTotal tz now o
  = calculateTodayTotal
      (now - 86400000
       + (JsDate.offsetAt tz now
          - JsDate.offsetOfLocal tz (JsDate.LocalTime tz now - JsDate.msPerDay))) o
  /\ (steadyDay tz now ->
      calculateYesterdayTotal tz now o = calculateTodayTotal (now - 86400000) o)
  /\ (forall tza : Z, steadyDay (JsDate.fixedOffset tza) now).
Proof.
  assert (calculateYesterdayTotal tz now o
          = calculateTodayTotal
              (now - 86400000
               + (JsDate.offsetAt tz now
                  - JsDate.offsetOfLocal tz
                      (JsDate.LocalTime tz now - JsDate.msPerDay))) o) as Hgen.
  { unfold calculateYesterdayTotal, calculateTodayTotal. cbv zeta.
    rewrite setDate_local. do 3 f_equal.
    replace (JsDate.LocalTime tz now
             + (JsDate.getDate tz now - 1 - JsDate.getDate tz now) * JsDate.msPerDay)
      with (JsDate.LocalTime tz now - JsDate.msPerDay) by lia.
    unfold JsDate.UTC, JsDate.LocalTime, JsDate.msPerDay. lia. }
  split; [exact Hgen |]. split; [| done].
  intros Hsteady. rewrite Hgen. unfold steadyDay in Hsteady. rewrite Hsteady.
  do 2 f_equal. lia.
Qed.

Lemma yesterday_is_today_a_day_ago_witness :
  let o : DailyTotals := {[ "2024-06-01" := 36000; "2024-06-02" := 7000 ]} in
  steadyDay twoHoursEast 1717367400000
  /\ calculateYesterdayTotal twoHoursEast 1717367400000 o = 36000
  /\ calculateYesterdayTotal twoHoursEast 1717367400000 o
     = calculateTodayTotal (1717367400000 - 86400000) o.
Proof.
  cbv zeta. split; [reflexivity |]. split; [reflexivity |].
  exact (proj1 (proj2 (yesterday_is_today_a_day_ago twoHoursEast 1717367400000 _))
           eq_refl).
Defined.

Lemma entryPositive_orZero (o : DailyTotals) (date : string) :
  nonNegative o -> entryPositive o date = (0 <? orZero (o !! date)).
Proof.
  intros Hnn. unfold entryPositive. rewrite orZero_default.
  by destruct (o !! date).
Qed.

Lemma filter_positive_sum (o : DailyTotals) (dates : list string) :
  nonNegative o ->
  length (List.filter (entryPositive o) dates) = 0%nat <-> sumOver o dates = 0.
Proof.
  intros Hnn. induction dates as [| d dates IH]; [done |].
  rewrite sumOver_cons. cbn [List.filter].
  rewrite (entryPositive_orZero o d Hnn).
  pose proof (orZero_nonneg o d Hnn). pose proof (sumOver_nonneg o dates Hnn).
  destruct (Z.ltb_spec 0 (orZero (o !! d))); cbn [length]; [lia |].
  rewrite IH. lia.
Qed.

(** X18.  For a ledger without negative entries, at most seven days of
    the week have an entry, none has one exactly when the week's total is
    0, and more than one day with an entry means a week's total of at
    least 2. *)
Theorem week_entries_and_total (tz : JsDate.TimeZone) (now : Z) (o : DailyTotals) :
  nonNegative o ->
  (weekDaysWithEntries tz now o <= 7)%nat
  /\ (weekDaysWithEntries tz now o = 0%nat <-> calculateWeekTotal tz now o = 0)
  /\ (hasMultipleWeekEntries tz now o = true -> 2 <= calculateWeekTotal tz now o).
Proof.
  intros Hnn. unfold weekDaysWithEntries, hasMultipleWeekEntries, calculateWeekTotal.
  split; [| split].
  - etrans; [apply List.filter_length_le |]. unfold getDatesInWeek. cbv zeta.
    by rewrite length_map.
  - by apply filter_positive_sum.
  - unfold weekDaysWithEntries. generalize (getDatesInWeek tz now). intros dates.
    intros Hmany%Nat.ltb_lt. revert Hmany.
    assert (forall l, Z.of_nat (length (List.filter (entryPositive o) l)) <= sumOver o l)
      as Hcount.
    { induction l as [| d l IH]; [done |].
      rewrite sumOver_cons. cbn [List.filter].
      rewrite (entryPositive_orZero o d Hnn).
      pose proof (orZero_nonneg o d Hnn).
      destruct (Z.ltb_spec 0 (orZero (o !! d))); cbn [length]; lia. }
    specialize (Hcount dates). lia.
Qed.

Lemma week_entries_and_total_witness :
  let o : DailyTotals := {[ "2024-06-02" := 7000; "2024-06-03" := 1 ]} in
  nonNegative o
  /\ weekDaysWithEntries 7200000 1717367400000 o = 2%nat
  /\ hasMultipleWeekEntries 7200000 1717367400000 o = true
  /\ 2 <= calculateWeekTotal 7200000 1717367400000 o.
Proof.
  cbv zeta.
  assert (nonNegative ({[ "2024-06-02" := 7000; "2024-06-03" := 1 ]} : DailyTotals))
    as Hnn.
  { intros date v Hv. apply lookup_insert_Some in Hv as [[_ <-] | [_ Hv]]; [lia |].
    apply lookup_singleton_Some in Hv as [_ <-]. lia. }
  split; [exact Hnn |]. split; [reflexivity |]. split; [reflexivity |].
  exact (proj2 (proj2 (week_entries_and_total 7200000 1717367400000 _ Hnn)) eq_refl).
Defined.


(* ===================================================================== *)
(** * Messages and time equivalents                                       *)
(* ===================================================================== *)

Lemma randomIndex_range (rnd : Q) (n : nat) :
  (0 <= rnd)%Q -> (rnd < 1)%Q -> (0 < n)%nat ->
  0 <= Qfloor (rnd * inject_Z (Z.of_nat n))%Q < Z.of_nat n.
Proof.
  intros H0 H1 Hn.
  assert (0 < inject_Z (Z.of_nat n))%Q as Hpos.
  { change 0%Q with (inject_Z 0). rewrite <- Zlt_Qlt. lia. }
  split.
  - change 0 with (Qfloor 0). apply Qfloor_resp_le.
    apply Qmult_le_0_compat; [done | by apply Qlt_le_weak].
  - rewrite Zlt_Qlt. eapply Qle_lt_trans; [apply Qfloor_le |].
    rewrite <- (Qmult_1_l (inject_Z (Z.of_nat n))) at 2.
    by apply Qmult_lt_r.
Qed.

Lemma pickRandom_nonempty (rnd : Q) (array : list string) :
  (0 <= rnd)%Q -> (rnd < 1)%Q -> array <> [] ->
  exists s, pickRandom rnd array = Text s /\ s ∈ array.
Proof.
  intros H0 H1 Hne. unfold pickRandom. cbv zeta.
  assert (0 < length array)%nat as Hlen by (destruct array; [done | cbn; lia]).
  pose proof (randomIndex_range rnd (length array) H0 H1 Hlen) as Hidx.
  destruct (Z.ltb_spec (Qfloor (rnd * inject_Z (Z.of_nat (length array)))) 0);
    [lia |].
  destruct (lookup_lt_is_Some_2 array
              (Z.to_nat (Qfloor (rnd * inject_Z (Z.of_nat (length array))))))
    as [s Hs]; [lia |].
  rewrite Hs. exists s. split; [done |]. by eapply list_elem_of_lookup_2.
Qed.

Lemma pickRandom_empty (rnd : Q) : pickRandom rnd [] = Undefined.
Proof. unfold pickRandom. cbv zeta. by destruct (_ <? _). Qed.

Lemma pickRandom_not_Null (rnd : Q) (array : list string) :
  pickRandom rnd array <> Null.
Proof.
  unfold pickRandom. cbv zeta. destruct (_ <? _); [done |]. by destruct (_ !! _).
Qed.

(** X19.  A random message is one of the messages: for a random number in
    [0, 1) the index computed lies inside a non-empty list, so the result
    is an element of it; for an empty list it is undefined; it is never
    null. *)
Theorem random_message_is_a_message (rnd : Q) (messages : list string) :
  (0 <= rnd)%Q -> (rnd < 1)%Q ->
  (messages <> [] ->
   exists s, getRandomMessage rnd messages = Text s /\ s ∈ messages)
  /\ (messages = [] -> getRandomMessage rnd messages = Undefined)
  /\ getRandomMessage rnd messages <> Null.
Proof.
  intros H0 H1. unfold getRandomMessage. split; [| split].
  - by apply pickRandom_nonempty.
  - intros ->. apply pickRandom_empty.
  - apply pickRandom_not_Null.
Qed.

Lemma random_message_is_a_message_witness :
  (0 <= 1 # 2)%Q /\ (1 # 2 < 1)%Q
  /\ getRandomMessage (1 # 2) ["stretch"; "drink water"; "look outside"]
     = Text "drink water"
  /\ exists s, getRandomMessage (1 # 2) ["stretch"; "drink water"; "look outside"]
               = Text s
               /\ s ∈ ["stretch"; "drink water"; "look outside"].
Proof.
  split; [done |]. split; [done |]. split; [reflexivity |].
  exact (proj1 (random_message_is_a_message (1 # 2)
                  ["stretch"; "drink water"; "look outside"]
                  ltac:(done) ltac:(done)) ltac:(done)).
Defined.

(** The loop on a table in the order of its thresholds. *)
Lemma selectCategory_ascending (table : list TimeEquivalent) (h : Z)
    (acc : option TimeEquivalent) :
  ascending table ->
  (forall a c, acc = Some a -> c ∈ table -> hours a <= hours c) ->
  (forall a, acc = Some a -> hours a <= h) ->
  match selectCategory table h acc with
  | Some c =>
      (acc = Some c \/ c ∈ table) /\ hours c <= h
      /\ forall c', c' ∈ table -> hours c' <= h -> hours c' <= hours c
  | None => acc = None /\ forall c', c' ∈ table -> h < hours c'
  end.
Proof.
  revert acc. induction table as [| x table IH]; intros acc Hsorted Hacc Hle.
  - cbn. destruct acc as [a |].
    + split; [by left |]. split; [by apply Hle |]. intros c' Hc'.
      by apply elem_of_nil in Hc'.
    + split; [done |]. intros c' Hc'. by apply elem_of_nil in Hc'.
  - apply StronglySorted_inv in Hsorted as [Hsorted Hx].
    rewrite List.Forall_forall in Hx. cbn [selectCategory].
    destruct (Z.leb_spec (hours x) h) as [Hxh | Hxh].
    + specialize (IH (Some x) Hsorted).
      destruct (selectCategory table h (Some x)) as [c |].
      * destruct IH as (Hc & Hch & Hmax).
        { intros a c' [= <-] Hc'. apply Hx. by apply list_elem_of_In. }
        { by intros a [= <-]. }
        split; [right; destruct Hc as [[= <-] | Hc]; [left | by right]; done |].
        split; [done |]. intros c' Hc' Hc'h.
        apply elem_of_cons in Hc' as [-> | Hc']; [| by apply Hmax].
        destruct Hc as [[= <-] | Hc]; [lia |].
        apply Hx. by apply list_elem_of_In.
      * destruct IH as [Hnone _]; [| | done].
        { intros a c' [= <-] Hc'. apply Hx. by apply list_elem_of_In. }
        { by intros a [= <-]. }
    + assert (forall c', c' ∈ x :: table -> h < hours c') as Habove.
      { intros c' Hc'. apply elem_of_cons in Hc' as [-> | Hc']; [done |].
        pose proof (Hx c' ltac:(by apply list_elem_of_In)). lia. }
      destruct acc as [a |].
      * split; [by left |]. split; [by apply Hle |].
        intros c' Hc' Hc'h. specialize (Habove c' Hc'). lia.
      * by split.
Qed.

(** X20.  For a table in the order of its thresholds, the time equivalent
    is null below 10 hours and when no threshold is reached, and every
    activity returned comes from the category with the largest threshold
    the hours reach. *)
Theorem time_equivalent_from_best_category (table : list TimeEquivalent)
    (rnd : Q) (h : Z) :
  ascending table -> (0 <= rnd)%Q -> (rnd < 1)%Q ->
  (h < 10 -> getTimeEquivalent table rnd h = Null)
  /\ ((forall c, c ∈ table -> h < hours c) -> getTimeEquivalent table rnd h = Null)
  /\ (forall s, getTimeEquivalent table rnd h = Text s ->
        10 <= h
        /\ exists c, c ∈ table /\ s ∈ activities c /\ hours c <= h
                     /\ forall c', c' ∈ table -> hours c' <= h -> hours c' <= hours c).
Proof.
  intros Hsorted H0 H1.
  pose proof (selectCategory_ascending table h None Hsorted
                ltac:(done) ltac:(done)) as Hsel.
  unfold getTimeEquivalent. split; [| split].
  - intros Hh. by destruct (Z.ltb_spec h 10); [| lia].
  - intros Habove. destruct (h <? 10); [done |].
    destruct (selectCategory table h None) as [c |]; [| done].
    destruct Hsel as ([Hc | Hc] & Hch & _); [done |].
    specialize (Habove c Hc). lia.
  - intros s Hs. destruct (Z.ltb_spec h 10); [done |]. split; [done |].
    destruct (selectCategory table h None) as [c |]; [| done].
    destruct Hsel as ([Hc | Hc] & Hch & Hmax); [done |].
    exists c. split; [done |]. split; [| by split].
    destruct (activities c) as [| a l] eqn:Hact.
    + by rewrite pickRandom_empty in Hs.
    + destruct (pickRandom_nonempty rnd (a :: l) H0 H1) as (s' & Hs' & Hin);
        [done |].
      rewrite Hs' in Hs. by injection Hs as <-.
Qed.

Lemma time_equivalent_from_best_category_witness :
  let table := [mkTimeEquivalent 10 ["a film marathon"];
                mkTimeEquivalent 50 ["a short course"; "a long hike"];
                mkTimeEquivalent 100 ["a language"]] in
  ascending table /\ (0 <= 1 # 2)%Q /\ (1 # 2 < 1)%Q
  /\ getTimeEquivalent table (1 # 2) 60 = Text "a long hike"
  /\ getTimeEquivalent table (1 # 2) 9 = Null.
Proof.
  cbv zeta.
  assert (ascending [mkTimeEquivalent 10 ["a film marathon"];
                     mkTimeEquivalent 50 ["a short course"; "a long hike"];
                     mkTimeEquivalent 100 ["a language"]]) as Hasc.
  { unfold ascending. repeat constructor; cbn; lia. }
  split; [exact Hasc |]. split; [done |]. split; [done |].
  split; [reflexivity |].
  exact (proj1 (time_equivalent_from_best_category _ (1 # 2) 9 Hasc
                  ltac:(done) ltac:(done)) ltac:(lia)).
Defined.

(** X21.  The component has no session prompt exactly when it is not
    tracking or the session is shorter than 30 minutes (18000 tenths),
    whatever the messages are. *)
Theorem session_prompt_from_30_minutes (prompts : SessionPrompts) (rnd : Q)
    (st : State) :
  sessionPrompt prompts rnd st = Null
  <-> isTracking st = false \/ sessionTime st < 18000.
Proof.
  unfold sessionPrompt, getSessionPrompt, sessionMinutes, getRandomMessage.
  assert (sessionTime st < 18000 <-> sessionTime st / 600 < 30) as ->
    by (split; intros ?; Z.div_mod_to_equations; lia).
  destruct (isTracking st); [| by split; [left |]].
  pose proof (pickRandom_not_Null rnd) as Hnn.
  set (minutes := sessionTime st / 600).
  assert (forall array, pickRandom rnd array = Null <-> false = true) as Hpick
    by (intros array; split; [intros H'; by destruct (Hnn _ H') | done]).
  destruct (Z.leb_spec 180 minutes); [rewrite Hpick; split; [done | intros [? | ?]; [done | lia]] |].
  destruct (Z.leb_spec 120 minutes); [rewrite Hpick; split; [done | intros [? | ?]; [done | lia]] |].
  destruct (Z.leb_spec 90 minutes); [rewrite Hpick; split; [done | intros [? | ?]; [done | lia]] |].
  destruct (Z.leb_spec 60 minutes); [rewrite Hpick; split; [done | intros [? | ?]; [done | lia]] |].
  destruct (Z.leb_spec 30 minutes); [rewrite Hpick; split; [done | intros [? | ?]; [done | lia]] |].
  split; [intros _; right; lia | done].
Qed.

(* ===================================================================== *)
(** * The tick-counting timer                                             *)
(* ===================================================================== *)

Lemma ticks_tracking (n : nat) (st : Counter.State) :
  Counter.isTracking st = true ->
  ticks n st
  = Counter.mkState (Counter.sessionTime st + Z.of_nat n) true
      (Counter.dailyTotals st) (Counter.overallTotal st)
      (if n is O then Counter.sessionTimeRef st
       else Counter.sessionTime st + Z.of_nat n)
      (Counter.localStorage st).
Proof.
  intros Ht. induction n as [| n IH].
  - cbn. rewrite Z.add_0_r. destruct st. cbn in *. by subst.
  - change (ticks (S n) st) with (Counter.tick (ticks n st)). rewrite IH.
    unfold Counter.tick. cbn [Counter.isTracking Counter.sessionTime
      Counter.dailyTotals Counter.overallTotal Counter.localStorage].
    f_equal; lia.
Qed.

(** X22.  The tick-counting timer commits its ticks: a session started
    from rest and stopped after [n] ticks commits exactly [n] tenths to the
    date of the stop and to the overall total, in the component and in
    storage, however large [n] is, and nothing when no tick fired. *)
Theorem counter_commits_its_ticks (st : Counter.State) (n : nat) (today : Z) :
  Counter.isTracking st = false ->
  Counter.sessionTime st = 0 -> Counter.sessionTimeRef st = 0 ->
  let key := getDateString today in
  let st' := Counter.handleTimer today (ticks n (Counter.handleTimer today st)) in
  Counter.isTracking st' = false /\ Counter.sessionTime st' = 0
  /\ (n = 0%nat ->
      Counter.dailyTotals st' = Counter.dailyTotals st
      /\ Counter.overallTotal st' = Counter.overallTotal st
      /\ Counter.localStorage st' = Counter.localStorage st)
  /\ ((0 < n)%nat ->
      Counter.dailyTotals st'
      = <[key := default 0 (Counter.dailyTotals st !! key) + Z.of_nat n]>
          (Counter.dailyTotals st)
      /\ Counter.overallTotal st'
         = Js.add (Counter.overallTotal st) (Num (Z.of_nat n))
      /\ getDailyTotals (Counter.localStorage st') = Normal (Counter.dailyTotals st')
      /\ getOverallTotal (Counter.localStorage st') = Counter.overallTotal st').
Proof.
  intros Hidle Htime Href. cbv zeta.
  assert (Counter.handleTimer today st
          = Counter.mkState 0 true (Counter.dailyTotals st) (Counter.overallTotal st)
              0 (Counter.localStorage st)) as ->
    by (unfold Counter.handleTimer; by rewrite Hidle, Htime, Href).
  rewrite ticks_tracking by done. cbn [Counter.sessionTime Counter.sessionTimeRef
    Counter.dailyTotals Counter.overallTotal Counter.localStorage].
  unfold Counter.handleTimer. cbn [Counter.isTracking Counter.sessionTimeRef].
  destruct n as [| n].
  - cbn. split; [done |]. split; [done |]. split; [done | lia].
  - cbv zeta.
    destruct (Z.ltb_spec 0 (0 + Z.of_nat (S n))); [| lia].
    cbn [Counter.sessionTime Counter.sessionTimeRef Counter.isTracking
      Counter.dailyTotals Counter.overallTotal Counter.localStorage].
    rewrite orZero_default, Z.add_0_l.
    split; [done |]. split; [done |]. split; [intros [=] |]. intros _.
    split; [done |]. split; [done |]. split.
    + unfold getDailyTotals, saveOverallTotal. rewrite lookup_insert_ne by done.
      apply getDailyTotals_saved.
    + apply getOverallTotal_saved_num.
Qed.

Lemma counter_commits_its_ticks_witness :
  let st := Counter.mount ∅ in
  let st' := Counter.handleTimer 1717367400000
               (ticks 3 (Counter.handleTimer 1717367400000 st)) in
  Counter.isTracking st = false
  /\ Counter.sessionTime st = 0 /\ Counter.sessionTimeRef st = 0
  /\ (0 < 3)%nat
  /\ Counter.dailyTotals st' = {[ "2024-06-02" := 3 ]}
  /\ Counter.overallTotal st' = Num 3.
Proof.
  cbv zeta. split; [reflexivity |]. split; [reflexivity |]. split; [reflexivity |].
  assert (0 < 3)%nat as Hpos by lia.
  split; [exact Hpos |].
  destruct (counter_commits_its_ticks (Counter.mount ∅) 3 1717367400000
              eq_refl eq_refl eq_refl) as (_ & _ & _ & Hcommit).
  destruct (Hcommit Hpos) as (Hd & Ho & _). split; [exact Hd | exact Ho].
Defined.


(* ===================================================================== *)
(** * The load and the week                                               *)
(* ===================================================================== *)

(** X23.  A load that succeeds writes nothing: every storage entry other
    than the session start keeps its value, and the storage is either
    unchanged or has lost only the session start, the latter only when a
    saved start is more than 24 hours (864000 tenths) old. *)
Theorem load_leaves_stored_totals (now : Z) (st st' : State) :
  loadEffect now st = Normal st' ->
  (forall key, key <> STORAGE_KEY_SESSION_START ->
     localStorage st' !! key = localStorage st !! key)
  /\ (localStorage st' = localStorage st
      \/ localStorage st' = clearSessionStart (localStorage st)
         /\ exists saved, getSessionStart (localStorage st) = Some (Num saved)
                          /\ 864000 < calculateElapsedTenths now saved).
Proof.
  intros Hload. unfold loadEffect in Hload.
  destruct (getDailyTotals (localStorage st)) as [totals | |]; [| done..].
  match type of Hload with
  | context [if ?c then ?a else st] =>
      set (st1 := if c then a else st) in *;
      assert (localStorage st1 = localStorage st) as Hls
        by (unfold st1; by destruct c)
  end.
  assert (localStorage st' = localStorage st ->
          (forall key, key <> STORAGE_KEY_SESSION_START ->
             localStorage st' !! key = localStorage st !! key)
          /\ (localStorage st' = localStorage st
              \/ localStorage st' = clearSessionStart (localStorage st)
                 /\ exists saved, getSessionStart (localStorage st) = Some (Num saved)
                                  /\ 864000 < calculateElapsedTenths now saved))
    as Hsame by (intros ->; split; [done | by left]).
  destruct (getSessionStart (localStorage st)) as [[saved |] |] eqn:Hs;
    try (injection Hload as <-; by apply Hsame).
  destruct (Js.truthyNum (Num saved)); [| injection Hload as <-; by apply Hsame].
  change MAX_SESSION_TENTHS with 864000 in Hload. cbv zeta in Hload.
  destruct (Z.ltb_spec 864000 (calculateElapsedTenths now saved));
    injection Hload as <-; [| by apply Hsame].
  cbn [localStorage]. rewrite Hls. split.
  - intros key Hkey. unfold clearSessionStart. by rewrite lookup_delete_ne.
  - right. split; [done |]. by exists saved.
Qed.

Lemma load_leaves_stored_totals_witness :
  let ls : Storage :=
    {[ STORAGE_KEY_DAILY := Json.stringify {[ "2024-06-01" := 36000 ]};
       STORAGE_KEY_OVERALL := "36000";
       STORAGE_KEY_SESSION_START := "1717200000000" ]} in
  exists st',
    loadEffect 1717367400000 (mount ls) = Normal st'
    /\ localStorage st' !! STORAGE_KEY_OVERALL = Some "36000"
    /\ localStorage st' !! STORAGE_KEY_SESSION_START = None.
Proof.
  cbv zeta.
  set (ls := ({[ STORAGE_KEY_DAILY := Json.stringify {[ "2024-06-01" := 36000 ]};
                 STORAGE_KEY_OVERALL := "36000";
                 STORAGE_KEY_SESSION_START := "1717200000000" ]} : Storage)).
  set (st' := mkState 0 false {[ "2024-06-01" := 36000 ]} (Num 36000) None
                (clearSessionStart ls)).
  assert (loadEffect 1717367400000 (mount ls) = Normal st') as Hload
    by (vm_compute; reflexivity).
  exists st'. split; [exact Hload |].
  destruct (load_leaves_stored_totals 1717367400000 (mount ls) st' Hload)
    as [Hkeep _].
  split; [| reflexivity].
  rewrite (Hkeep STORAGE_KEY_OVERALL ltac:(done)). reflexivity.
Defined.

(** X24.  The start of the week is a Monday: when the local time of this
    week's Monday exists in the zone, the start of the week has that local
    time, so that it is a Monday in local time, zero to six calendar days
    before the local day of now, at the same local time of day.  In a zone
    of fixed offset the condition holds, and the start lies between six
    days before now and now. *)
Theorem start_of_week_is_monday (tz : JsDate.TimeZone) (now : Z) :
  (localTimeExists tz (localMonday tz now) ->
   let start := getStartOfWeek tz now in
   JsDate.LocalTime tz start = localMonday tz now
   /\ JsDate.getDay tz start = 1
   /\ 0 <= JsDate.Day (JsDate.LocalTime tz now) - JsDate.Day (JsDate.LocalTime tz start)
        <= 6
   /\ JsDate.TimeWithinDay (JsDate.LocalTime tz start)
      = JsDate.TimeWithinDay (JsDate.LocalTime tz now))
  /\ (forall tza : Z,
        localTimeExists (JsDate.fixedOffset tza)
          (localMonday (JsDate.fixedOffset tza) now)
        /\ now - 6 * JsDate.msPerDay
           <= getStartOfWeek (JsDate.fixedOffset tza) now <= now).
Proof.
  split.
  - unfold localTimeExists. intros Hmonday. cbv zeta.
    rewrite getStartOfWeek_local. unfold JsDate.getDay. rewrite Hmonday.
    unfold localMonday. cbv zeta.
    set (lt := JsDate.LocalTime tz now).
    pose proof (mondayIndex_range (JsDate.Day lt)) as Hm.
    set (m := mondayIndex (JsDate.Day lt)) in *.
    replace (lt - m * JsDate.msPerDay) with (lt + (- m) * JsDate.msPerDay) by lia.
    split; [done |]. split; [| split].
    + unfold JsDate.WeekDay. rewrite Day_add_days.
      unfold m, mondayIndex. Z.div_mod_to_equations; lia.
    + rewrite Day_add_days. lia.
    + unfold JsDate.TimeWithinDay. by apply Z.mod_add.
  - intros tza. split; [apply fixedOffset_exists |].
    rewrite getStartOfWeek_shift.
    pose proof (mondayIndex_range (JsDate.Day (JsDate.LocalTime tza now))) as Hm.
    unfold JsDate.msPerDay. lia.
Qed.

Lemma start_of_week_is_monday_witness :
  localTimeExists twoHoursEast (localMonday twoHoursEast 1717367400000)
  /\ getStartOfWeek twoHoursEast 1717367400000 = 1717367400000
  /\ JsDate.getDay twoHoursEast (getStartOfWeek twoHoursEast 1717367400000) = 1.
Proof.
  assert (localTimeExists twoHoursEast (localMonday twoHoursEast 1717367400000))
    as Hmonday by reflexivity.
  split; [exact Hmonday |]. split; [reflexivity |].
  exact (proj1 (proj2 (proj1 (start_of_week_is_monday twoHoursEast 1717367400000)
                         Hmonday))).
Defined.

(** X25.  While the clocks do not change in the week of now, and the local
    and the UTC calendar day of now agree, the dates of the week are the
    seven dates, from Monday to Sunday, of the week that contains today.
    The clocks of a zone of fixed offset never change, and without an
    offset the days always agree. *)
Theorem week_dates_when_days_agree (tz : JsDate.TimeZone) (now : Z) :
  (steadyWeek tz now ->
   JsDate.Day (JsDate.LocalTime tz now) = JsDate.Day now ->
   getDatesInWeek tz now = weekOf (JsDate.Day now))
  /\ (forall tza : Z, steadyWeek (JsDate.fixedOffset tza) now)
  /\ getDatesInWeek (JsDate.fixedOffset 0) now = weekOf (JsDate.Day now).
Proof.
  split; [| split].
  - intros Hsteady Hsame. by rewrite getDatesInWeek_steady, Hsame.
  - intros tza. apply steadyWeek_fixedOffset.
  - rewrite getDatesInWeek_sevenDates. unfold JsDate.LocalTime.
    cbn [JsDate.offsetAt JsDate.fixedOffset]. by rewrite Z.add_0_r.
Qed.

Lemma week_dates_when_days_agree_witness :
  steadyWeek twoHoursEast 1717329600000
  /\ JsDate.Day (JsDate.LocalTime twoHoursEast 1717329600000) = JsDate.Day 1717329600000
  /\ getDatesInWeek twoHoursEast 1717329600000
     = ["2024-05-27"; "2024-05-28"; "2024-05-29"; "2024-05-30"; "2024-05-31";
        "2024-06-01"; "2024-06-02"]
  /\ getDatesInWeek twoHoursEast 1717329600000 = weekOf (JsDate.Day 1717329600000).
Proof.
  assert (steadyWeek twoHoursEast 1717329600000) as Hsteady
    by apply steadyWeek_fixedOffset.
  split; [exact Hsteady |]. split; [reflexivity |]. split; [reflexivity |].
  exact (proj1 (week_dates_when_days_agree twoHoursEast 1717329600000) Hsteady eq_refl).
Defined.
